(** * pik.py: the task record, its line format and the task manager

    A shallow embedding of [Task], [TaskManager] and [menu_principal] of
    [pik.py], and the properties of the line format, of the store and of
    the menu.  The methods of [str] that the program calls on whole lines
    are written out; the library's [datetime] class and [str.lower] are
    taken as they are documented, as a signature with its laws. *)

From Stdlib Require Import Ascii String List PeanoNat NArith Bool Lia.
From Stdlib Require Import Permutation.
Import ListNotations.
Open Scope N_scope.

(** ** Python strings

    A Python [str] is a sequence of Unicode code points. *)

Definition str := list N.

Module Str.

(** Literals are written as Rocq strings, which hold the UTF-8 bytes of
    the text; [utf8] decodes them into code points. *)
Fixpoint utf8 (bs : list N) : str :=
  match bs with
  | [] => []
  | b :: r =>
    if b <? 128 then b :: utf8 r
    else if b <? 224 then
      match r with
      | c :: r1 => ((b - 192) * 64 + (c - 128)) :: utf8 r1
      | _ => []
      end
    else if b <? 240 then
      match r with
      | c :: d :: r2 =>
          ((b - 224) * 4096 + (c - 128) * 64 + (d - 128)) :: utf8 r2
      | _ => []
      end
    else
      match r with
      | c :: d :: e :: r3 =>
          ((b - 240) * 262144 + (c - 128) * 4096 + (d - 128) * 64
           + (e - 128)) :: utf8 r3
      | _ => []
      end
  end.

Definition lit (s : string) : str :=
  utf8 (map (fun a => N_of_ascii a) (list_ascii_of_string s)).

(** [a == b] *)
Fixpoint eqb (a b : str) : bool :=
  match a, b with
  | [], [] => true
  | x :: a', y :: b' => (x =? y) && eqb a' b'
  | _, _ => false
  end.

(** What [str.lower()] does to a text of Basic Latin and the Latin-1
    Supplement, the blocks the three priorities of the program are
    written in: the capital letters [A] to [Z] and [À] to [Þ] (the
    multiplication sign among them is no letter) move 32 places up. *)
Definition lower_char (c : N) : N :=
  if (65 <=? c) && (c <=? 90) then c + 32
  else if (192 <=? c) && (c <=? 222) && negb (c =? 215) then c + 32
  else c.

Definition lower_latin1 (s : str) : str := map lower_char s.

(** [str.isspace()] of one character: the characters [str.strip()]
    removes. *)
Definition isspace (c : N) : bool :=
  ((9 <=? c) && (c <=? 13)) || ((28 <=? c) && (c <=? 32))
  || (c =? 133) || (c =? 160) || (c =? 5760)
  || ((8192 <=? c) && (c <=? 8202))
  || (c =? 8232) || (c =? 8233) || (c =? 8239) || (c =? 8287)
  || (c =? 12288).

Fixpoint lstrip (s : str) : str :=
  match s with
  | [] => []
  | c :: s' => if isspace c then lstrip s' else s
  end.

Definition rstrip (s : str) : str := rev (lstrip (rev s)).

(** [s.strip()] *)
Definition strip (s : str) : str := lstrip (rstrip s).

(** [s.split(sep)] for a separator of one character: never empty, one
    field more than there are separators. *)
Fixpoint split (sep : N) (s : str) : list str :=
  match s with
  | [] => [[]]
  | c :: s' =>
    if c =? sep then [] :: split sep s'
    else match split sep s' with
         | f :: fs => (c :: f) :: fs
         | [] => [[c]]
         end
  end.

(** [c in s] for a character. *)
Definition contains (c : N) (s : str) : bool := existsb (N.eqb c) s.

(** The code points that UTF-8 has a form for: all but the surrogates,
    U+D800 to U+DFFF. *)
Definition encodable (c : N) : bool :=
  negb ((55296 <=? c) && (c <=? 57343)).

(** [s.encode()] does not raise. *)
Definition encodes (s : str) : bool := forallb encodable s.

End Str.

Notation "'py' s" := (Str.lit s) (at level 1, s at level 0, format "'py' s").

(** ** The library

    [datetime] is Python's library class, and [str.lower] follows the
    case tables of Unicode.  The program uses them through the operations
    below; [Library] is their signature, and [Laws] is what the
    documentation of the library says of them, and all that the proofs
    use. *)

Module Py.

Class Library := {
  (** The timestamps, naive or with a UTC offset. *)
  datetime : Type;
  (** The timestamps that the program meets: the readings of
      [datetime.now()], which the statements take as such, and what
      [fromisoformat] returns. *)
  datetime_ok : datetime -> Prop;
  (** [d.isoformat()] *)
  isoformat : datetime -> str;
  (** [str(d)], which is [d.isoformat(sep=' ')] *)
  to_str : datetime -> str;
  (** [datetime.fromisoformat(s)]; [None] stands for its [ValueError]. *)
  fromisoformat : str -> option datetime;
  (** [a <= b] *)
  le : datetime -> datetime -> bool;
  (** [s.lower()] *)
  lower : str -> str
}.

Class Laws (L : Library) : Prop := {
  (** On these timestamps [fromisoformat] is the inverse of
      [isoformat], with [T] or a space between the date and the time. *)
  iso_roundtrip :
    forall d, datetime_ok d -> fromisoformat (isoformat d) = Some d;
  str_roundtrip :
    forall d, datetime_ok d -> fromisoformat (to_str d) = Some d;
  (** What [fromisoformat] returns is such a timestamp. *)
  parsed_ok : forall s d, fromisoformat s = Some d -> datetime_ok d;
  (** The text of a timestamp is made of digits, [-], [:], [.] and [+],
      and of the [T] or the space; it ends with a digit. *)
  iso_chars :
    forall d c, In c (isoformat d) -> 43 <= c <= 58 \/ c = 84;
  str_chars :
    forall d c, In c (to_str d) -> 43 <= c <= 58 \/ c = 32;
  str_last :
    forall d, exists s c, to_str d = s ++ [c] /\ 48 <= c <= 57;
  (** [lower] on a text of the first 256 code points. *)
  lower_latin1 :
    forall s, (forall c, In c s -> c < 256) -> lower s = Str.lower_latin1 s;
  (** A text in lower case is its own lower case. *)
  lower_idem : forall s, lower (lower s) = lower s;
  (** [lower] neither adds nor removes a character below [A], and gives
      a text that can be encoded from one that can. *)
  lower_keeps :
    forall c s, c < 65 -> Str.contains c (lower s) = Str.contains c s;
  lower_encodes :
    forall s, Str.encodes s = true -> Str.encodes (lower s) = true
}.

End Py.

Abbreviation datetime := Py.datetime.

(** ** Exceptions

    Every error of the program is a [ValueError]; the constructors tell
    the places that raise it apart.  [UnicodeEncodeError] is a subclass of
    [ValueError]. *)

Inductive exn :=
| ValueError_unpack                 (* six names, another number of values *)
| ValueError_isoformat (s : str)    (* datetime.fromisoformat(s) *)
| ValueError_prioridade             (* "Prioridade deve ser 'baixa', ..." *)
| ValueError_existe                 (* "Tarefa já existe!" *)
| ValueError_nao_encontrada         (* "Tarefa não encontrada." *)
| UnicodeEncodeError.               (* f.write(s), s with a surrogate *)

Inductive result (A : Type) :=
| Ok (a : A)
| Raise (e : exn).
Arguments Ok {A} a.
Arguments Raise {A} e.

(** ** class Task

    [datetime.now()] reads the clock; the reading is an argument [now] of
    every function that reaches such a call. *)

Module Task.

Section Defs.

Context {L : Py.Library}.

Record t := mk {
  nome : str;
  prioridade : str;
  categoria : str;
  data_criacao : datetime;
  concluida : bool;
  data_conclusao : option datetime
}.

(** Assignments to one attribute. *)
Definition set_data_criacao (d : datetime) (x : t) : t :=
  mk (nome x) (prioridade x) (categoria x) d (concluida x) (data_conclusao x).

Definition set_concluida (b : bool) (x : t) : t :=
  mk (nome x) (prioridade x) (categoria x) (data_criacao x) b
     (data_conclusao x).

Definition set_data_conclusao (d : option datetime) (x : t) : t :=
  mk (nome x) (prioridade x) (categoria x) (data_criacao x) (concluida x) d.

(** [Task(nome, prioridade, categoria)] *)
Definition init (now : datetime) (nome prioridade categoria : str) : t :=
  mk nome (Py.lower prioridade) categoria now false None.

(** [self.concluir()] *)
Definition concluir (now : datetime) (self : t) : t :=
  set_data_conclusao (Some now) (set_concluida true self).

(** [f"{b}"] of a bool and of an optional datetime. *)
Definition format_bool (b : bool) : str :=
  if b then py"True" else py"False".

Definition format_opt (d : option datetime) : str :=
  match d with
  | None => py"None"
  | Some d => Py.to_str d
  end.

(** [self.to_line()] *)
Definition to_line (self : t) : str :=
  nome self ++ py";" ++ prioridade self ++ py";" ++ categoria self ++ py";"
  ++ Py.isoformat (data_criacao self) ++ py";"
  ++ format_bool (concluida self) ++ py";"
  ++ format_opt (data_conclusao self).

(** [datetime.fromisoformat(s)], with its [ValueError]. *)
Definition fromisoformat (s : str) : result datetime :=
  match Py.fromisoformat s with
  | Some d => Ok d
  | None => Raise (ValueError_isoformat s)
  end.

(** [Task.from_line(linha)].  The constructor reads the clock, and the
    reading is overwritten by the creation date of the line. *)
Definition from_line (now : datetime) (linha : str) : result t :=
  match Str.split 59 (Str.strip linha) with
  | [nome; prioridade; categoria; data_criacao; concluida; data_conclusao] =>
    let task := init now nome prioridade categoria in
    match fromisoformat data_criacao with
    | Raise e => Raise e
    | Ok d =>
      let task := set_data_criacao d task in
      let task := set_concluida (Str.eqb concluida py"True") task in
      if negb (Str.eqb data_conclusao py"None") then
        match fromisoformat data_conclusao with
        | Raise e => Raise e
        | Ok d' => Ok (set_data_conclusao (Some d') task)
        end
      else Ok task
    end
  | _ => Raise ValueError_unpack
  end.

End Defs.

End Task.

Abbreviation Task := Task.t.

(** ** The backing file

    The disk maps a path to the text of the file, when there is one.  A
    file opened in text mode is read with universal newlines: a carriage
    return, alone or before a line feed, reads as a line feed.  A line
    feed is written as it is, as on POSIX systems, and the text is
    encoded in UTF-8: a write of a text that [Str.encodes] refuses raises
    [UnicodeEncodeError].  The paths are paths that the system accepts,
    and the disk does not fail. *)

Definition disk := str -> option str.

Module File.

(** [open(path, "w")], the writes, and the close. *)
Definition write (path text : str) (d : disk) : disk :=
  fun p => if Str.eqb p path then Some text else d p.

Fixpoint universal_newlines (s : str) : str :=
  match s with
  | [] => []
  | c :: s' =>
    if c =? 13 then
      10 :: match s' with
            | c2 :: s'' =>
              if c2 =? 10 then universal_newlines s''
              else universal_newlines s'
            | [] => []
            end
    else c :: universal_newlines s'
  end.

(** The lines of a text, each with its line feed; the last one may lack
    it. *)
Fixpoint lines (s : str) : list str :=
  match s with
  | [] => []
  | c :: s' =>
    if c =? 10 then [10] :: lines s'
    else match lines s' with
         | l :: ls => (c :: l) :: ls
         | [] => [[c]]
         end
  end.

(** [for linha in f] *)
Definition readlines (text : str) : list str :=
  lines (universal_newlines text).

End File.

(** ** class TaskManager

    The manager owns the list of tasks; its methods run in a world made of
    the manager and the disk, and either return or raise.  The world is
    returned in both cases, as it is when the exception leaves the
    method. *)

Module TaskManager.

Section Defs.

Context {L : Py.Library}.

Record t := mk {
  arquivo : str;
  tasks : list Task
}.

Record world := mk_world {
  self : t;
  files : disk
}.

Definition M (A : Type) : Type := world -> result A * world.

Definition ret {A} (a : A) : M A := fun w => (Ok a, w).

Definition raise {A} (e : exn) : M A := fun w => (Raise e, w).

Definition bind {A B} (m : M A) (k : A -> M B) : M B :=
  fun w =>
    match m w with
    | (Ok a, w') => k a w'
    | (Raise e, w') => (Raise e, w')
    end.

Notation "x <-- m ; k" := (bind m (fun x => k))
  (at level 62, m at next level, right associativity).
Notation "m ;; k" := (bind m (fun _ => k))
  (at level 62, right associativity).

(** [self.tasks] and [self.tasks = ts] *)
Definition get_tasks : M (list Task) :=
  fun w => (Ok (tasks (self w)), w).

Definition set_tasks (ts : list Task) : M unit :=
  fun w => (Ok tt,
            mk_world (mk (arquivo (self w)) ts)
                     (files w)).

(** The loop of [salvar_tarefas]: how it ends, and the text it has
    written.  [f.write(s)] encodes [s] before it writes anything of it,
    and raises when [s] cannot be encoded; the lines written before are
    in the file when the [with] statement closes it. *)
Fixpoint escrever (ts : list Task) : result unit * str :=
  match ts with
  | [] => (Ok tt, [])
  | x :: ts' =>
    let linha := Task.to_line x ++ [10] in
    if Str.encodes linha then
      let r := escrever ts' in (fst r, linha ++ snd r)
    else (Raise UnicodeEncodeError, [])
  end.

(** [self.salvar_tarefas()]: the file is rewritten from the first line,
    one line per task. *)
Definition salvar_tarefas : M unit :=
  fun w =>
    let r := escrever (tasks (self w)) in
    (fst r,
     mk_world (self w) (File.write (arquivo (self w)) (snd r) (files w))).

(** [[Task.from_line(linha) for linha in f]]: the first line that fails
    ends the comprehension. *)
Fixpoint from_lines (now : datetime) (ls : list str) : result (list Task) :=
  match ls with
  | [] => Ok []
  | linha :: ls' =>
    match Task.from_line now linha with
    | Raise e => Raise e
    | Ok x =>
      match from_lines now ls' with
      | Raise e => Raise e
      | Ok xs => Ok (x :: xs)
      end
    end
  end.

(** [self.carregar_tarefas()], which only reads the disk. *)
Definition carregar_tarefas (now : datetime) (arquivo : str) (d : disk)
  : result (list Task) :=
  match d arquivo with
  | None => Ok []
  | Some text => from_lines now (File.readlines text)
  end.

(** [TaskManager(arquivo)] *)
Definition init (now : datetime) (arquivo : str) (d : disk) : result t :=
  match carregar_tarefas now arquivo d with
  | Raise e => Raise e
  | Ok ts => Ok (mk arquivo ts)
  end.

Definition prioridades : list str := [py"baixa"; py"média"; py"alta"].

(** [any(t.nome == nome for t in ts)] *)
Definition tem_nome (nome : str) (ts : list Task) : bool :=
  existsb (fun x => Str.eqb (Task.nome x) nome) ts.

(** [self.adicionar_tarefa(nome, prioridade, categoria)] *)
Definition adicionar_tarefa (now : datetime) (nome prioridade categoria : str)
  : M unit :=
  if negb (existsb (Str.eqb (Py.lower prioridade)) prioridades) then
    raise ValueError_prioridade
  else
    ts <-- get_tasks ;
    if tem_nome nome ts then raise ValueError_existe
    else
      set_tasks (ts ++ [Task.init now nome prioridade categoria]) ;;
      salvar_tarefas.

(** [self.listar_tarefas(concluida)] *)
Definition listar_tarefas (concluida : option bool) : M (list Task) :=
  ts <-- get_tasks ;
  ret (filter (fun x => match concluida with
                        | None => true
                        | Some b => Bool.eqb (Task.concluida x) b
                        end) ts).

(** A reference to a task of the list is the position of the task. *)
Fixpoint primeiro (nome : str) (ts : list Task) : option nat :=
  match ts with
  | [] => None
  | x :: ts' =>
    if Str.eqb (Task.nome x) nome then Some O
    else option_map S (primeiro nome ts')
  end.

(** [self.encontrar_tarefa(nome)] *)
Definition encontrar_tarefa (nome : str) : M nat :=
  ts <-- get_tasks ;
  match primeiro nome ts with
  | Some i => ret i
  | None => raise ValueError_nao_encontrada
  end.

(** A method call on the task at a position: the object is changed where
    it is. *)
Fixpoint alterar (i : nat) (f : Task -> Task) (ts : list Task) : list Task :=
  match ts, i with
  | [], _ => []
  | x :: ts', O => f x :: ts'
  | x :: ts', S i' => x :: alterar i' f ts'
  end.

(** [self.concluir_tarefa(nome)] *)
Definition concluir_tarefa (now : datetime) (nome : str) : M unit :=
  tarefa <-- encontrar_tarefa nome ;
  ts <-- get_tasks ;
  set_tasks (alterar tarefa (Task.concluir now) ts) ;;
  salvar_tarefas.

(** [self.remover_tarefa(nome)] *)
Definition remover_tarefa (nome : str) : M unit :=
  ts <-- get_tasks ;
  set_tasks (filter (fun x => negb (Str.eqb (Task.nome x) nome)) ts) ;;
  salvar_tarefas.

End Defs.

End TaskManager.

Abbreviation TaskManager := TaskManager.t.
Abbreviation world := TaskManager.world.

(** ** The caller

    The menu calls one method per round and catches the [ValueError]: the
    round leaves the world as the method left it. *)

Section Caller.

Context {L : Py.Library}.

Inductive call :=
| Adicionar (now : datetime) (nome prioridade categoria : str)
| Listar (concluida : option bool)
| Concluir (now : datetime) (nome : str)
| Remover (nome : str).

Definition round (c : call) (w : world) : world :=
  match c with
  | Adicionar now nome prioridade categoria =>
      snd (TaskManager.adicionar_tarefa now nome prioridade categoria w)
  | Listar concluida => snd (TaskManager.listar_tarefas concluida w)
  | Concluir now nome => snd (TaskManager.concluir_tarefa now nome w)
  | Remover nome => snd (TaskManager.remover_tarefa nome w)
  end.

Definition rounds (cs : list call) (w : world) : world :=
  fold_left (fun w c => round c w) cs w.

(** ** Notions used in the statements *)

(** What reading back the line of a task gives: the line is stripped, and
    the constructor lowers the priority. *)
Definition reread (x : Task) : Task :=
  Task.mk (Str.lstrip (Task.nome x)) (Py.lower (Task.prioridade x))
          (Task.categoria x) (Task.data_criacao x) (Task.concluida x)
          (Task.data_conclusao x).

(** The datetime objects of a task are timestamps of the library. *)
Definition dates_ok (x : Task) : Prop :=
  Py.datetime_ok (Task.data_criacao x)
  /\ forall d, Task.data_conclusao x = Some d -> Py.datetime_ok d.

(** No text attribute holds the character [c]. *)
Definition free_of (c : N) (x : Task) : bool :=
  negb (Str.contains c (Task.nome x))
  && negb (Str.contains c (Task.prioridade x))
  && negb (Str.contains c (Task.categoria x)).

(** The text begins with a character that [strip] removes. *)
Definition starts_with_space (s : str) : bool :=
  match s with
  | c :: _ => Str.isspace c
  | [] => false
  end.

(** A valid task record, in the words of the data model: no text attribute
    holds the separator, the priority is one of the three, the completion
    date is there exactly when the task is completed, and it is not before
    the creation date. *)
Definition valid_record (x : Task) : Prop :=
  free_of 59 x = true
  /\ In (Task.prioridade x) TaskManager.prioridades
  /\ (Task.data_conclusao x <> None <-> Task.concluida x = true)
  /\ dates_ok x
  /\ forall d, Task.data_conclusao x = Some d ->
               Py.le (Task.data_criacao x) d = true.

(** The fields of a line, as [from_line] cuts them. *)
Definition fields (linha : str) : list str :=
  Str.split 59 (Str.strip linha).

Definition tasks_of (w : world) : list Task :=
  TaskManager.tasks (TaskManager.self w).

Definition names (ts : list Task) : list str := map Task.nome ts.

(** How many tasks have the name. *)
Definition count_nome (nome : str) (ts : list Task) : nat :=
  count_occ (list_eq_dec N.eq_dec) (names ts) nome.

(** How many tasks have the completion state [b]. *)
Fixpoint count_state (b : bool) (ts : list Task) : nat :=
  match ts with
  | [] => O
  | x :: ts' =>
    if Bool.eqb (Task.concluida x) b then S (count_state b ts')
    else count_state b ts'
  end.

(** The task [x] after [concluir] at the clock reading [d], attribute by
    attribute. *)
Definition completed (d : datetime) (x : Task) : Task :=
  Task.mk (Task.nome x) (Task.prioridade x) (Task.categoria x)
          (Task.data_criacao x) true (Some d).

(** The completion date is there exactly when the task is completed. *)
Definition coherent (x : Task) : Prop :=
  Task.data_conclusao x <> None <-> Task.concluida x = true.

(** The text attributes hold no separator and no end of line. *)
Definition serializable (x : Task) : bool :=
  free_of 59 x && free_of 10 x && free_of 13 x.

(** The lines of the tasks, one after the other. *)
Definition text_of (ts : list Task) : str :=
  flat_map (fun x => Task.to_line x ++ [10]) ts.

(** The line of the task can be encoded, and every line can. *)
Definition line_ok (x : Task) : bool :=
  Str.encodes (Task.to_line x ++ [10]).

Definition writable (ts : list Task) : bool := forallb line_ok ts.

(** The tasks before the first one whose line cannot be encoded. *)
Fixpoint writable_prefix (ts : list Task) : list Task :=
  match ts with
  | [] => []
  | x :: ts' => if line_ok x then x :: writable_prefix ts' else []
  end.

(** What [salvar_tarefas] leaves in the file, and how it ends, for the
    tasks [ts]. *)
Definition written (ts : list Task) : str := text_of (writable_prefix ts).

Definition outcome (ts : list Task) : result unit :=
  if writable ts then Ok tt else Raise UnicodeEncodeError.

(** The world after [salvar_tarefas] with the tasks [ts]. *)
Definition saved (w : world) (ts : list Task) : world :=
  TaskManager.mk_world
    (TaskManager.mk (TaskManager.arquivo (TaskManager.self w)) ts)
    (File.write (TaskManager.arquivo (TaskManager.self w)) (written ts)
                (TaskManager.files w)).

(** ** Notions used for the rest of the code *)

Definition path_of (w : world) : str :=
  TaskManager.arquivo (TaskManager.self w).

(** The backing file holds the lines of the tasks of the manager. *)
Definition in_sync (w : world) : Prop :=
  TaskManager.files w (path_of w) = Some (text_of (tasks_of w)).

(** The backing file holds what [salvar_tarefas] writes for the tasks of
    the manager: their lines, up to the first that cannot be encoded. *)
Definition in_step (w : world) : Prop :=
  TaskManager.files w (path_of w) = Some (written (tasks_of w)).

(** The text holds no separator and no end of line, and can be
    encoded. *)
Definition clean (s : str) : bool :=
  negb (Str.contains 59 s) && negb (Str.contains 10 s)
  && negb (Str.contains 13 s) && Str.encodes s.

(** The task is written and read back as it is. *)
Definition stable (x : Task) : Prop :=
  serializable x = true /\ dates_ok x /\ reread x = x.

(** The backing file holds the lines of the tasks, or there is no file
    yet and no task. *)
Definition persisted (w : world) : Prop :=
  in_sync w
  \/ (TaskManager.files w (path_of w) = None /\ tasks_of w = []).

(** A manager made on the path of the store, at any time, has exactly
    the tasks of the store. *)
Definition restarts (w : world) : Prop :=
  forall now,
    TaskManager.init now (path_of w) (TaskManager.files w)
    = Ok (TaskManager.self w).

(** The texts that a call gives to a new task are clean, the name does
    not begin with whitespace, and the clock reading is a date. *)
Definition call_ok (c : call) : Prop :=
  match c with
  | Adicionar now nome _ categoria =>
      Py.datetime_ok now /\ clean nome = true
      /\ starts_with_space nome = false /\ clean categoria = true
  | Concluir now _ => Py.datetime_ok now
  | _ => True
  end.

(** The file at the path, when there is one, holds a text that was
    decoded from the bytes of a file. *)
Definition decoded (d : disk) (path : str) : Prop :=
  forall text, d path = Some text -> Str.encodes text = true.

End Caller.

(** [l] is made of elements of [r], in the order of [r]. *)
Inductive subseq {A : Type} : list A -> list A -> Prop :=
| subseq_nil : subseq [] []
| subseq_keep x l r : subseq l r -> subseq (x :: l) (x :: r)
| subseq_skip x l r : subseq l r -> subseq l (x :: r).

(** A disk with no file. *)
Definition no_disk : disk := fun _ => None.

(** ** The menu

    The console is the lines still to be read and the text written so
    far.  [input] writes its prompt and reads a line, and raises
    [EOFError] when there is none left; [print] writes its text and an
    end of line.  The console passes on any text, as the standard
    streams do with the error handler [surrogateescape]: a line read may
    hold a code point that the file cannot hold, and [print] does not
    fail.  The menu runs in the world and the console. *)

Record console := mk_console {
  stdin : list str;
  stdout : str
}.

Inductive raised :=
| Value_error (e : exn)
| EOF_error.

Section Console.

Context {L : Py.Library}.

Definition IO (A : Type) : Type :=
  world * console -> (A + raised) * (world * console).

Definition io_ret {A} (a : A) : IO A := fun s => (inl a, s).

Definition io_bind {A B} (m : IO A) (k : A -> IO B) : IO B :=
  fun s =>
    match m s with
    | (inl a, s') => k a s'
    | (inr r, s') => (inr r, s')
    end.

(** [print(text)] *)
Definition io_print (text : str) : IO unit :=
  fun s =>
    (inl tt,
     (fst s, mk_console (stdin (snd s)) (stdout (snd s) ++ text ++ [10]))).

(** [input(prompt)] *)
Definition io_input (prompt : str) : IO str :=
  fun s =>
    match stdin (snd s) with
    | [] =>
        (inr EOF_error, (fst s, mk_console [] (stdout (snd s) ++ prompt)))
    | l :: ls => (inl l, (fst s, mk_console ls (stdout (snd s) ++ prompt)))
    end.

(** A call of a method of the manager. *)
Definition io_call {A} (m : TaskManager.M A) : IO A :=
  fun s =>
    match m (fst s) with
    | (Ok a, w') => (inl a, (w', snd s))
    | (Raise e, w') => (inr (Value_error e), (w', snd s))
    end.

(** [try: body / except ValueError as e: handler] *)
Definition except_ValueError {A} (body : IO A) (handler : exn -> IO A)
  : IO A :=
  fun s =>
    match body s with
    | (inr (Value_error e), s') => handler e s'
    | r => r
    end.

End Console.

(** How a round of the loop ends, and how the menu ends: by its
    [break], by an [EOFError] of [input], or by a [ValueError] that
    nothing catches. *)
Inductive signal := Continue | Break.

Inductive ending :=
| Returned
| EOFError
| Uncaught (e : exn)
| Out_of_fuel.

Section Menu.

Context {L : Py.Library}.

(** [s.capitalize()] and [str(e)] are the library's; the clock gives one
    reading to each round of the loop. *)
Variable capitalize : str -> str.
Variable str_exn : exn -> str.
Variable relogio : nat -> datetime.

Notation "x <- m ;; k" := (io_bind m (fun x => k))
  (at level 62, m at next level, right associativity).
Notation "m ;;; k" := (io_bind m (fun _ => k))
  (at level 62, right associativity).

(** The line of a task in the listing. *)
Definition linha_tarefa (x : Task) : str :=
  Task.nome x ++ py" - " ++ capitalize (Task.prioridade x) ++ py" - "
  ++ Task.categoria x ++ py" - "
  ++ (if Task.concluida x then py"Concluída" else py"Pendente").

Fixpoint print_tarefas (ts : list Task) : IO unit :=
  match ts with
  | [] => io_ret tt
  | x :: ts' => io_print (linha_tarefa x) ;;; print_tarefas ts'
  end.

(** The body of the [try]. *)
Definition escolha (now : datetime) (opcao : str) : IO signal :=
  if Str.eqb opcao py"1" then
    nome <- io_input py"Nome: " ;;
    prioridade <- io_input py"Prioridade (baixa/média/alta): " ;;
    categoria <- io_input py"Categoria: " ;;
    io_call (TaskManager.adicionar_tarefa now nome prioridade categoria) ;;;
    io_print py"Tarefa adicionada!" ;;;
    io_ret Continue
  else if Str.eqb opcao py"2" then
    status <- io_input py"Filtrar por status? (pendente/concluída/todas): " ;;
    tarefas <-
      (if Str.eqb (Py.lower status) py"pendente" then
         io_call (TaskManager.listar_tarefas (Some false))
       else if Str.eqb (Py.lower status) py"concluída" then
         io_call (TaskManager.listar_tarefas (Some true))
       else io_call (TaskManager.listar_tarefas None)) ;;
    print_tarefas tarefas ;;;
    io_ret Continue
  else if Str.eqb opcao py"3" then
    nome <- io_input py"Nome da tarefa para concluir: " ;;
    io_call (TaskManager.concluir_tarefa now nome) ;;;
    io_print py"Tarefa concluída!" ;;;
    io_ret Continue
  else if Str.eqb opcao py"4" then
    nome <- io_input py"Nome da tarefa para remover: " ;;
    io_call (TaskManager.remover_tarefa nome) ;;;
    io_print py"Tarefa removida!" ;;;
    io_ret Continue
  else if Str.eqb opcao py"5" then
    io_print py"Saindo..." ;;;
    io_ret Break
  else
    io_print py"Opção inválida!" ;;;
    io_ret Continue.

(** What every round prints first. *)
Definition cabecalho : IO unit :=
  io_print ([10] ++ py"=== GERENCIADOR DE TAREFAS ===") ;;;
  io_print py"1. Adicionar Tarefa" ;;;
  io_print py"2. Listar Tarefas" ;;;
  io_print py"3. Concluir Tarefa" ;;;
  io_print py"4. Remover Tarefa" ;;;
  io_print py"5. Sair".

(** The [try] statement, and the [input] that follows it unless the
    body ended by [break]. *)
Definition tratar (now : datetime) (opcao : str) : IO signal :=
  s <- except_ValueError (escolha now opcao)
         (fun e => io_print (py"Erro: " ++ str_exn e) ;;; io_ret Continue) ;;
  match s with
  | Break => io_ret Break
  | Continue =>
      io_input py"Pressione Enter para continuar..." ;;; io_ret Continue
  end.

(** One round of [while True]. *)
Definition iteration (now : datetime) : IO signal :=
  cabecalho ;;;
  opcao <- io_input py"Escolha uma opção: " ;;
  tratar now opcao.

(** The loop, for at most [fuel] rounds; [i] counts the rounds. *)
Fixpoint loop (fuel i : nat) (s : world * console)
  : ending * (world * console) :=
  match fuel with
  | O => (Out_of_fuel, s)
  | S fuel' =>
    match iteration (relogio i) s with
    | (inl Continue, s') => loop fuel' (S i) s'
    | (inl Break, s') => (Returned, s')
    | (inr EOF_error, s') => (EOFError, s')
    | (inr (Value_error e), s') => (Uncaught e, s')
    end
  end.

(** [menu_principal()]: the manager is made on [tarefas.txt], outside
    the [try]; what is left at the end is the disk and the console. *)
Definition menu_principal (now : datetime) (fuel : nat) (d : disk)
           (entrada : list str) : ending * disk * console :=
  match TaskManager.init now (py"tarefas.txt") d with
  | Raise e => (Uncaught e, d, mk_console entrada [])
  | Ok m =>
    let r := loop fuel O (TaskManager.mk_world m d, mk_console entrada []) in
    (fst r, TaskManager.files (fst (snd r)), snd (snd r))
  end.

End Menu.

(** The computation reaches its world by rounds of the manager, and
    reads lines from the front of the input. *)
Definition tame {L : Py.Library} {A} (m : IO A) : Prop :=
  forall s,
    (exists cs, fst (snd (m s)) = rounds cs (fst s))
    /\ exists k, stdin (snd (snd (m s))) = skipn k (stdin (snd s)).

(** No [ValueError] leaves the computation. *)
Definition catches {L : Py.Library} {A} (m : IO A) : Prop :=
  forall s e, fst (m s) <> inr (Value_error e).

(** The computation does not end by [break]. *)
Definition goes_on {L : Py.Library} (m : IO signal) : Prop :=
  forall s, fst (m s) <> inl Break.

(** The text that every round prints first. *)
Definition texto_cabecalho : str :=
  [10] ++ py"=== GERENCIADOR DE TAREFAS ===" ++ [10]
  ++ py"1. Adicionar Tarefa" ++ [10]
  ++ py"2. Listar Tarefas" ++ [10]
  ++ py"3. Concluir Tarefa" ++ [10]
  ++ py"4. Remover Tarefa" ++ [10]
  ++ py"5. Sair" ++ [10].

(** ** A library of naive timestamps

    An instance of the signature, on which the examples are evaluated:
    the timestamps without a time zone, as their seven calendar fields,
    with the canonical text form that [isoformat] writes and the parser
    of the forms a naive timestamp is written in, and [lower] on the
    first 256 code points.  On the texts of the examples it gives what
    the library gives. *)

Record naive := mk_naive {
  year : N; month : N; day : N;
  hour : N; minute : N; second : N; microsecond : N
}.

Module Naive.

Definition is_leap (y : N) : bool :=
  (y mod 4 =? 0) && (negb (y mod 100 =? 0) || (y mod 400 =? 0)).

Definition days_in_month (y m : N) : N :=
  match m with
  | 2 => if is_leap y then 29 else 28
  | 4 | 6 | 9 | 11 => 30
  | _ => 31
  end.

(** The range checks of the constructor. *)
Definition check_fields (y m d hh mm ss us : N) : bool :=
  (1 <=? y) && (y <=? 9999) && (1 <=? m) && (m <=? 12)
  && (1 <=? d) && (d <=? days_in_month y m)
  && (hh <=? 23) && (mm <=? 59) && (ss <=? 59) && (us <=? 999999).

Definition datetime_ok (d : naive) : Prop :=
  check_fields (year d) (month d) (day d)
               (hour d) (minute d) (second d) (microsecond d) = true.

Notation "' p <- e ;; k" :=
  (match e with Some p => k | None => None end)
  (at level 61, p pattern, e at next level, right associativity).

(** ["%0kd" % n] *)
Definition digit (v : N) : N := 48 + v mod 10.

Fixpoint pad (k : nat) (n : N) : str :=
  match k with
  | O => []
  | S k' => digit (n / 10 ^ N.of_nat k') :: pad k' n
  end.

(** [d.isoformat(sep)]: [YYYY-MM-DD], the separator, [HH:MM:SS], and
    [.ffffff] when the microseconds are not zero. *)
Definition format (sep : N) (d : naive) : str :=
  pad 4 (year d) ++ [45] ++ pad 2 (month d) ++ [45] ++ pad 2 (day d)
  ++ [sep]
  ++ pad 2 (hour d) ++ [58] ++ pad 2 (minute d) ++ [58] ++ pad 2 (second d)
  ++ (if microsecond d =? 0 then [] else 46 :: pad 6 (microsecond d)).

(** [d.isoformat()] *)
Definition isoformat (d : naive) : str := format 84 d.

(** [str(d)] *)
Definition to_str (d : naive) : str := format 32 d.

Definition digit_val (c : N) : option N :=
  if (48 <=? c) && (c <=? 57) then Some (c - 48) else None.

(** Reads exactly [k] decimal digits. *)
Fixpoint parse_digits (k : nat) (s : str) (acc : N) : option (N * str) :=
  match k with
  | O => Some (acc, s)
  | S k' =>
    match s with
    | [] => None
    | c :: s' =>
      match digit_val c with
      | None => None
      | Some v => parse_digits k' s' (acc * 10 + v)
      end
    end
  end.

Definition expect (c : N) (s : str) : option str :=
  match s with
  | x :: s' => if x =? c then Some s' else None
  | [] => None
  end.

(** [YYYY-MM-DD] and what follows it. *)
Definition parse_isoformat_date (s : str) : option (N * N * N * str) :=
  '(y, s1) <- parse_digits 4 s 0 ;;
  's2 <- expect 45 s1 ;;
  '(m, s3) <- parse_digits 2 s2 0 ;;
  's4 <- expect 45 s3 ;;
  '(d, s5) <- parse_digits 2 s4 0 ;;
  Some (y, m, d, s5).

(** The fraction [fff] or [ffffff], up to the end of the text. *)
Definition parse_fraction (s : str) : option N :=
  match parse_digits 3 s 0 with
  | Some (ms, []) => Some (ms * 1000)
  | _ =>
    match parse_digits 6 s 0 with
    | Some (us, []) => Some us
    | _ => None
    end
  end.

Definition at_end (s : str) : bool :=
  match s with [] => true | _ => false end.

(** [HH[:MM[:SS[.fff[fff]]]]], up to the end of the text. *)
Definition parse_hh_mm_ss_ff (s : str) : option (N * N * N * N) :=
  '(hh, s1) <- parse_digits 2 s 0 ;;
  if at_end s1 then Some (hh, 0, 0, 0) else
  's2 <- expect 58 s1 ;;
  '(mm, s3) <- parse_digits 2 s2 0 ;;
  if at_end s3 then Some (hh, mm, 0, 0) else
  's4 <- expect 58 s3 ;;
  '(ss, s5) <- parse_digits 2 s4 0 ;;
  if at_end s5 then Some (hh, mm, ss, 0) else
  's6 <- expect 46 s5 ;;
  'us <- parse_fraction s6 ;;
  Some (hh, mm, ss, us).

(** The constructor [datetime(y, m, d, hh, mm, ss, us)]. *)
Definition make (y m d hh mm ss us : N) : option naive :=
  if check_fields y m d hh mm ss us
  then Some (mk_naive y m d hh mm ss us)
  else None.

(** The parser of [YYYY-MM-DD[*HH[:MM[:SS[.fff[fff]]]]]], where [*] is
    any one character. *)
Definition fromisoformat (s : str) : option naive :=
  '(y, m, d, rest) <- parse_isoformat_date s ;;
  match rest with
  | [] => make y m d 0 0 0 0
  | _ :: tstr =>
    '(hh, mm, ss, us) <- parse_hh_mm_ss_ff tstr ;;
    make y m d hh mm ss us
  end.

(** Comparison of naive timestamps: field by field, the year first. *)
Definition key (d : naive) : list N :=
  [year d; month d; day d; hour d; minute d; second d; microsecond d].

Fixpoint lex_leb (a b : list N) : bool :=
  match a, b with
  | x :: a', y :: b' =>
    match x ?= y with
    | Lt => true
    | Gt => false
    | Eq => lex_leb a' b'
    end
  | _, _ => true
  end.

(** [a <= b] *)
Definition leb (a b : naive) : bool := lex_leb (key a) (key b).

End Naive.

#[global] Instance modelo : Py.Library := {|
  Py.datetime := naive;
  Py.datetime_ok := Naive.datetime_ok;
  Py.isoformat := Naive.isoformat;
  Py.to_str := Naive.to_str;
  Py.fromisoformat := Naive.fromisoformat;
  Py.le := Naive.leb;
  Py.lower := Str.lower_latin1
|}.

(** Sample library functions for the menu.  [mensagem] gives the three
    messages that the program writes in its [raise]; the texts of the
    errors that the library raises are not spelled out.
    [capitalize_ascii] makes the capital of a first character in Basic
    Latin. *)
Definition mensagem (e : exn) : str :=
  match e with
  | ValueError_prioridade =>
      py"Prioridade deve ser 'baixa', 'média' ou 'alta'."
  | ValueError_existe => py"Tarefa já existe!"
  | ValueError_nao_encontrada => py"Tarefa não encontrada."
  | ValueError_unpack | ValueError_isoformat _ | UnicodeEncodeError => []
  end.

Definition capitalize_ascii (s : str) : str :=
  match s with
  | [] => []
  | c :: r =>
    (if (97 <=? c) && (c <=? 122) then c - 32 else c) :: Str.lower_latin1 r
  end.

(** Sample values. *)
Definition dia1 : @datetime modelo := mk_naive 2024 1 5 9 30 0 0.
Definition dia2 : @datetime modelo := mk_naive 2024 1 6 18 0 0 250.

Definition sem_relogio : nat -> @datetime modelo := fun _ => dia1.

Definition tarefa_espaco : @Task modelo :=
  Task.mk (py" X") (py"alta") (py"c") dia1 false None.

(** A manager on [tarefas.txt] with no file yet. *)
Definition fresh : @world modelo :=
  TaskManager.mk_world (TaskManager.mk (py"tarefas.txt") []) no_disk.

(** A backing file with the same name on two lines, and the store it
    loads. *)
Definition x_alta : @Task modelo :=
  Task.mk (py"X") (py"alta") (py"c") dia1 false None.
Definition x_baixa : @Task modelo :=
  Task.mk (py"X") (py"baixa") (py"d") dia1 false None.

Definition disco_repetido : disk :=
  File.write (py"tarefas.txt")
    (py"X;alta;c;2024-01-05T09:30:00;False;None" ++ [10]
     ++ py"X;baixa;d;2024-01-05T09:30:00;False;None" ++ [10])
    no_disk.

Definition repetido : @world modelo :=
  TaskManager.mk_world (TaskManager.mk (py"tarefas.txt") [x_alta; x_baixa])
                       disco_repetido.

(** A backing file whose line is completed and has no completion date. *)
Definition disco_sem_data : disk :=
  File.write (py"tarefas.txt")
    (py"X;alta;c;2024-01-05T09:30:00;True;None" ++ [10]) no_disk.

(** A store whose first task has the separator in its name. *)
Definition com_separador : @world modelo :=
  round (Adicionar dia1 (py"a;b") (py"alta") (py"c")) fresh.

(** A task whose name is the lone surrogate U+DCFF, which no encoding
    holds, and a store with it. *)
Definition x_surrogate : @Task modelo :=
  Task.mk [56575] (py"alta") (py"c") dia1 false None.

Definition com_surrogate : @world modelo :=
  TaskManager.mk_world (TaskManager.mk (py"tarefas.txt") [x_alta; x_surrogate])
                       no_disk.

(** * Evaluations *)

Example lit_media : py"média" = [109; 233; 100; 105; 97].
Proof. reflexivity. Qed.

Example lower_MEDIA : Str.lower_latin1 [77; 201; 68; 73; 65] = py"média".
Proof. reflexivity. Qed.

Example iso_example :
  Naive.isoformat (mk_naive 2024 1 5 9 30 0 0) = py"2024-01-05T09:30:00".
Proof. reflexivity. Qed.

Example str_example :
  Naive.to_str (mk_naive 2024 1 5 9 30 0 1500)
  = py"2024-01-05 09:30:00.001500".
Proof. reflexivity. Qed.

Example parse_example :
  Naive.fromisoformat (py"2024-01-05 09:30:00.001500")
  = Some (mk_naive 2024 1 5 9 30 0 1500).
Proof. reflexivity. Qed.

Example parse_bad_day :
  Naive.fromisoformat (py"2023-02-29T00:00:00") = None.
Proof. reflexivity. Qed.

Example split_example :
  Str.split 59 (py"a;;b") = [py"a"; []; py"b"].
Proof. reflexivity. Qed.

Example strip_example :
  Str.strip ([32; 9] ++ py"a b" ++ [32; 10]) = py"a b".
Proof. reflexivity. Qed.

Example readlines_example :
  File.readlines (py"a" ++ [13; 10] ++ py"b" ++ [13] ++ py"c")
  = [py"a" ++ [10]; py"b" ++ [10]; py"c"].
Proof. reflexivity. Qed.

Example to_line_example :
  Task.to_line (Task.concluir dia2 x_alta)
  = py"X;alta;c;2024-01-05T09:30:00;True;2024-01-06 18:00:00.000250".
Proof. reflexivity. Qed.

(** The names [" X"] and ["X"] are both accepted, and are one name after
    the file is loaded again. *)
Example reload_merges_names :
  names (tasks_of (rounds [Adicionar dia1 (py" X") (py"alta") (py"c");
                           Adicionar dia1 (py"X") (py"alta") (py"c")] fresh))
  = [py" X"; py"X"]
  /\ TaskManager.init dia2 (py"tarefas.txt")
       (TaskManager.files
          (rounds [Adicionar dia1 (py" X") (py"alta") (py"c");
                   Adicionar dia1 (py"X") (py"alta") (py"c")] fresh))
     = Ok (TaskManager.mk (py"tarefas.txt") [x_alta; x_alta]).
Proof. split; reflexivity. Qed.

(** A store whose second task cannot be written: the save raises, and
    the file holds the line of the first task. *)
Example salvar_surrogate :
  TaskManager.salvar_tarefas com_surrogate
  = (Raise UnicodeEncodeError,
     TaskManager.mk_world
       (TaskManager.mk (py"tarefas.txt") [x_alta; x_surrogate])
       (File.write (py"tarefas.txt")
          (py"X;alta;c;2024-01-05T09:30:00;False;None" ++ [10]) no_disk)).
Proof. reflexivity. Qed.

(** * Lemmas on strings *)

Lemma eqb_eq (a b : str) : Str.eqb a b = true <-> a = b.
Proof.
  revert b; induction a as [|x a IH]; intros [|y b]; simpl;
    try (split; congruence).
  rewrite andb_true_iff, N.eqb_eq, IH. split.
  - intros [-> ->]; reflexivity.
  - intros H; inversion H; auto.
Qed.

Lemma eqb_refl (a : str) : Str.eqb a a = true.
Proof. apply eqb_eq; reflexivity. Qed.

Lemma eqb_neq (a b : str) : Str.eqb a b = false <-> a <> b.
Proof.
  rewrite <- eqb_eq. destruct (Str.eqb a b); split; congruence.
Qed.

Lemma lstrip_app (a b : str) (c : N) :
  Str.isspace c = false ->
  Str.lstrip (a ++ c :: b) = Str.lstrip a ++ c :: b.
Proof.
  intros Hc; induction a as [|x a IH]; simpl.
  - rewrite Hc; reflexivity.
  - destruct (Str.isspace x); auto.
Qed.

Lemma rstrip_snoc (s : str) (c : N) :
  Str.isspace c = false -> Str.rstrip (s ++ [c]) = s ++ [c].
Proof.
  intros Hc; unfold Str.rstrip. rewrite rev_app_distr; simpl.
  rewrite Hc; simpl. rewrite rev_involutive; reflexivity.
Qed.

Lemma rstrip_snoc_space (s : str) (c : N) :
  Str.isspace c = true -> Str.rstrip (s ++ [c]) = Str.rstrip s.
Proof.
  intros Hc; unfold Str.rstrip. rewrite rev_app_distr; simpl.
  rewrite Hc; reflexivity.
Qed.

Lemma contains_app (c : N) (a b : str) :
  Str.contains c (a ++ b) = Str.contains c a || Str.contains c b.
Proof. apply existsb_app. Qed.

Lemma contains_cons (c a : N) (l : str) :
  Str.contains c (a :: l) = (c =? a) || Str.contains c l.
Proof. reflexivity. Qed.

Lemma contains_false (c : N) (s : str) :
  Str.contains c s = false <-> forall x, In x s -> x <> c.
Proof.
  unfold Str.contains; induction s as [|y s IH]; simpl.
  - split; [intros _ x [] | reflexivity].
  - rewrite orb_false_iff, IH, N.eqb_neq. split.
    + intros [H1 H2] x [<-|Hx]; auto.
    + intros H; split; [intros ->; apply (H y); auto | intros x Hx; apply H; auto].
Qed.

Lemma contains_lstrip (c : N) (s : str) :
  Str.contains c s = false -> Str.contains c (Str.lstrip s) = false.
Proof.
  induction s as [|x s IH]; simpl; auto.
  intros H. destruct (Str.isspace x); auto.
  apply orb_false_iff in H; apply IH, H.
Qed.

Lemma split_app (sep : N) (a b : str) :
  Str.contains sep a = false ->
  Str.split sep (a ++ sep :: b) = a :: Str.split sep b.
Proof.
  induction a as [|x a IH]; simpl.
  - rewrite N.eqb_refl; reflexivity.
  - intros H; apply orb_false_iff in H as [Hx Ha].
    rewrite N.eqb_sym in Hx. rewrite Hx, (IH Ha); reflexivity.
Qed.

Lemma split_one (sep : N) (a : str) :
  Str.contains sep a = false -> Str.split sep a = [a].
Proof.
  induction a as [|x a IH]; simpl; auto.
  intros H; apply orb_false_iff in H as [Hx Ha].
  rewrite N.eqb_sym in Hx. rewrite Hx, (IH Ha); reflexivity.
Qed.

Lemma lower_char_idem (c : N) :
  Str.lower_char (Str.lower_char c) = Str.lower_char c.
Proof.
  unfold Str.lower_char.
  destruct ((65 <=? c) && (c <=? 90)) eqn:E1.
  - apply andb_true_iff in E1 as [A B]. apply N.leb_le in A, B.
    replace (c + 32 <=? 90) with false by (symmetry; apply N.leb_gt; lia).
    rewrite andb_false_r.
    replace (c + 32 <=? 222) with true by (symmetry; apply N.leb_le; lia).
    replace (192 <=? c + 32) with false by (symmetry; apply N.leb_gt; lia).
    reflexivity.
  - destruct ((192 <=? c) && (c <=? 222) && negb (c =? 215)) eqn:E2.
    + apply andb_true_iff in E2 as [E2 _].
      apply andb_true_iff in E2 as [A B]. apply N.leb_le in A, B.
      replace (c + 32 <=? 90) with false by (symmetry; apply N.leb_gt; lia).
      rewrite andb_false_r.
      replace (c + 32 <=? 222) with false by (symmetry; apply N.leb_gt; lia).
      rewrite andb_false_r. reflexivity.
    + rewrite E1, E2; reflexivity.
Qed.

Lemma lower_latin1_idem (s : str) : Str.lower_latin1 (Str.lower_latin1 s) = Str.lower_latin1 s.
Proof.
  unfold Str.lower_latin1; rewrite map_map. apply map_ext, lower_char_idem.
Qed.

Lemma lower_char_small (c y : N) :
  c < 65 -> (c =? Str.lower_char y) = (c =? y).
Proof.
  intros Hc. unfold Str.lower_char.
  destruct ((65 <=? y) && (y <=? 90)) eqn:E1.
  - apply andb_true_iff in E1 as [A _]. apply N.leb_le in A.
    transitivity false;
      [apply N.eqb_neq; lia | symmetry; apply N.eqb_neq; lia].
  - destruct ((192 <=? y) && (y <=? 222) && negb (y =? 215)) eqn:E2;
      [|reflexivity].
    apply andb_true_iff in E2 as [E2 _].
    apply andb_true_iff in E2 as [A _]. apply N.leb_le in A.
    transitivity false;
      [apply N.eqb_neq; lia | symmetry; apply N.eqb_neq; lia].
Qed.

Lemma contains_lower_latin1 (c : N) (s : str) :
  c < 65 -> Str.contains c (Str.lower_latin1 s) = Str.contains c s.
Proof.
  intros Hc. induction s as [|y s IH]; [reflexivity|].
  cbn [Str.lower_latin1 map]. rewrite !contains_cons.
  fold (Str.lower_latin1 s). rewrite IH, lower_char_small by exact Hc. reflexivity.
Qed.

(** * The library of naive timestamps meets the laws *)

Lemma digit_val_digit (v : N) :
  Naive.digit_val (Naive.digit v) = Some (v mod 10).
Proof.
  unfold Naive.digit_val, Naive.digit.
  assert (H : v mod 10 < 10) by (apply N.mod_lt; discriminate).
  set (r := v mod 10) in *; clearbody r.
  replace (48 <=? 48 + r) with true by (symmetry; apply N.leb_le; lia).
  replace (48 + r <=? 57) with true by (symmetry; apply N.leb_le; lia).
  cbn [andb]. f_equal; lia.
Qed.

Lemma parse_digits_pad (k : nat) (n : N) (rest : str) (acc : N) :
  Naive.parse_digits k (Naive.pad k n ++ rest) acc
  = Some (acc * 10 ^ N.of_nat k + n mod 10 ^ N.of_nat k, rest).
Proof.
  revert acc; induction k as [|k IH]; intros acc.
  - simpl. rewrite N.mod_1_r. f_equal; f_equal; lia.
  - cbn [Naive.pad Naive.parse_digits app].
    rewrite digit_val_digit, IH.
    rewrite Nat2N.inj_succ, N.pow_succ_r'.
    rewrite (N.mul_comm 10 (10 ^ N.of_nat k)).
    rewrite (N.Div0.mod_mul_r n (10 ^ N.of_nat k) 10).
    f_equal; f_equal; lia.
Qed.

Lemma parse_digits_pad_lt (k : nat) (n : N) (rest : str) :
  n < 10 ^ N.of_nat k ->
  Naive.parse_digits k (Naive.pad k n ++ rest) 0 = Some (n, rest).
Proof.
  intros H. rewrite parse_digits_pad, N.mod_small by exact H.
  reflexivity.
Qed.

Lemma days_in_month_le (y m : N) : Naive.days_in_month y m <= 31.
Proof.
  unfold Naive.days_in_month.
  repeat match goal with
         | |- context [match ?x with _ => _ end] => destruct x
         end; lia.
Qed.

Lemma check_fields_bounds (y m d hh mm ss us : N) :
  Naive.check_fields y m d hh mm ss us = true ->
  y < 10 ^ 4 /\ m < 10 ^ 2 /\ d < 10 ^ 2 /\ hh < 10 ^ 2 /\ mm < 10 ^ 2
  /\ ss < 10 ^ 2 /\ us < 10 ^ 6.
Proof.
  unfold Naive.check_fields. rewrite !andb_true_iff, !N.leb_le.
  pose proof (days_in_month_le y m).
  change (10 ^ 4) with 10000; change (10 ^ 2) with 100;
    change (10 ^ 6) with 1000000.
  lia.
Qed.

Lemma pad_length (k : nat) (n : N) : length (Naive.pad k n) = k.
Proof. induction k; simpl; auto. Qed.

Lemma parse_fraction_six (s : str) (n : N) :
  length s = 6%nat -> Naive.parse_digits 6 s 0 = Some (n, []) ->
  Naive.parse_fraction s = Some n.
Proof.
  intros Hl H. unfold Naive.parse_fraction.
  do 6 (destruct s as [|? s]; [discriminate Hl|]).
  destruct s; [|discriminate Hl].
  rewrite H. cbn [Naive.parse_digits].
  repeat match goal with
         | |- context [match Naive.digit_val ?x with _ => _ end] =>
             destruct (Naive.digit_val x)
         end; reflexivity.
Qed.

Lemma parse_fraction_pad (us : N) :
  us < 10 ^ 6 -> Naive.parse_fraction (Naive.pad 6 us) = Some us.
Proof.
  intros H. apply parse_fraction_six; [apply pad_length|].
  rewrite <- (app_nil_r (Naive.pad 6 us)).
  apply (parse_digits_pad_lt 6 us [] H).
Qed.

Lemma fromisoformat_format (sep : N) (d : naive) :
  Naive.datetime_ok d ->
  Naive.fromisoformat (Naive.format sep d) = Some d.
Proof.
  destruct d as [y m dd hh mm ss us]; unfold Naive.datetime_ok; cbn [year month day hour minute second microsecond].
  intros Hok. pose proof (check_fields_bounds _ _ _ _ _ _ _ Hok) as (Hy & Hm & Hd & Hh & Hmi & Hs & Hus).
  unfold Naive.fromisoformat, Naive.parse_isoformat_date, Naive.format.
  cbn [year month day hour minute second microsecond].
  rewrite (parse_digits_pad_lt 4 y _ Hy). cbn [app Naive.expect]. rewrite N.eqb_refl.
  rewrite (parse_digits_pad_lt 2 m _ Hm). cbn [app Naive.expect]. rewrite N.eqb_refl.
  rewrite (parse_digits_pad_lt 2 dd _ Hd). cbn [app].
  unfold Naive.parse_hh_mm_ss_ff.
  rewrite (parse_digits_pad_lt 2 hh _ Hh). cbn [app Naive.expect Naive.at_end]. rewrite N.eqb_refl.
  rewrite (parse_digits_pad_lt 2 mm _ Hmi). cbn [app Naive.expect Naive.at_end]. rewrite N.eqb_refl.
  rewrite (parse_digits_pad_lt 2 ss _ Hs).
  unfold Naive.make.
  destruct (us =? 0) eqn:E.
  - apply N.eqb_eq in E; subst us. cbn [Naive.at_end]. rewrite Hok. reflexivity.
  - cbn [Naive.at_end Naive.expect]. rewrite N.eqb_refl.
    rewrite (parse_fraction_pad us Hus). rewrite Hok. reflexivity.
Qed.

Lemma digit_range (v : N) : 48 <= Naive.digit v <= 57.
Proof.
  unfold Naive.digit. pose proof (N.mod_lt v 10).
  set (r := _ mod 10) in *; clearbody r. lia.
Qed.

Lemma pad_digits (k : nat) (n x : N) :
  In x (Naive.pad k n) -> 48 <= x <= 57.
Proof.
  induction k as [|k IH]; cbn [Naive.pad In]; [tauto|].
  intros [<-|H]; auto. apply digit_range.
Qed.

Lemma format_chars (sep : N) (d : naive) (x : N) :
  In x (Naive.format sep d) ->
  48 <= x <= 57 \/ x = 45 \/ x = 58 \/ x = 46 \/ x = sep.
Proof.
  unfold Naive.format. rewrite !in_app_iff.
  destruct (microsecond d =? 0); cbn [In];
    intuition (subst; auto; try (left; eapply pad_digits; eassumption)).
Qed.

Lemma format_contains (c sep : N) (d : naive) :
  ~ 45 <= c <= 58 -> c <> sep ->
  Str.contains c (Naive.format sep d) = false.
Proof.
  intros Hc Hs. apply contains_false. intros x Hx.
  apply format_chars in Hx. lia.
Qed.

Lemma format_last (sep : N) (d : naive) :
  exists s c, Naive.format sep d = s ++ [c] /\ 48 <= c <= 57.
Proof.
  unfold Naive.format.
  destruct (microsecond d =? 0).
  - cbn [Naive.pad]. eexists (_ :: _ :: _ :: _ :: _ :: _ :: _ :: _ :: _ :: _ :: _ :: _ :: _ :: _ :: _ :: _ :: _ :: _ :: []), _.
    split; [reflexivity|]. apply digit_range.
  - cbn [Naive.pad]. eexists (_ :: _ :: _ :: _ :: _ :: _ :: _ :: _ :: _ :: _ :: _ :: _ :: _ :: _ :: _ :: _ :: _ :: _ :: _ :: _ :: _ :: _ :: _ :: _ :: _ :: []), _.
    split; [reflexivity|]. apply digit_range.
Qed.

Lemma format_first (sep : N) (d : naive) :
  exists c s, Naive.format sep d = c :: s /\ 48 <= c <= 57.
Proof.
  unfold Naive.format. cbn [Naive.pad app]. eexists _, _.
  split; [reflexivity|]. apply digit_range.
Qed.

Lemma make_ok (y m dd hh mm ss us : N) (d : naive) :
  Naive.make y m dd hh mm ss us = Some d -> Naive.datetime_ok d.
Proof.
  unfold Naive.make.
  destruct (Naive.check_fields y m dd hh mm ss us) eqn:E; [|discriminate].
  intros H; injection H as <-. exact E.
Qed.

Lemma fromisoformat_ok (s : str) (d : naive) :
  Naive.fromisoformat s = Some d -> Naive.datetime_ok d.
Proof.
  unfold Naive.fromisoformat.
  destruct (Naive.parse_isoformat_date s) as [[[[y m] dd] rest]|];
    [|discriminate].
  destruct rest as [|c tstr]; [apply make_ok|].
  destruct (Naive.parse_hh_mm_ss_ff tstr) as [[[[hh mm] ss] us]|];
    [apply make_ok | discriminate].
Qed.

Lemma lower_char_encodable (c : N) :
  Str.encodable c = true -> Str.encodable (Str.lower_char c) = true.
Proof.
  unfold Str.encodable, Str.lower_char. intros H.
  destruct ((65 <=? c) && (c <=? 90)) eqn:E1.
  - apply andb_true_iff in E1 as [_ B]. apply N.leb_le in B.
    replace (55296 <=? c + 32) with false by (symmetry; apply N.leb_gt; lia).
    reflexivity.
  - destruct ((192 <=? c) && (c <=? 222) && negb (c =? 215)) eqn:E2;
      [|exact H].
    apply andb_true_iff in E2 as [E2 _].
    apply andb_true_iff in E2 as [_ B]. apply N.leb_le in B.
    replace (55296 <=? c + 32) with false by (symmetry; apply N.leb_gt; lia).
    reflexivity.
Qed.

Lemma lower_latin1_encodes (s : str) :
  Str.encodes s = true -> Str.encodes (Str.lower_latin1 s) = true.
Proof.
  unfold Str.encodes, Str.lower_latin1. rewrite !forallb_forall.
  intros H c Hc. apply in_map_iff in Hc as (y & <- & Hy).
  apply lower_char_encodable, H, Hy.
Qed.

(** The library of naive timestamps is a library: the laws can be met. *)
Lemma modelo_laws : Py.Laws modelo.
Proof.
  split; cbn [Py.datetime Py.datetime_ok Py.isoformat Py.to_str
              Py.fromisoformat Py.le Py.lower modelo].
  - intros d. apply fromisoformat_format.
  - intros d. apply fromisoformat_format.
  - apply fromisoformat_ok.
  - intros d c H. apply format_chars in H. lia.
  - intros d c H. apply format_chars in H. lia.
  - intros d. apply format_last.
  - reflexivity.
  - apply lower_latin1_idem.
  - intros c s H. apply contains_lower_latin1, H.
  - apply lower_latin1_encodes.
Qed.

#[global] Existing Instance modelo_laws.

(** * Lemmas on the line format *)

Lemma isspace_digit (c : N) : 48 <= c <= 57 -> Str.isspace c = false.
Proof.
  intros H. unfold Str.isspace.
  repeat match goal with
         | |- context [?a <=? ?b] =>
             let E := fresh in
             destruct (N.leb_spec a b) as [E|E]; try lia
         | |- context [?a =? ?b] =>
             let E := fresh in
             destruct (N.eqb_spec a b) as [E|E]; try lia
         end; reflexivity.
Qed.

Lemma lstrip_id (s : str) :
  starts_with_space s = false -> Str.lstrip s = s.
Proof. destruct s as [|c s]; cbn; [reflexivity | intros ->; reflexivity]. Qed.

Lemma encodes_app (a b : str) :
  Str.encodes (a ++ b) = Str.encodes a && Str.encodes b.
Proof. apply forallb_app. Qed.

Lemma encodes_cons (c : N) (s : str) :
  Str.encodes (c :: s) = Str.encodable c && Str.encodes s.
Proof. reflexivity. Qed.

Lemma encodes_small (s : str) :
  (forall c, In c s -> c < 55296) -> Str.encodes s = true.
Proof.
  intros H. apply forallb_forall. intros c Hc. apply H in Hc.
  unfold Str.encodable.
  replace (55296 <=? c) with false by (symmetry; apply N.leb_gt; exact Hc).
  reflexivity.
Qed.

Lemma encodes_incl (s t : str) :
  (forall c, In c s -> In c t) -> Str.encodes t = true ->
  Str.encodes s = true.
Proof.
  unfold Str.encodes. rewrite !forallb_forall. intros H Ht c Hc.
  apply Ht, H, Hc.
Qed.

Section LineFormat.

Context {L : Py.Library} {HL : Py.Laws L}.

Lemma free_of_spec (c : N) (x : Task) :
  free_of c x = true ->
  Str.contains c (Task.nome x) = false
  /\ Str.contains c (Task.prioridade x) = false
  /\ Str.contains c (Task.categoria x) = false.
Proof.
  unfold free_of. rewrite !andb_true_iff, !negb_true_iff. tauto.
Qed.

Lemma iso_contains (c : N) (d : datetime) :
  ~ 43 <= c <= 58 -> c <> 84 -> Str.contains c (Py.isoformat d) = false.
Proof.
  intros Hc Hs. apply contains_false. intros x Hx.
  apply Py.iso_chars in Hx. lia.
Qed.

Lemma str_contains (c : N) (d : datetime) :
  ~ 43 <= c <= 58 -> c <> 32 -> Str.contains c (Py.to_str d) = false.
Proof.
  intros Hc Hs. apply contains_false. intros x Hx.
  apply Py.str_chars in Hx. lia.
Qed.

Lemma format_bool_contains (c : N) (b : bool) :
  ~ 65 <= c -> Str.contains c (Task.format_bool b) = false.
Proof.
  intros Hc. apply contains_false. intros x Hx.
  destruct b; cbv in Hx; intuition (subst; lia).
Qed.

Lemma format_opt_contains (c : N) (d : option datetime) :
  ~ 43 <= c <= 58 -> ~ 65 <= c -> c <> 32 ->
  Str.contains c (Task.format_opt d) = false.
Proof.
  intros H1 H2 H3. destruct d as [d|]; cbn [Task.format_opt].
  - apply str_contains; assumption.
  - apply contains_false. intros x Hx. cbv in Hx; intuition (subst; lia).
Qed.

Lemma format_opt_last (d : option datetime) :
  exists s c, Task.format_opt d = s ++ [c] /\ Str.isspace c = false.
Proof.
  destruct d as [d|]; cbn [Task.format_opt].
  - destruct (Py.str_last d) as (s & c & E & Hc).
    exists s, c; split; [exact E | apply isspace_digit, Hc].
  - exists [78; 111; 110], 101; split; reflexivity.
Qed.

Lemma to_str_not_None (d : datetime) :
  Str.eqb (Py.to_str d) py"None" = false.
Proof.
  apply eqb_neq. intros E.
  assert (H : In 78 (Py.to_str d)).
  { rewrite E. change (py"None") with [78; 111; 110; 101].
    left; reflexivity. }
  apply Py.str_chars in H. lia.
Qed.

Lemma to_line_shape (x : Task) :
  Task.to_line x
  = Task.nome x ++ 59 :: Task.prioridade x ++ 59 :: Task.categoria x
    ++ 59 :: Py.isoformat (Task.data_criacao x)
    ++ 59 :: Task.format_bool (Task.concluida x)
    ++ 59 :: Task.format_opt (Task.data_conclusao x).
Proof. reflexivity. Qed.

Lemma strip_to_line (x : Task) (tail : str) :
  tail = [] \/ tail = [10] ->
  Str.strip (Task.to_line x ++ tail)
  = Str.lstrip (Task.nome x) ++ 59 :: Task.prioridade x
    ++ 59 :: Task.categoria x
    ++ 59 :: Py.isoformat (Task.data_criacao x)
    ++ 59 :: Task.format_bool (Task.concluida x)
    ++ 59 :: Task.format_opt (Task.data_conclusao x).
Proof.
  intros Ht. unfold Str.strip.
  assert (E : Str.rstrip (Task.to_line x ++ tail) = Task.to_line x).
  { assert (E0 : Str.rstrip (Task.to_line x) = Task.to_line x).
    { rewrite to_line_shape.
      destruct (format_opt_last (Task.data_conclusao x)) as (s & c & E & Hc).
      rewrite E.
      repeat rewrite app_comm_cons. repeat rewrite app_assoc.
      apply rstrip_snoc, Hc. }
    destruct Ht as [-> | ->].
    - rewrite app_nil_r; exact E0.
    - rewrite rstrip_snoc_space by reflexivity. exact E0. }
  rewrite E, to_line_shape. apply lstrip_app. reflexivity.
Qed.

Lemma split_to_line (x : Task) (tail : str) :
  free_of 59 x = true -> tail = [] \/ tail = [10] ->
  Str.split 59 (Str.strip (Task.to_line x ++ tail))
  = [Str.lstrip (Task.nome x); Task.prioridade x; Task.categoria x;
     Py.isoformat (Task.data_criacao x);
     Task.format_bool (Task.concluida x);
     Task.format_opt (Task.data_conclusao x)].
Proof.
  intros Hf Ht. apply free_of_spec in Hf as (Hn & Hp & Hc).
  rewrite strip_to_line by exact Ht.
  rewrite split_app by (apply contains_lstrip, Hn).
  rewrite split_app by exact Hp.
  rewrite split_app by exact Hc.
  rewrite split_app by (apply iso_contains; lia).
  rewrite split_app by (apply format_bool_contains; lia).
  rewrite split_one by (apply format_opt_contains; lia).
  reflexivity.
Qed.

Lemma from_line_to_line (now : datetime) (x : Task) (tail : str) :
  free_of 59 x = true -> dates_ok x -> tail = [] \/ tail = [10] ->
  Task.from_line now (Task.to_line x ++ tail) = Ok (reread x).
Proof.
  intros Hf [Hc Hd] Ht. unfold Task.from_line.
  rewrite split_to_line by assumption.
  unfold Task.fromisoformat.
  rewrite Py.iso_roundtrip by exact Hc.
  assert (Eb : Str.eqb (Task.format_bool (Task.concluida x)) py"True"
               = Task.concluida x)
    by (destruct (Task.concluida x); reflexivity).
  rewrite Eb.
  destruct x as [n p c dc b [d|]]; cbn [Task.format_opt Task.data_conclusao] in *.
  - rewrite to_str_not_None. cbn [negb].
    rewrite Py.str_roundtrip by (apply Hd; reflexivity).
    reflexivity.
  - reflexivity.
Qed.

(** The line of a task can be encoded exactly when its three text
    attributes can: the rest of the line is in Basic Latin. *)
Lemma line_ok_spec (x : Task) :
  line_ok x
  = Str.encodes (Task.nome x) && Str.encodes (Task.prioridade x)
    && Str.encodes (Task.categoria x).
Proof.
  unfold line_ok. rewrite to_line_shape.
  assert (Hi : Str.encodes (Py.isoformat (Task.data_criacao x)) = true).
  { apply encodes_small. intros c Hc. apply Py.iso_chars in Hc. lia. }
  assert (Hb : Str.encodes (Task.format_bool (Task.concluida x)) = true)
    by (destruct (Task.concluida x); reflexivity).
  assert (Ho : Str.encodes (Task.format_opt (Task.data_conclusao x)) = true).
  { destruct (Task.data_conclusao x) as [d|]; cbn [Task.format_opt];
      [|reflexivity].
    apply encodes_small. intros c Hc. apply Py.str_chars in Hc. lia. }
  repeat (rewrite encodes_app || rewrite encodes_cons).
  rewrite Hi, Hb, Ho.
  change (Str.encodable 59) with true. change (Str.encodes [10]) with true.
  cbn [andb]. rewrite !andb_true_r. apply andb_assoc.
Qed.

(** * Lemmas on the backing file *)

Lemma universal_newlines_line (l rest : str) :
  Str.contains 13 l = false ->
  File.universal_newlines (l ++ 10 :: rest)
  = l ++ 10 :: File.universal_newlines rest.
Proof.
  induction l as [|x l IH]; intros H.
  - reflexivity.
  - apply orb_false_iff in H as [Hx Hl]. rewrite N.eqb_sym in Hx.
    cbn [app File.universal_newlines]. rewrite Hx, (IH Hl). reflexivity.
Qed.

Lemma lines_line (l rest : str) :
  Str.contains 10 l = false ->
  File.lines (l ++ 10 :: rest) = (l ++ [10]) :: File.lines rest.
Proof.
  induction l as [|x l IH]; intros H.
  - reflexivity.
  - apply orb_false_iff in H as [Hx Hl]. rewrite N.eqb_sym in Hx.
    cbn [app File.lines]. rewrite Hx, (IH Hl). reflexivity.
Qed.

Lemma readlines_line (l rest : str) :
  Str.contains 10 l = false -> Str.contains 13 l = false ->
  File.readlines (l ++ 10 :: rest) = (l ++ [10]) :: File.readlines rest.
Proof.
  intros H10 H13. unfold File.readlines.
  rewrite universal_newlines_line by exact H13.
  apply lines_line, H10.
Qed.

Lemma to_line_contains (c : N) (x : Task) :
  free_of c x = true -> c = 10 \/ c = 13 ->
  Str.contains c (Task.to_line x) = false.
Proof.
  intros Hf Hc. apply free_of_spec in Hf as (Hn & Hp & Hk).
  rewrite to_line_shape.
  repeat (rewrite contains_app || rewrite contains_cons).
  rewrite Hn, Hp, Hk.
  rewrite iso_contains by lia.
  rewrite format_bool_contains by lia.
  rewrite format_opt_contains by lia.
  destruct Hc as [-> | ->]; reflexivity.
Qed.

Lemma readlines_text (ts : list Task) :
  Forall (fun x => free_of 10 x = true /\ free_of 13 x = true) ts ->
  File.readlines (flat_map (fun x => Task.to_line x ++ [10]) ts)
  = map (fun x => Task.to_line x ++ [10]) ts.
Proof.
  induction 1 as [|x ts [H10 H13] _ IH]; [reflexivity|].
  cbn [flat_map map]. rewrite <- app_assoc. cbn [app].
  rewrite readlines_line, IH; auto using to_line_contains.
Qed.

Lemma from_lines_text (now : datetime) (ts : list Task) :
  Forall (fun x => free_of 59 x = true /\ dates_ok x) ts ->
  TaskManager.from_lines now (map (fun x => Task.to_line x ++ [10]) ts)
  = Ok (map reread ts).
Proof.
  induction 1 as [|x ts [Hf Hd] _ IH]; [reflexivity|].
  cbn [map TaskManager.from_lines].
  rewrite from_line_to_line by auto. rewrite IH. reflexivity.
Qed.

(** * The line format: claims *)

Lemma lower_prioridades (p : str) :
  In p TaskManager.prioridades -> Py.lower p = p.
Proof.
  intros H. rewrite Py.lower_latin1.
  - destruct H as [<- | [<- | [<- | []]]]; reflexivity.
  - intros c Hc.
    destruct H as [<- | [<- | [<- | []]]]; cbv in Hc;
      repeat (destruct Hc as [<- | Hc]; [reflexivity|]); destruct Hc.
Qed.

(** C1, as amended.  For every valid task record whose name does not
    begin with a whitespace character, [from_line (to_line x)] returns a
    record equal to [x] in all six attributes. *)
Theorem C1_roundtrip (now : datetime) (x : Task) :
  valid_record x ->
  starts_with_space (Task.nome x) = false ->
  Task.from_line now (Task.to_line x) = Ok x.
Proof.
  intros (Hf & Hp & _ & Hd & _) Hs.
  rewrite <- (app_nil_r (Task.to_line x)).
  rewrite from_line_to_line by auto.
  unfold reread. rewrite (lstrip_id _ Hs), (lower_prioridades _ Hp).
  destruct x; reflexivity.
Qed.

(** C2, as amended.  [from_line] raises exactly when the stripped line
    does not split into six fields, or the creation field is not a
    timestamp, or the completion field is neither [None] nor a timestamp,
    where a timestamp is a text that [datetime.fromisoformat] accepts.
    Otherwise it returns the record of the fields: the name and the
    category as they are, the priority in lower case, the creation date
    that the fourth field reads as, completed exactly when the fifth
    field is [True], and as completion date nothing when the sixth field
    is [None] and else the date it reads as.  The boolean field never
    makes it fail: any text other than [True] reads as false. *)
Theorem C2_from_line_fails (now : datetime) (linha : str) :
  let f i := nth i (fields linha) [] in
  let bad s := Py.fromisoformat s = None in
  let parse_error :=
    List.length (fields linha) <> 6%nat
    \/ bad (f 3%nat)
    \/ (f 5%nat <> py"None" /\ bad (f 5%nat))
  in
  ((exists e, Task.from_line now linha = Raise e) <-> parse_error)
  /\ ((exists d,
         Py.fromisoformat (f 3%nat) = Some d
         /\ Task.from_line now linha
            = Ok (Task.mk (f 0%nat) (Py.lower (f 1%nat)) (f 2%nat) d
                          (Str.eqb (f 4%nat) py"True")
                          (if Str.eqb (f 5%nat) py"None" then None
                           else Py.fromisoformat (f 5%nat))))
      <-> ~ parse_error).
Proof.
  cbv zeta. unfold Task.from_line, fields.
  destruct (Str.split 59 (Str.strip linha))
    as [|f0 [|f1 [|f2 [|f3 [|f4 [|f5 [|f6 r]]]]]]];
    cbn [List.length nth];
    try (split; split;
         [ intros _; left; discriminate
         | intros _; eexists; reflexivity
         | intros (x & _ & H); discriminate H
         | intros H; contradiction H; left; discriminate ]).
  unfold Task.fromisoformat.
  destruct (Py.fromisoformat f3) as [d3|] eqn:E3.
  2:{ split; split.
      - intros _; right; left; reflexivity.
      - intros _; eexists; reflexivity.
      - intros (x & H & _); discriminate H.
      - intros H; contradiction H; right; left; reflexivity. }
  destruct (Str.eqb f5 py"None") eqn:E5; cbn [negb].
  - apply eqb_eq in E5. split; split.
    + intros (e & H); discriminate H.
    + intros [H | [H | [H _]]];
        [contradiction H; reflexivity | discriminate H | contradiction].
    + intros _ [H | [H | [H _]]];
        [contradiction H; reflexivity | discriminate H | contradiction].
    + intros _; exists d3; split; reflexivity.
  - apply eqb_neq in E5.
    destruct (Py.fromisoformat f5) as [d5|] eqn:E5'; split; split.
    + intros (e & H); discriminate H.
    + intros [H | [H | [_ H]]];
        [contradiction H; reflexivity | discriminate H | discriminate H].
    + intros _ [H | [H | [_ H]]];
        [contradiction H; reflexivity | discriminate H | discriminate H].
    + intros _; exists d3; split; reflexivity.
    + intros _; right; right; split; [exact E5 | reflexivity].
    + intros _; eexists; reflexivity.
    + intros (x & _ & H); discriminate H.
    + intros H; contradiction H; right; right; split; [exact E5|reflexivity].
Qed.

(** C10.  The record that [from_line] returns has as its priority the
    second field as [str.lower] gives it, the priority of the record that
    the constructor [Task.init] builds from the fields.  For a field
    written in the first 256 code points, that is the field with its
    capital letters, [A] to [Z] and [À] to [Þ], made small and every
    other character kept. *)
Theorem C10_from_line_lowers (now : datetime) (linha : str) (x : Task) :
  Task.from_line now linha = Ok x ->
  let prioridade := nth 1 (fields linha) [] in
  Task.prioridade x = Py.lower prioridade
  /\ Task.prioridade x
     = Task.prioridade
         (Task.init now (nth 0 (fields linha) []) prioridade
                    (nth 2 (fields linha) []))
  /\ ((forall c, In c prioridade -> c < 256) ->
      Task.prioridade x = map Str.lower_char prioridade
      /\ List.length (Task.prioridade x) = List.length prioridade
      /\ forall i c,
           nth_error prioridade i = Some c ->
           nth_error (Task.prioridade x) i
           = Some (if ((65 <=? c) && (c <=? 90))
                      || ((192 <=? c) && (c <=? 222) && negb (c =? 215))
                   then c + 32 else c)).
Proof.
  cbv zeta. unfold Task.from_line, fields.
  destruct (Str.split 59 (Str.strip linha))
    as [|f0 [|f1 [|f2 [|f3 [|f4 [|f5 [|f6 r]]]]]]]; try discriminate.
  cbn [nth]. intros H.
  assert (E : Task.prioridade x = Py.lower f1).
  { destruct (Task.fromisoformat f3); [|discriminate].
    destruct (negb (Str.eqb f5 py"None")).
    - destruct (Task.fromisoformat f5); [|discriminate].
      injection H as <-; reflexivity.
    - injection H as <-; reflexivity. }
  split; [exact E|]. split; [exact E|].
  intros Hl. rewrite E, (Py.lower_latin1 f1 Hl). unfold Str.lower_latin1.
  split; [reflexivity|]. split; [apply length_map|].
  intros i c Hi. rewrite nth_error_map, Hi. cbn [option_map].
  unfold Str.lower_char.
  destruct ((65 <=? c) && (c <=? 90));
    [reflexivity | destruct ((192 <=? c) && (c <=? 222) && negb (c =? 215));
                   reflexivity].
Qed.

End LineFormat.

Lemma valid_tarefa_espaco : valid_record tarefa_espaco.
Proof.
  repeat split; try reflexivity; try discriminate.
  - right; right; left; reflexivity.
  - intros H; contradiction H; reflexivity.
Qed.

(** C1 as stated fails: the record named [" X"] is valid, and its line
    reads back as a record named ["X"]. *)
Lemma C1_counterexample :
  valid_record tarefa_espaco
  /\ Task.from_line dia2 (Task.to_line tarefa_espaco)
     = Ok (Task.mk (py"X") (py"alta") (py"c") dia1 false None)
  /\ Task.from_line dia2 (Task.to_line tarefa_espaco) <> Ok tarefa_espaco.
Proof.
  split; [exact valid_tarefa_espaco|].
  assert (E : Task.from_line dia2 (Task.to_line tarefa_espaco)
              = Ok (Task.mk (py"X") (py"alta") (py"c") dia1 false None))
    by reflexivity.
  split; [exact E|]. rewrite E. intros H.
  apply (f_equal (fun r => match r with
                           | Ok x => Task.nome x
                           | Raise _ => []
                           end)) in H.
  vm_compute in H. discriminate H.
Qed.

Lemma C1_witness :
  Task.from_line dia2
    (Task.to_line (Task.mk (py"X") (py"alta") (py"c") dia1 true (Some dia2)))
  = Ok (Task.mk (py"X") (py"alta") (py"c") dia1 true (Some dia2)).
Proof.
  apply C1_roundtrip.
  - repeat split; try reflexivity; try discriminate.
    + right; right; left; reflexivity.
    + intros d H; injection H as <-; reflexivity.
    + intros d H; injection H as <-; reflexivity.
  - reflexivity.
Defined.

(** C2 as stated fails: a boolean field that is neither [True] nor
    [False] is accepted, and read as false. *)
Lemma C2_counterexample :
  nth 4 (fields (py"X;alta;c;2024-01-05T09:30:00;banana;None")) []
  = py"banana"
  /\ Task.from_line dia2 (py"X;alta;c;2024-01-05T09:30:00;banana;None")
     = Ok (Task.mk (py"X") (py"alta") (py"c") dia1 false None).
Proof. split; reflexivity. Qed.

Lemma C2_witness :
  exists e, Task.from_line dia2 (py"X;alta;c;ontem;True;None") = Raise e.
Proof.
  apply (proj1 (C2_from_line_fails dia2 (py"X;alta;c;ontem;True;None"))).
  right; left. reflexivity.
Defined.

Lemma C10_witness :
  Task.prioridade (Task.mk (py"X") (py"média") (py"c") dia1 false None)
  = map Str.lower_char
        (nth 1 (fields (py"X;MÉDIA;c;2024-01-05T09:30:00;False;None")) []).
Proof.
  refine (proj1 (proj2 (proj2
            (C10_from_line_lowers dia2
               (py"X;MÉDIA;c;2024-01-05T09:30:00;False;None") _ _)) _)).
  - reflexivity.
  - intros c Hc. vm_compute in Hc.
    repeat (destruct Hc as [<- | Hc]; [reflexivity|]). destruct Hc.
Defined.

(** * The manager: lemmas *)

Section Manager.

Context {L : Py.Library} {HL : Py.Laws L}.

Lemma existsb_eqb_In (a : str) (l : list str) :
  existsb (Str.eqb a) l = true <-> In a l.
Proof.
  rewrite existsb_exists. split.
  - intros (y & Hy & E); apply eqb_eq in E; subst; exact Hy.
  - intros H; exists a; split; [exact H | apply eqb_refl].
Qed.

Lemma tem_nome_In (nome : str) (ts : list Task) :
  TaskManager.tem_nome nome ts = true <-> In nome (names ts).
Proof.
  unfold TaskManager.tem_nome, names. rewrite existsb_exists, in_map_iff.
  split; intros (x & H1 & H2).
  - apply eqb_eq in H2; eauto.
  - exists x; split; [exact H2 | apply eqb_eq, H1].
Qed.

Lemma tem_nome_not_In (nome : str) (ts : list Task) :
  TaskManager.tem_nome nome ts = false <-> ~ In nome (names ts).
Proof.
  rewrite <- tem_nome_In. destruct (TaskManager.tem_nome nome ts);
    split; congruence.
Qed.

(** What [salvar_tarefas] does, in the notions of the statements. *)
Lemma escrever_spec (ts : list Task) :
  TaskManager.escrever ts = (outcome ts, written ts).
Proof.
  unfold outcome, written.
  induction ts as [|x ts IH];
    cbn [TaskManager.escrever writable writable_prefix forallb];
    [reflexivity|].
  fold (line_ok x). destruct (line_ok x); [|reflexivity].
  rewrite IH. cbn [fst snd andb text_of flat_map]. reflexivity.
Qed.

Lemma salvar_set (w : world) (ts : list Task) :
  TaskManager.salvar_tarefas
    (TaskManager.mk_world
       (TaskManager.mk (TaskManager.arquivo (TaskManager.self w)) ts)
       (TaskManager.files w))
  = (outcome ts, saved w ts).
Proof.
  unfold TaskManager.salvar_tarefas.
  cbn [TaskManager.self TaskManager.tasks TaskManager.arquivo
       TaskManager.files].
  rewrite escrever_spec. reflexivity.
Qed.

Lemma outcome_cases (ts : list Task) :
  outcome ts = Ok tt \/ outcome ts = Raise UnicodeEncodeError.
Proof. unfold outcome. destruct (writable ts); auto. Qed.

Lemma outcome_ok (ts : list Task) :
  outcome ts = Ok tt <-> writable ts = true.
Proof.
  unfold outcome. destruct (writable ts); split; congruence.
Qed.

Lemma outcome_raise (ts : list Task) (e : exn) :
  outcome ts = Raise e -> e = UnicodeEncodeError /\ writable ts = false.
Proof.
  unfold outcome. destruct (writable ts); [discriminate|].
  intros H; injection H as <-. auto.
Qed.

Lemma written_writable (ts : list Task) :
  writable ts = true -> written ts = text_of ts.
Proof.
  unfold written. intros H. f_equal.
  induction ts as [|x ts IH]; [reflexivity|].
  cbn [writable forallb] in H. apply andb_true_iff in H as [Hx Hts].
  cbn [writable_prefix]. rewrite Hx, (IH Hts). reflexivity.
Qed.

Lemma writable_app (a b : list Task) :
  writable (a ++ b) = writable a && writable b.
Proof. apply forallb_app. Qed.

Lemma line_ok_completed (d : datetime) (x : Task) :
  line_ok (completed d x) = line_ok x.
Proof. rewrite !line_ok_spec. reflexivity. Qed.

Lemma writable_completed (d : datetime) (pre post : list Task) (x : Task) :
  writable (pre ++ completed d x :: post) = writable (pre ++ x :: post).
Proof.
  rewrite !writable_app. cbn [writable forallb].
  rewrite line_ok_completed. reflexivity.
Qed.

Lemma writable_filter (p : Task -> bool) (ts : list Task) :
  writable ts = true -> writable (filter p ts) = true.
Proof.
  unfold writable. rewrite !forallb_forall. intros H x Hx.
  apply filter_In in Hx as [Hx _]. apply H, Hx.
Qed.

(** The ways [adicionar_tarefa] ends. *)
Lemma adicionar_cases (now : datetime) (nome prioridade categoria : str)
      (w : world) :
  (~ In (Py.lower prioridade) TaskManager.prioridades
   /\ TaskManager.adicionar_tarefa now nome prioridade categoria w
      = (Raise ValueError_prioridade, w))
  \/ (In (Py.lower prioridade) TaskManager.prioridades
      /\ In nome (names (tasks_of w))
      /\ TaskManager.adicionar_tarefa now nome prioridade categoria w
         = (Raise ValueError_existe, w))
  \/ (In (Py.lower prioridade) TaskManager.prioridades
      /\ ~ In nome (names (tasks_of w))
      /\ TaskManager.adicionar_tarefa now nome prioridade categoria w
         = (outcome (tasks_of w
                     ++ [Task.init now nome prioridade categoria]),
            saved w (tasks_of w
                     ++ [Task.init now nome prioridade categoria]))).
Proof.
  unfold TaskManager.adicionar_tarefa.
  destruct (existsb (Str.eqb (Py.lower prioridade)) TaskManager.prioridades)
    eqn:Ep; cbn [negb].
  - apply existsb_eqb_In in Ep. right.
    unfold TaskManager.bind, TaskManager.get_tasks, TaskManager.set_tasks.
    cbv beta iota.
    destruct (TaskManager.tem_nome nome (TaskManager.tasks (TaskManager.self w)))
      eqn:En.
    + left. apply tem_nome_In in En. auto.
    + right. apply tem_nome_not_In in En.
      split; [exact Ep|]. split; [exact En|].
      apply salvar_set.
  - left. split; [|reflexivity].
    intros H; apply existsb_eqb_In in H; congruence.
Qed.

Lemma primeiro_split (nome : str) (ts : list Task) :
  TaskManager.tem_nome nome ts = true ->
  exists pre x post,
    ts = pre ++ x :: post /\ TaskManager.tem_nome nome pre = false
    /\ Task.nome x = nome.
Proof.
  induction ts as [|y ts IH]; [discriminate|].
  cbn [TaskManager.tem_nome existsb].
  destruct (Str.eqb (Task.nome y) nome) eqn:E.
  - intros _. exists [], y, ts. apply eqb_eq in E. auto.
  - cbn [orb]. intros H. destruct (IH H) as (pre & x & post & -> & Hp & Hx).
    exists (y :: pre), x, post. repeat split; auto.
    cbn [TaskManager.tem_nome existsb]. rewrite E. exact Hp.
Qed.

Lemma primeiro_here (nome : str) (pre post : list Task) (x : Task) :
  TaskManager.tem_nome nome pre = false -> Task.nome x = nome ->
  TaskManager.primeiro nome (pre ++ x :: post) = Some (List.length pre).
Proof.
  intros Hp Hx. induction pre as [|y pre IH]; cbn [app TaskManager.primeiro].
  - rewrite (proj2 (eqb_eq _ _) Hx). reflexivity.
  - cbn [TaskManager.tem_nome existsb] in Hp.
    apply orb_false_iff in Hp as [Hy Hp].
    rewrite Hy, (IH Hp). reflexivity.
Qed.

Lemma primeiro_none (nome : str) (ts : list Task) :
  TaskManager.tem_nome nome ts = false -> TaskManager.primeiro nome ts = None.
Proof.
  induction ts as [|y ts IH]; [reflexivity|].
  cbn [TaskManager.tem_nome existsb TaskManager.primeiro].
  intros H; apply orb_false_iff in H as [Hy Hp].
  rewrite Hy, (IH Hp). reflexivity.
Qed.

Lemma alterar_here (f : Task -> Task) (pre post : list Task) (x : Task) :
  TaskManager.alterar (List.length pre) f (pre ++ x :: post)
  = pre ++ f x :: post.
Proof.
  induction pre as [|y pre IH]; cbn [app List.length TaskManager.alterar].
  - reflexivity.
  - rewrite IH; reflexivity.
Qed.

(** The ways [concluir_tarefa] ends. *)
Lemma concluir_none (now : datetime) (nome : str) (w : world) :
  TaskManager.tem_nome nome (tasks_of w) = false ->
  TaskManager.concluir_tarefa now nome w = (Raise ValueError_nao_encontrada, w).
Proof.
  intros H. unfold TaskManager.concluir_tarefa, TaskManager.encontrar_tarefa,
    TaskManager.bind, TaskManager.get_tasks.
  unfold tasks_of in H. rewrite (primeiro_none _ _ H). reflexivity.
Qed.

Lemma concluir_here (now : datetime) (nome : str) (w : world)
      (pre post : list Task) (x : Task) :
  tasks_of w = pre ++ x :: post ->
  TaskManager.tem_nome nome pre = false -> Task.nome x = nome ->
  TaskManager.concluir_tarefa now nome w
  = (outcome (pre ++ completed now x :: post),
     saved w (pre ++ completed now x :: post)).
Proof.
  intros Ht Hp Hx. unfold TaskManager.concluir_tarefa,
    TaskManager.encontrar_tarefa, TaskManager.bind, TaskManager.get_tasks,
    TaskManager.set_tasks.
  cbv beta iota.
  unfold tasks_of in Ht. rewrite Ht, (primeiro_here _ _ _ _ Hp Hx).
  cbn [TaskManager.ret]. cbv beta iota.
  rewrite Ht, alterar_here. apply salvar_set.
Qed.

Lemma remover_run (nome : str) (w : world) :
  TaskManager.remover_tarefa nome w
  = (outcome (filter (fun x => negb (Str.eqb (Task.nome x) nome))
                     (tasks_of w)),
     saved w (filter (fun x => negb (Str.eqb (Task.nome x) nome))
                     (tasks_of w))).
Proof.
  unfold TaskManager.remover_tarefa, TaskManager.bind,
    TaskManager.get_tasks, TaskManager.set_tasks.
  cbv beta iota. apply salvar_set.
Qed.

Lemma listar_run (f : option bool) (w : world) :
  TaskManager.listar_tarefas f w
  = (Ok (filter (fun x => match f with
                          | None => true
                          | Some b => Bool.eqb (Task.concluida x) b
                          end) (tasks_of w)), w).
Proof. reflexivity. Qed.

Lemma tasks_saved (w : world) (ts : list Task) : tasks_of (saved w ts) = ts.
Proof. reflexivity. Qed.

Lemma names_app (a b : list Task) : names (a ++ b) = names a ++ names b.
Proof. apply map_app. Qed.

Lemma count_nome_added (nome : str) (ts : list Task) (x : Task) :
  ~ In nome (names ts) -> Task.nome x = nome ->
  count_nome nome (ts ++ [x]) = 1%nat.
Proof.
  intros Hn Hx. unfold count_nome. rewrite names_app, count_occ_app.
  rewrite (proj1 (count_occ_not_In _ _ _) Hn).
  cbn [names map]. rewrite Hx, count_occ_cons_eq by reflexivity.
  reflexivity.
Qed.

Lemma names_filter_incl (p : Task -> bool) (ts : list Task) (n : str) :
  In n (names (filter p ts)) -> In n (names ts).
Proof.
  unfold names. rewrite !in_map_iff. intros (x & E & H).
  apply filter_In in H as [H _]. eauto.
Qed.

Lemma subseq_filter {A : Type} (p : A -> bool) (l : list A) :
  subseq (filter p l) l.
Proof.
  induction l as [|x l IH]; cbn [filter]; [constructor|].
  destruct (p x); constructor; exact IH.
Qed.

Lemma filter_all {A : Type} (l : list A) : filter (fun _ => true) l = l.
Proof. induction l as [|x l IH]; cbn [filter]; congruence. Qed.

Lemma length_filter_state (b : bool) (ts : list Task) :
  List.length (filter (fun x => Bool.eqb (Task.concluida x) b) ts)
  = count_state b ts.
Proof.
  induction ts as [|x ts IH]; cbn [filter count_state]; [reflexivity|].
  destruct (Bool.eqb (Task.concluida x) b); cbn [List.length]; congruence.
Qed.

(** * The manager: claims *)

(** C5.  [adicionar_tarefa] raises the priority error when the lowercased
    priority is not one of the three, and otherwise the duplicate error
    when a task has exactly that name; in both cases the tasks and the
    disk are as before.  When it returns, the store has exactly one task
    of that name, and adding the name again, with any priority and
    category, raises and leaves the store as it is. *)
Theorem C5_adicionar (now : datetime) (nome prioridade categoria : str)
        (w : world) :
  (~ In (Py.lower prioridade) TaskManager.prioridades ->
   TaskManager.adicionar_tarefa now nome prioridade categoria w
   = (Raise ValueError_prioridade, w))
  /\ (In (Py.lower prioridade) TaskManager.prioridades ->
      In nome (names (tasks_of w)) ->
      TaskManager.adicionar_tarefa now nome prioridade categoria w
      = (Raise ValueError_existe, w))
  /\ (forall w',
        TaskManager.adicionar_tarefa now nome prioridade categoria w
        = (Ok tt, w') ->
        tasks_of w'
        = tasks_of w ++ [Task.init now nome prioridade categoria]
        /\ count_nome nome (tasks_of w') = 1%nat
        /\ forall now' prioridade' categoria',
             exists e,
               TaskManager.adicionar_tarefa now' nome prioridade' categoria' w'
               = (Raise e, w')
               /\ (In (Py.lower prioridade') TaskManager.prioridades ->
                   e = ValueError_existe)).
Proof.
  destruct (adicionar_cases now nome prioridade categoria w)
    as [(Hp & E) | [(Hp & Hn & E) | (Hp & Hn & E)]]; rewrite E.
  - split; [reflexivity|]. split; [contradiction|]. discriminate.
  - split; [contradiction|]. split; [reflexivity|]. discriminate.
  - split; [contradiction|]. split; [contradiction|].
    intros w' H; injection H as _ <-. rewrite tasks_saved.
    split; [reflexivity|].
    split; [apply count_nome_added; [exact Hn | reflexivity]|].
    intros now' p' c'.
    assert (Hin : In nome
                     (names (tasks_of
                        (saved w (tasks_of w
                           ++ [Task.init now nome prioridade categoria]))))).
    { rewrite tasks_saved, names_app. apply in_or_app; right; left.
      reflexivity. }
    destruct (adicionar_cases now' nome p' c'
                (saved w (tasks_of w
                          ++ [Task.init now nome prioridade categoria])))
      as [(Hp' & E') | [(Hp' & Hn' & E') | (Hp' & Hn' & E')]].
    + exists ValueError_prioridade; split; [exact E' | contradiction].
    + exists ValueError_existe; split; [exact E' | reflexivity].
    + contradiction.
Qed.

(** C7.  [listar_tarefas] leaves the world as it is and returns tasks of
    the store in the order of the store: all of them without a filter,
    and with the filter [b] exactly those whose completion state is [b].
    For the tasks A (completed), B and C (pending), the pending ones are
    [B; C] and the completed ones [A]. *)
Theorem C7_listar (f : option bool) (w : world) :
  exists l,
    TaskManager.listar_tarefas f w = (Ok l, w)
    /\ subseq l (tasks_of w)
    /\ match f with
       | None => l = tasks_of w
       | Some b =>
           (forall x, In x l -> Task.concluida x = b)
           /\ List.length l = count_state b (tasks_of w)
       end
    /\ forall A B C,
         tasks_of w = [A; B; C] ->
         Task.concluida A = true -> Task.concluida B = false ->
         Task.concluida C = false ->
         (f = Some false -> l = [B; C]) /\ (f = Some true -> l = [A]).
Proof.
  eexists. split; [apply listar_run|]. split; [apply subseq_filter|].
  split.
  - destruct f as [b|].
    + split; [|apply length_filter_state].
      intros x Hx. apply filter_In in Hx as [_ Hx].
      apply Bool.eqb_prop, Hx.
    + apply filter_all.
  - intros A B C -> HA HB HC. cbn [filter].
    split; intros ->; rewrite HA, HB, HC; reflexivity.
Qed.

Lemma names_split (pre post : list Task) (x : Task) :
  names (pre ++ x :: post) = names pre ++ Task.nome x :: names post.
Proof. unfold names; rewrite map_app; reflexivity. Qed.

(** C6, as amended.  [concluir_tarefa] raises the not-found error, and
    leaves the world as it is, when no task has exactly that name.
    Otherwise the first task of that name is now completed, with the
    clock reading as its completion date: the task is among the completed
    ones and not among the pending ones (and no pending task has its name
    when the names of the store are distinct); the call returns when
    every line of the store can be written, and raises
    [UnicodeEncodeError], after the change, when one cannot.  A second
    call ends as the first one did, so it returns after a first that
    returned, and stores its own clock reading in place of the first:
    the completion date is later or equal exactly when the clock has not
    gone back. *)
Theorem C6_concluir (now : datetime) (nome : str) (w : world) :
  (~ In nome (names (tasks_of w)) ->
   TaskManager.concluir_tarefa now nome w
   = (Raise ValueError_nao_encontrada, w))
  /\ (In nome (names (tasks_of w)) ->
      exists pre x post,
        tasks_of w = pre ++ x :: post
        /\ ~ In nome (names pre) /\ Task.nome x = nome
        /\ let done d :=
             Task.mk (Task.nome x) (Task.prioridade x) (Task.categoria x)
                     (Task.data_criacao x) true (Some d) in
           let ending :=
             if writable (tasks_of w) then Ok tt
             else Raise UnicodeEncodeError in
           let w' := saved w (pre ++ done now :: post) in
           TaskManager.concluir_tarefa now nome w = (ending, w')
           /\ (exists l,
                 TaskManager.listar_tarefas (Some true) w' = (Ok l, w')
                 /\ In (done now) l)
           /\ (exists l,
                 TaskManager.listar_tarefas (Some false) w' = (Ok l, w')
                 /\ ~ In (done now) l
                 /\ (NoDup (names (tasks_of w)) -> ~ In nome (names l)))
           /\ forall now2,
                TaskManager.concluir_tarefa now2 nome w'
                = (ending, saved w' (pre ++ done now2 :: post))
                /\ (Py.le now now2 = true
                    <-> exists d1 d2,
                          nth_error (tasks_of w') (List.length pre)
                          = Some (done d1)
                          /\ nth_error
                               (tasks_of (saved w' (pre ++ done now2 :: post)))
                               (List.length pre)
                             = Some (done d2)
                          /\ Py.le d1 d2 = true)).
Proof.
  split.
  - intros H. apply concluir_none, tem_nome_not_In, H.
  - intros H. apply tem_nome_In, primeiro_split in H.
    destruct H as (pre & x & post & Ht & Hp & Hx).
    exists pre, x, post. split; [exact Ht|].
    split; [apply tem_nome_not_In, Hp|]. split; [exact Hx|].
    cbv zeta.
    assert (Hend : forall d,
               outcome (pre ++ completed d x :: post)
               = if writable (tasks_of w) then Ok tt
                 else Raise UnicodeEncodeError).
    { intros d. unfold outcome. rewrite writable_completed, Ht.
      reflexivity. }
    split.
    { rewrite (concluir_here now nome w pre post x Ht Hp Hx), Hend.
      reflexivity. }
    split; [|split].
    + eexists; split; [apply listar_run|].
      rewrite tasks_saved. apply filter_In. split; [|reflexivity].
      apply in_or_app; right; left; reflexivity.
    + eexists; split; [apply listar_run|]. rewrite tasks_saved.
      split.
      * intros Hin. apply filter_In in Hin as [_ Hin].
        cbn [Task.concluida Bool.eqb] in Hin. discriminate Hin.
      * intros Hnd Hin.
        rewrite Ht, names_split in Hnd. apply NoDup_remove_2 in Hnd.
        rewrite filter_app in Hin. cbn [filter Task.concluida Bool.eqb] in Hin.
        rewrite <- filter_app in Hin. apply names_filter_incl in Hin.
        rewrite names_app in Hin. rewrite Hx in Hnd. contradiction.
    + intros now2. split.
      * match goal with
        | |- TaskManager.concluir_tarefa _ _ (saved ?w0 (pre ++ ?y :: post))
             = _ =>
            rewrite (concluir_here now2 nome (saved w0 (pre ++ y :: post))
                       pre post y (tasks_saved _ _) Hp Hx)
        end.
        rewrite <- (Hend now2). reflexivity.
      * rewrite !tasks_saved, !nth_error_app2, Nat.sub_diag by apply le_n.
        cbn [nth_error]. split.
        -- intros Hle. exists now, now2. auto.
        -- intros (d1 & d2 & E1 & E2 & Hle).
           injection E1 as <-. injection E2 as <-. exact Hle.
Qed.

End Manager.

Lemma C5_witness :
  TaskManager.adicionar_tarefa dia1 (py"X") (py"urgent") (py"c") fresh
  = (Raise ValueError_prioridade, fresh)
  /\ count_nome (py"X")
       (tasks_of (round (Adicionar dia1 (py"X") (py"alta") (py"c")) fresh))
     = 1%nat
  /\ exists e,
       TaskManager.adicionar_tarefa dia2 (py"X") (py"baixa") (py"d")
         (round (Adicionar dia1 (py"X") (py"alta") (py"c")) fresh)
       = (Raise e, round (Adicionar dia1 (py"X") (py"alta") (py"c")) fresh).
Proof.
  split.
  - apply (proj1 (C5_adicionar dia1 (py"X") (py"urgent") (py"c") fresh)).
    intros [H | [H | [H | []]]]; vm_compute in H; discriminate H.
  - destruct (proj2 (proj2 (C5_adicionar dia1 (py"X") (py"alta") (py"c")
                              fresh))
                    (round (Adicionar dia1 (py"X") (py"alta") (py"c")) fresh)
                    eq_refl) as (_ & Hc & Hagain).
    split; [exact Hc|].
    destruct (Hagain dia2 (py"baixa") (py"d")) as (e & He & _).
    exists e; exact He.
Defined.

Lemma C7_witness :
  exists l,
    TaskManager.listar_tarefas (Some false) repetido = (Ok l, repetido)
    /\ subseq l (tasks_of repetido).
Proof.
  destruct (C7_listar (Some false) repetido) as (l & H1 & H2 & _).
  exists l; split; assumption.
Defined.

Lemma C6_witness :
  TaskManager.concluir_tarefa dia2 (py"Y") repetido
  = (Raise ValueError_nao_encontrada, repetido)
  /\ exists pre x post,
       tasks_of repetido = pre ++ x :: post
       /\ TaskManager.concluir_tarefa dia1 (py"X") repetido
          = (if writable (tasks_of repetido) then Ok tt
             else Raise UnicodeEncodeError,
             saved repetido
               (pre ++ Task.mk (Task.nome x) (Task.prioridade x)
                               (Task.categoria x) (Task.data_criacao x)
                               true (Some dia1) :: post)).
Proof.
  split.
  - apply (proj1 (C6_concluir dia2 (py"Y") repetido)).
    intros [H | [H | []]]; vm_compute in H; discriminate H.
  - destruct (proj2 (C6_concluir dia1 (py"X") repetido))
      as (pre & x & post & Ht & _ & _ & Hrun & _).
    + left; reflexivity.
    + exists pre, x, post. split; [exact Ht | exact Hrun].
Defined.

(** C6 as stated fails.  With a clock that was set back between the two
    calls, both calls return and the second one replaces the completion
    date by an earlier one.  And on a store that holds a task whose line
    cannot be encoded, the call completes the task and then fails, with
    the file cut before that line. *)
Lemma C6_counterexample :
  let w1 := snd (TaskManager.concluir_tarefa dia2 (py"X") repetido) in
  let w2 := snd (TaskManager.concluir_tarefa dia1 (py"X") w1) in
  let w3 := snd (TaskManager.concluir_tarefa dia2 (py"X") com_surrogate) in
  fst (TaskManager.concluir_tarefa dia2 (py"X") repetido) = Ok tt
  /\ fst (TaskManager.concluir_tarefa dia1 (py"X") w1) = Ok tt
  /\ map Task.data_conclusao (tasks_of w1) = [Some dia2; None]
  /\ map Task.data_conclusao (tasks_of w2) = [Some dia1; None]
  /\ Py.le dia2 dia1 = false
  /\ fst (TaskManager.concluir_tarefa dia2 (py"X") com_surrogate)
     = Raise UnicodeEncodeError
  /\ map Task.concluida (tasks_of w3) = [true; false]
  /\ TaskManager.files w3 (py"tarefas.txt")
     = Some (py"X;alta;c;2024-01-05T09:30:00;True;2024-01-06 18:00:00.000250"
             ++ [10]).
Proof. cbv zeta. repeat split; reflexivity. Qed.

(** * Invariants of the store *)

Section Invariants.

Context {L : Py.Library} {HL : Py.Laws L}.

(** What a round does to the list of tasks. *)
Lemma round_cases (c : call) (w : world) :
  tasks_of (round c w) = tasks_of w
  \/ (exists now n p k,
        ~ In n (names (tasks_of w))
        /\ tasks_of (round c w) = tasks_of w ++ [Task.init now n p k])
  \/ (exists now pre x post,
        tasks_of w = pre ++ x :: post
        /\ tasks_of (round c w) = pre ++ Task.concluir now x :: post)
  \/ (exists p, tasks_of (round c w) = filter p (tasks_of w)).
Proof.
  destruct c as [now n p k | f | now n | n]; cbn [round].
  - destruct (adicionar_cases now n p k w)
      as [(_ & E) | [(_ & _ & E) | (_ & Hn & E)]]; rewrite E; cbn [snd].
    + left; reflexivity.
    + left; reflexivity.
    + right; left. exists now, n, p, k. split; [exact Hn | apply tasks_saved].
  - left; reflexivity.
  - destruct (TaskManager.tem_nome n (tasks_of w)) eqn:E.
    + destruct (primeiro_split _ _ E) as (pre & x & post & Ht & Hp & Hx).
      rewrite (concluir_here now n w pre post x Ht Hp Hx); cbn [snd].
      right; right; left. exists now, pre, x, post.
      split; [exact Ht | apply tasks_saved].
    + rewrite (concluir_none now n w E). left; reflexivity.
  - right; right; right. rewrite remover_run; cbn [snd].
    eexists; apply tasks_saved.
Qed.

Lemma NoDup_snoc {A : Type} (l : list A) (a : A) :
  NoDup l -> ~ In a l -> NoDup (l ++ [a]).
Proof.
  induction 1 as [|x l Hx Hl IH]; intros Ha; cbn [app].
  - constructor; [intros [] | constructor].
  - constructor.
    + rewrite in_app_iff. intros [H | [H | []]]; [contradiction|].
      apply Ha; left; symmetry; exact H.
    + apply IH. intros H; apply Ha; right; exact H.
Qed.

Lemma NoDup_names_filter (p : Task -> bool) (ts : list Task) :
  NoDup (names ts) -> NoDup (names (filter p ts)).
Proof.
  induction ts as [|x ts IH]; cbn [filter names map]; [auto|].
  intros H. apply NoDup_cons_iff in H as [Hx Hts].
  destruct (p x); cbn [map]; [|apply IH, Hts].
  constructor; [|apply IH, Hts].
  intros H; apply Hx. apply (names_filter_incl p), H.
Qed.

Lemma round_NoDup (c : call) (w : world) :
  NoDup (names (tasks_of w)) -> NoDup (names (tasks_of (round c w))).
Proof.
  intros H.
  destruct (round_cases c w)
    as [E | [(now & n & p & k & Hn & E) | [(now & pre & x & post & Ht & E)
       | (p & E)]]]; rewrite E.
  - exact H.
  - rewrite names_app. apply NoDup_snoc; assumption.
  - rewrite names_split. rewrite Ht, names_split in H. exact H.
  - apply NoDup_names_filter, H.
Qed.

Lemma coherent_init (now : datetime) (n p k : str) :
  coherent (Task.init now n p k).
Proof. split; [intros H; contradiction H; reflexivity | discriminate]. Qed.

Lemma coherent_concluir (now : datetime) (x : Task) :
  coherent (Task.concluir now x).
Proof. split; [reflexivity | discriminate]. Qed.

Lemma round_coherent (c : call) (w : world) :
  Forall coherent (tasks_of w) -> Forall coherent (tasks_of (round c w)).
Proof.
  intros H.
  destruct (round_cases c w)
    as [E | [(now & n & p & k & Hn & E) | [(now & pre & x & post & Ht & E)
       | (p & E)]]]; rewrite E.
  - exact H.
  - apply Forall_app; split; [exact H|].
    constructor; [apply coherent_init | constructor].
  - rewrite Ht in H. apply Forall_app in H as [H1 H2].
    apply Forall_app; split; [exact H1|].
    inversion H2; subst. constructor; [apply coherent_concluir | assumption].
  - rewrite Forall_forall in *. intros x Hx.
    apply filter_In in Hx as [Hx _]. apply H, Hx.
Qed.

Lemma rounds_invariant (P : list Task -> Prop) :
  (forall c w, P (tasks_of w) -> P (tasks_of (round c w))) ->
  forall cs w, P (tasks_of w) -> P (tasks_of (rounds cs w)).
Proof.
  intros Hstep cs. unfold rounds.
  induction cs as [|c cs IH]; intros w H; cbn [fold_left]; [exact H|].
  apply IH, Hstep, H.
Qed.

Lemma init_no_file (now : datetime) (arquivo : str) (d : disk) :
  d arquivo = None ->
  TaskManager.init now arquivo d = Ok (TaskManager.mk arquivo []).
Proof.
  intros H. unfold TaskManager.init, TaskManager.carregar_tarefas.
  rewrite H. reflexivity.
Qed.

(** C3, as amended.  The rounds of [adicionar_tarefa], [listar_tarefas],
    [concluir_tarefa] and [remover_tarefa] keep the names distinct: from a
    store with distinct names, and so from the empty store of a manager
    with no backing file, every store reached has distinct names.  The
    load itself does not compare names. *)
Theorem C3_names_distinct (cs : list call) (w : world) :
  (NoDup (names (tasks_of w)) -> NoDup (names (tasks_of (rounds cs w))))
  /\ forall now arquivo d,
       d arquivo = None ->
       exists m,
         TaskManager.init now arquivo d = Ok m
         /\ NoDup (names (tasks_of (rounds cs (TaskManager.mk_world m d)))).
Proof.
  split.
  - apply (rounds_invariant (fun ts => NoDup (names ts))), round_NoDup.
  - intros now arquivo d H. eexists; split; [apply init_no_file, H|].
    apply (rounds_invariant (fun ts => NoDup (names ts)));
      [apply round_NoDup | constructor].
Qed.

(** C4, as amended.  The rounds of the four methods keep the completion
    date in step with the completion state: from a store where every task
    has a completion date exactly when it is completed, and so from the
    empty store of a manager with no backing file, every store reached is
    such a store.  [from_line] does not compare the two fields. *)
Theorem C4_coherent (cs : list call) (w : world) :
  (Forall coherent (tasks_of w) -> Forall coherent (tasks_of (rounds cs w)))
  /\ forall now arquivo d,
       d arquivo = None ->
       exists m,
         TaskManager.init now arquivo d = Ok m
         /\ Forall coherent (tasks_of (rounds cs (TaskManager.mk_world m d))).
Proof.
  split.
  - apply (rounds_invariant (Forall coherent)), round_coherent.
  - intros now arquivo d H. eexists; split; [apply init_no_file, H|].
    apply (rounds_invariant (Forall coherent));
      [apply round_coherent | constructor].
Qed.

End Invariants.

Lemma C3_witness :
  NoDup (names (tasks_of
    (rounds [Adicionar dia1 (py"X") (py"alta") (py"c");
             Adicionar dia2 (py"X") (py"baixa") (py"d");
             Concluir dia2 (py"X")] fresh))).
Proof.
  apply (proj1 (C3_names_distinct _ fresh)). constructor.
Defined.

(** C3 as stated fails: the load of a parseable file with the name [X] on
    two lines returns a store with two tasks named [X]. *)
Lemma C3_counterexample :
  TaskManager.init dia2 (py"tarefas.txt") disco_repetido
  = Ok (TaskManager.mk (py"tarefas.txt") [x_alta; x_baixa])
  /\ ~ NoDup (names [x_alta; x_baixa]).
Proof.
  split; [reflexivity|].
  intros H. apply NoDup_cons_iff in H as [H _]. apply H. left; reflexivity.
Qed.

Lemma C4_witness :
  Forall coherent (tasks_of
    (rounds [Adicionar dia1 (py"X") (py"alta") (py"c");
             Concluir dia2 (py"X");
             Remover (py"Y")] fresh)).
Proof.
  apply (proj1 (C4_coherent _ fresh)). constructor.
Defined.

(** C4 as stated fails: the load of a parseable file returns a task that
    is completed and has no completion date. *)
Lemma C4_counterexample :
  TaskManager.init dia2 (py"tarefas.txt") disco_sem_data
  = Ok (TaskManager.mk (py"tarefas.txt")
          [Task.mk (py"X") (py"alta") (py"c") dia1 true None])
  /\ ~ coherent (Task.mk (py"X") (py"alta") (py"c") dia1 true None).
Proof.
  split; [reflexivity|].
  intros [_ H]. apply H; reflexivity.
Qed.

(** * Saving and loading *)

Section Persistence.

Context {L : Py.Library} {HL : Py.Laws L}.

Lemma serializable_spec (x : Task) :
  serializable x = true ->
  free_of 59 x = true /\ free_of 10 x = true /\ free_of 13 x = true.
Proof. unfold serializable. rewrite !andb_true_iff. tauto. Qed.

(** A manager made on the file that [salvar_tarefas] wrote has the tasks
    as their lines read back. *)
Lemma carregar_saved (now : datetime) (arquivo : str) (ts : list Task)
      (d : disk) :
  Forall (fun x => serializable x = true /\ dates_ok x) ts ->
  TaskManager.carregar_tarefas now arquivo (File.write arquivo (text_of ts) d)
  = Ok (map reread ts).
Proof.
  intros H. unfold TaskManager.carregar_tarefas, File.write.
  rewrite eqb_refl. unfold text_of.
  rewrite readlines_text, from_lines_text; [reflexivity | |].
  - eapply Forall_impl; [|exact H]. cbv beta.
    intros x [Hs Hd]. apply serializable_spec in Hs. tauto.
  - eapply Forall_impl; [|exact H]. cbv beta.
    intros x [Hs Hd]. apply serializable_spec in Hs. tauto.
Qed.

(** C8, as amended.  After [adicionar_tarefa] returns for the name [X],
    the priority [baixa] and the category [work], on a store whose tasks
    hold no separator and no end of line in their text attributes, a
    manager made on the same path loads, and the list of all its tasks
    holds a pending task of name [X], priority [baixa] and category
    [work]. *)
Theorem C8_reload (now now' : datetime) (w w' : world) :
  Py.datetime_ok now ->
  Forall (fun x => serializable x = true /\ dates_ok x) (tasks_of w) ->
  TaskManager.adicionar_tarefa now (py"X") (py"baixa") (py"work") w
  = (Ok tt, w') ->
  exists m l,
    TaskManager.init now' (TaskManager.arquivo (TaskManager.self w'))
                     (TaskManager.files w') = Ok m
    /\ TaskManager.listar_tarefas None
         (TaskManager.mk_world m (TaskManager.files w'))
       = (Ok l, TaskManager.mk_world m (TaskManager.files w'))
    /\ In (Task.mk (py"X") (py"baixa") (py"work") now false None) l.
Proof.
  intros Hnow Hts Hadd.
  assert (Hnew : Task.init now (py"X") (py"baixa") (py"work")
                 = Task.mk (py"X") (py"baixa") (py"work") now false None).
  { unfold Task.init. rewrite lower_prioridades by (left; reflexivity).
    reflexivity. }
  destruct (adicionar_cases now (py"X") (py"baixa") (py"work") w)
    as [(_ & E) | [(_ & _ & E) | (_ & _ & E)]];
    rewrite E in Hadd; try discriminate Hadd.
  injection Hadd as Hok <-. apply outcome_ok in Hok.
  set (ts := tasks_of w ++ [Task.init now (py"X") (py"baixa") (py"work")])
    in *.
  assert (Hall : Forall (fun x => serializable x = true /\ dates_ok x) ts).
  { apply Forall_app; split; [exact Hts|].
    constructor; [|constructor].
    rewrite Hnew. split; [reflexivity|]. split; [exact Hnow | discriminate]. }
  exists (TaskManager.mk (TaskManager.arquivo (TaskManager.self w))
                         (map reread ts)).
  eexists. split; [|split; [apply listar_run|]].
  - unfold TaskManager.init, saved.
    cbn [TaskManager.self TaskManager.arquivo TaskManager.files].
    rewrite (written_writable _ Hok).
    rewrite (carregar_saved now' _ ts _ Hall). reflexivity.
  - unfold tasks_of.
    cbn [TaskManager.self TaskManager.tasks]. rewrite filter_all.
    unfold ts. rewrite map_app. apply in_or_app; right; left.
    rewrite Hnew. unfold reread.
    cbn [Task.nome Task.prioridade Task.categoria Task.data_criacao
         Task.concluida Task.data_conclusao].
    rewrite lower_prioridades by (left; reflexivity). reflexivity.
Qed.

End Persistence.

Lemma C8_witness :
  exists m l,
    TaskManager.init dia2 (py"tarefas.txt")
      (TaskManager.files
         (round (Adicionar dia1 (py"X") (py"baixa") (py"work")) fresh)) = Ok m
    /\ TaskManager.listar_tarefas None
         (TaskManager.mk_world m
            (TaskManager.files
               (round (Adicionar dia1 (py"X") (py"baixa") (py"work")) fresh)))
       = (Ok l,
          TaskManager.mk_world m
            (TaskManager.files
               (round (Adicionar dia1 (py"X") (py"baixa") (py"work")) fresh)))
    /\ In (Task.mk (py"X") (py"baixa") (py"work") dia1 false None) l.
Proof.
  apply (C8_reload dia1 dia2 fresh
           (round (Adicionar dia1 (py"X") (py"baixa") (py"work")) fresh)).
  - reflexivity.
  - constructor.
  - reflexivity.
Defined.

(** C8 as stated fails: on a store that holds a task named [a;b], the
    call returns, and a manager made on the same path does not load. *)
Lemma C8_counterexample :
  fst (TaskManager.adicionar_tarefa dia2 (py"X") (py"baixa") (py"work")
         com_separador) = Ok tt
  /\ TaskManager.init dia2 (py"tarefas.txt")
       (TaskManager.files
          (round (Adicionar dia2 (py"X") (py"baixa") (py"work"))
                 com_separador))
     = Raise ValueError_unpack.
Proof. split; reflexivity. Qed.

(** * Removing, and what a round keeps *)

Section Removing.

Context {L : Py.Library} {HL : Py.Laws L}.

Lemma filter_absent (nome : str) (ts : list Task) :
  ~ In nome (names ts) ->
  filter (fun x => negb (Str.eqb (Task.nome x) nome)) ts = ts.
Proof.
  induction ts as [|x ts IH]; cbn [filter names map In]; [reflexivity|].
  intros H. destruct (Str.eqb (Task.nome x) nome) eqn:E; cbn [negb].
  - apply eqb_eq in E. contradiction H; left; exact E.
  - rewrite IH; [reflexivity | intros Hin; apply H; right; exact Hin].
Qed.

Lemma filter_removed (nome : str) (ts : list Task) :
  ~ In nome
      (names (filter (fun x => negb (Str.eqb (Task.nome x) nome)) ts)).
Proof.
  unfold names. rewrite in_map_iff. intros (x & E & H).
  apply filter_In in H as [_ H]. apply negb_true_iff, eqb_neq in H.
  contradiction.
Qed.

Lemma length_filter_removed (nome : str) (ts : list Task) :
  (List.length (filter (fun x => negb (Str.eqb (Task.nome x) nome)) ts)
   + count_nome nome ts = List.length ts)%nat.
Proof.
  unfold count_nome.
  induction ts as [|x ts IH]; cbn [filter names map count_occ List.length];
    [reflexivity|].
  destruct (Str.eqb (Task.nome x) nome) eqn:E; cbn [negb].
  - apply eqb_eq in E.
    destruct (list_eq_dec N.eq_dec (Task.nome x) nome); [|contradiction].
    fold (names ts). lia.
  - apply eqb_neq in E.
    destruct (list_eq_dec N.eq_dec (Task.nome x) nome); [contradiction|].
    fold (names ts). cbn [List.length]. lia.
Qed.

Lemma in_step_saved (w : world) (ts : list Task) : in_step (saved w ts).
Proof.
  unfold in_step, saved, path_of, tasks_of, File.write.
  cbn [TaskManager.self TaskManager.arquivo TaskManager.files
       TaskManager.tasks].
  rewrite eqb_refl. reflexivity.
Qed.

Lemma in_step_sync (w : world) :
  in_step w -> writable (tasks_of w) = true -> in_sync w.
Proof.
  unfold in_step, in_sync. intros H Hw.
  rewrite H, (written_writable _ Hw). reflexivity.
Qed.

Lemma files_saved_other (w : world) (ts : list Task) (p : str) :
  p <> path_of w ->
  TaskManager.files (saved w ts) p = TaskManager.files w p.
Proof.
  intros H. unfold saved, File.write. cbn [TaskManager.files].
  apply eqb_neq in H. unfold path_of in H. rewrite H. reflexivity.
Qed.

(** X1.  [remover_tarefa] removes every task of the name, all of them
    when the name is repeated, keeps the other tasks in their order, and
    rewrites the backing file.  It returns when every line of what is
    left can be encoded, as it can when every line of the store could,
    and the file then holds the lines of the store; when a line cannot be
    encoded it raises [UnicodeEncodeError], with the tasks removed and
    the file holding the lines before that one. *)
Theorem X1_remover (nome : str) (w : world) :
  let r := TaskManager.remover_tarefa nome w in
  let w' := snd r in
  fst r = (if writable (tasks_of w') then Ok tt
           else Raise UnicodeEncodeError)
  /\ ~ In nome (names (tasks_of w'))
  /\ subseq (tasks_of w') (tasks_of w)
  /\ (forall x, In x (tasks_of w) -> Task.nome x <> nome ->
                In x (tasks_of w'))
  /\ (List.length (tasks_of w') + count_nome nome (tasks_of w)
      = List.length (tasks_of w))%nat
  /\ in_step w'
  /\ (writable (tasks_of w) = true -> fst r = Ok tt /\ in_sync w').
Proof.
  cbv zeta. rewrite remover_run. cbn [fst snd]. rewrite tasks_saved.
  split; [reflexivity|].
  split; [apply filter_removed|]. split; [apply subseq_filter|].
  split; [|split; [apply length_filter_removed|split]].
  - intros x Hx Hn. apply filter_In. split; [exact Hx|].
    apply negb_true_iff, eqb_neq, Hn.
  - apply in_step_saved.
  - intros Hw. pose proof (writable_filter
                 (fun x => negb (Str.eqb (Task.nome x) nome)) _ Hw) as Hf.
    split; [apply outcome_ok, Hf|].
    apply in_step_sync; [apply in_step_saved | rewrite tasks_saved; exact Hf].
Qed.

(** X2.  Removing a name that no task has keeps the list of tasks, and
    still writes the backing file: the call ends as [salvar_tarefas]
    does on the store, the file holds what [salvar_tarefas] writes for
    the store (its lines, when every line can be encoded), a file that
    held just that is the same after the call, and a manager without a
    file gets one. *)
Theorem X2_remover_absent (nome : str) (w : world) :
  ~ In nome (names (tasks_of w)) ->
  let r := TaskManager.remover_tarefa nome w in
  let w' := snd r in
  fst r = (if writable (tasks_of w) then Ok tt
           else Raise UnicodeEncodeError)
  /\ tasks_of w' = tasks_of w
  /\ path_of w' = path_of w
  /\ TaskManager.files w' (path_of w) = Some (written (tasks_of w))
  /\ (writable (tasks_of w) = true ->
      TaskManager.files w' (path_of w) = Some (text_of (tasks_of w)))
  /\ (in_step w -> forall p, TaskManager.files w' p = TaskManager.files w p).
Proof.
  intros H. cbv zeta. rewrite remover_run. cbn [fst snd].
  rewrite (filter_absent _ _ H). rewrite tasks_saved.
  split; [reflexivity|]. split; [reflexivity|]. split; [reflexivity|].
  split; [apply (in_step_saved w (tasks_of w))|]. split.
  - intros Hw. rewrite <- (written_writable _ Hw).
    apply (in_step_saved w (tasks_of w)).
  - intros Hs p. destruct (Str.eqb p (path_of w)) eqn:E.
    + apply eqb_eq in E; subst p.
      rewrite Hs. apply (in_step_saved w (tasks_of w)).
    + apply files_saved_other, eqb_neq, E.
Qed.

(** X3.  Adding a task and then removing its name gives back the list
    of tasks the store had before, when the name was not in the store;
    the task is added, and the call returns, when every line of the new
    store can be encoded, and is added before the call raises
    [UnicodeEncodeError] when one cannot. *)
Theorem X3_add_then_remove (now : datetime)
        (nome prioridade categoria : str) (w : world) :
  In (Py.lower prioridade) TaskManager.prioridades ->
  ~ In nome (names (tasks_of w)) ->
  fst (TaskManager.adicionar_tarefa now nome prioridade categoria w)
  = (if writable (tasks_of w ++ [Task.init now nome prioridade categoria])
     then Ok tt else Raise UnicodeEncodeError)
  /\ tasks_of (round (Adicionar now nome prioridade categoria) w)
     = tasks_of w ++ [Task.init now nome prioridade categoria]
  /\ tasks_of (round (Remover nome)
                 (round (Adicionar now nome prioridade categoria) w))
     = tasks_of w.
Proof.
  intros Hp Hn. cbn [round].
  destruct (adicionar_cases now nome prioridade categoria w)
    as [(Hp' & _) | [(_ & Hn' & _) | (_ & _ & E)]]; try contradiction.
  rewrite E. split; [reflexivity|]. cbn [snd].
  split; [apply tasks_saved|].
  rewrite remover_run. cbn [snd]. rewrite !tasks_saved.
  rewrite filter_app. rewrite (filter_absent _ _ Hn).
  cbn [filter Task.init Task.nome]. rewrite eqb_refl. cbn [negb].
  apply app_nil_r.
Qed.

(** What a round does to the world. *)
Lemma round_world (c : call) (w : world) :
  round c w = w \/ exists ts, round c w = saved w ts.
Proof.
  destruct c as [now n p k | f | now n | n]; cbn [round].
  - destruct (adicionar_cases now n p k w)
      as [(_ & E) | [(_ & _ & E) | (_ & _ & E)]]; rewrite E; cbn [snd];
      [left; reflexivity | left; reflexivity | right; eexists; reflexivity].
  - left; reflexivity.
  - destruct (TaskManager.tem_nome n (tasks_of w)) eqn:E.
    + destruct (primeiro_split _ _ E) as (pre & x & post & Ht & Hp & Hx).
      rewrite (concluir_here now n w pre post x Ht Hp Hx); cbn [snd].
      right; eexists; reflexivity.
    + rewrite (concluir_none now n w E). left; reflexivity.
  - right. rewrite remover_run; cbn [snd]. eexists; reflexivity.
Qed.

(** X4.  A round either leaves the world as it was or leaves the backing
    file holding what [salvar_tarefas] writes for the tasks of the
    manager, their lines up to the first that cannot be encoded; so once
    the file and the list agree in this way, they agree after any
    rounds, and the file holds exactly the lines of the tasks whenever
    all of them can be encoded. *)
Theorem X4_file_in_sync (cs : list call) (w : world) :
  (forall c, round c w = w \/ in_step (round c w))
  /\ (in_step w -> in_step (rounds cs w))
  /\ (in_step w -> writable (tasks_of (rounds cs w)) = true ->
      in_sync (rounds cs w)).
Proof.
  assert (H : forall cs w, in_step w -> in_step (rounds cs w)).
  { clear. intros cs. unfold rounds.
    induction cs as [|c cs IH]; intros w H; cbn [fold_left]; [exact H|].
    apply IH. destruct (round_world c w) as [E | (ts & E)]; rewrite E;
      [exact H | apply in_step_saved]. }
  split; [|split].
  - intros c. destruct (round_world c w) as [E | (ts & E)]; [left; exact E|].
    right. rewrite E. apply in_step_saved.
  - apply H.
  - intros Hs Hw. apply in_step_sync; [apply H, Hs | exact Hw].
Qed.

(** X5.  No round changes the path of the manager, and no round touches
    a file other than the backing file. *)
Theorem X5_other_files (cs : list call) (w : world) (p : str) :
  path_of (rounds cs w) = path_of w
  /\ (p <> path_of w ->
      TaskManager.files (rounds cs w) p = TaskManager.files w p).
Proof.
  revert w. unfold rounds.
  induction cs as [|c cs IH]; intros w; cbn [fold_left];
    [split; reflexivity|].
  destruct (IH (round c w)) as [IH1 IH2].
  destruct (round_world c w) as [E | (ts & E)]; rewrite E in *.
  - split; assumption.
  - split; [exact IH1|]. intros Hp.
    rewrite IH2 by exact Hp. apply files_saved_other, Hp.
Qed.

Lemma filter_state_perm (ts : list Task) :
  Permutation ts
    (filter (fun x => Bool.eqb (Task.concluida x) false) ts
     ++ filter (fun x => Bool.eqb (Task.concluida x) true) ts).
Proof.
  induction ts as [|x ts IH]; cbn [filter]; [constructor|].
  destruct (Task.concluida x); cbn [Bool.eqb app].
  - apply Permutation_cons_app, IH.
  - constructor; exact IH.
Qed.

(** X6.  The pending tasks and the completed tasks that [listar_tarefas]
    returns share the tasks of the unfiltered list between them: together
    they are a rearrangement of it, and no task is in both. *)
Theorem X6_listar_partition (w : world) :
  exists todas pendentes concluidas,
    TaskManager.listar_tarefas None w = (Ok todas, w)
    /\ TaskManager.listar_tarefas (Some false) w = (Ok pendentes, w)
    /\ TaskManager.listar_tarefas (Some true) w = (Ok concluidas, w)
    /\ Permutation todas (pendentes ++ concluidas)
    /\ (List.length todas
        = List.length pendentes + List.length concluidas)%nat
    /\ forall x, ~ (In x pendentes /\ In x concluidas).
Proof.
  do 3 eexists. do 3 (split; [apply listar_run|]).
  rewrite filter_all.
  split; [apply filter_state_perm|].
  split.
  - rewrite <- length_app. apply Permutation_length, filter_state_perm.
  - intros x [H1 H2].
    apply filter_In in H1 as [_ H1]. apply filter_In in H2 as [_ H2].
    destruct (Task.concluida x); discriminate.
Qed.


End Removing.

Lemma X2_witness :
  TaskManager.files (snd (TaskManager.remover_tarefa (py"Y") fresh))
                    (py"tarefas.txt")
  = Some [].
Proof.
  refine (proj1 (proj2 (proj2 (proj2
            (X2_remover_absent (py"Y") fresh _))))).
  intros [].
Defined.

Lemma X3_witness :
  tasks_of (round (Remover (py"Y"))
              (round (Adicionar dia2 (py"Y") (py"Alta") (py"c")) repetido))
  = tasks_of repetido.
Proof.
  refine (proj2 (proj2
            (X3_add_then_remove dia2 (py"Y") (py"Alta") (py"c") repetido
               _ _))).
  - right; right; left; reflexivity.
  - intros [H | [H | []]]; vm_compute in H; discriminate H.
Defined.

Lemma X4_witness :
  in_step (rounds [Concluir dia2 (py"X"); Remover (py"Y")] repetido).
Proof.
  apply (proj1 (proj2 (X4_file_in_sync
                         [Concluir dia2 (py"X"); Remover (py"Y")]
                         repetido))).
  reflexivity.
Defined.

Lemma X5_witness :
  TaskManager.files
    (rounds [Adicionar dia2 (py"Y") (py"alta") (py"c")] repetido)
    (py"outro.txt")
  = TaskManager.files repetido (py"outro.txt").
Proof.
  apply (proj2 (X5_other_files [Adicionar dia2 (py"Y") (py"alta") (py"c")]
                  repetido (py"outro.txt"))).
  intros H; vm_compute in H; discriminate H.
Defined.


(** * More on the line format *)

Section MoreLineFormat.

Context {L : Py.Library} {HL : Py.Laws L}.

(** X8.  The record that [from_line] returns does not depend on the
    clock: its creation date is the date written in the line.  So a
    manager loads the same tasks whenever it is made. *)
Theorem X8_from_line_clock (now1 now2 : datetime) :
  (forall linha, Task.from_line now1 linha = Task.from_line now2 linha)
  /\ (forall arquivo d,
        TaskManager.init now1 arquivo d = TaskManager.init now2 arquivo d)
  /\ forall linha x,
       Task.from_line now1 linha = Ok x ->
       Py.fromisoformat (nth 3 (fields linha) [])
       = Some (Task.data_criacao x).
Proof.
  assert (H : forall linha,
             Task.from_line now1 linha = Task.from_line now2 linha).
  { intros linha. unfold Task.from_line.
    destruct (Str.split 59 (Str.strip linha))
      as [|f0 [|f1 [|f2 [|f3 [|f4 [|f5 [|f6 r]]]]]]]; reflexivity. }
  split; [exact H|]. split.
  - intros arquivo d. unfold TaskManager.init, TaskManager.carregar_tarefas.
    destruct (d arquivo) as [text|]; [|reflexivity].
    assert (E : TaskManager.from_lines now1 (File.readlines text)
                = TaskManager.from_lines now2 (File.readlines text)).
    { induction (File.readlines text) as [|l ls IH];
        cbn [TaskManager.from_lines]; [reflexivity|].
      rewrite H, IH. reflexivity. }
    rewrite E. reflexivity.
  - intros linha x. unfold Task.from_line, fields.
    destruct (Str.split 59 (Str.strip linha))
      as [|f0 [|f1 [|f2 [|f3 [|f4 [|f5 [|f6 r]]]]]]]; try discriminate.
    cbn [nth]. unfold Task.fromisoformat.
    destruct (Py.fromisoformat f3) as [d3|]; [|discriminate].
    destruct (negb (Str.eqb f5 py"None")).
    + destruct (Py.fromisoformat f5); [|discriminate].
      intros E; injection E as <-; reflexivity.
    + intros E; injection E as <-; reflexivity.
Qed.

Lemma lstrip_spaces (a s : str) :
  forallb Str.isspace a = true -> Str.lstrip (a ++ s) = Str.lstrip s.
Proof.
  induction a as [|c a IH]; cbn [forallb app Str.lstrip]; [reflexivity|].
  intros H; apply andb_true_iff in H as [Hc Ha]. rewrite Hc. apply IH, Ha.
Qed.

Lemma rstrip_spaces (s b : str) :
  forallb Str.isspace b = true -> Str.rstrip (s ++ b) = Str.rstrip s.
Proof.
  intros H. unfold Str.rstrip. rewrite rev_app_distr, lstrip_spaces;
    [reflexivity|].
  rewrite forallb_forall in *. intros x Hx. apply H, in_rev, Hx.
Qed.

Lemma lstrip_app_gen (u v : str) :
  Str.lstrip (u ++ v)
  = match Str.lstrip u with
    | [] => Str.lstrip v
    | _ :: _ => Str.lstrip u ++ v
    end.
Proof.
  induction u as [|c u IH]; cbn [app Str.lstrip]; [reflexivity|].
  destruct (Str.isspace c); [exact IH | reflexivity].
Qed.

Lemma rstrip_cons (c : N) (s : str) :
  Str.rstrip (c :: s)
  = match Str.rstrip s with
    | [] => if Str.isspace c then [] else [c]
    | _ :: _ => c :: Str.rstrip s
    end.
Proof.
  unfold Str.rstrip. cbn [rev]. rewrite lstrip_app_gen.
  destruct (Str.lstrip (rev s)) as [|y r] eqn:E.
  - cbn [rev Str.lstrip]. destruct (Str.isspace c); reflexivity.
  - rewrite rev_app_distr. cbn [rev app].
    destruct (rev r ++ [y]) as [|z t] eqn:E2; [|reflexivity].
    destruct (rev r); discriminate E2.
Qed.

Lemma strip_space_cons (c : N) (s : str) :
  Str.isspace c = true -> Str.strip (c :: s) = Str.strip s.
Proof.
  intros Hc. unfold Str.strip. rewrite rstrip_cons, Hc.
  destruct (Str.rstrip s) as [|y r]; [reflexivity|].
  cbn [Str.lstrip]. rewrite Hc. reflexivity.
Qed.

Lemma strip_spaces (a s b : str) :
  forallb Str.isspace a = true -> forallb Str.isspace b = true ->
  Str.strip (a ++ s ++ b) = Str.strip s.
Proof.
  intros Ha Hb. induction a as [|c a IH]; cbn [app].
  - unfold Str.strip. rewrite rstrip_spaces by exact Hb. reflexivity.
  - cbn [forallb] in Ha. apply andb_true_iff in Ha as [Hc Ha].
    rewrite strip_space_cons by exact Hc. apply IH, Ha.
Qed.

(** X9.  [from_line] reads a line the same with any whitespace before it
    and after it, the end of line that the file gives it among them. *)
Theorem X9_from_line_whitespace (now : datetime) (a linha b : str) :
  forallb Str.isspace a = true -> forallb Str.isspace b = true ->
  Task.from_line now (a ++ linha ++ b) = Task.from_line now linha.
Proof.
  intros Ha Hb. unfold Task.from_line.
  rewrite strip_spaces by assumption. reflexivity.
Qed.

Lemma lstrip_head (s : str) : starts_with_space (Str.lstrip s) = false.
Proof.
  induction s as [|c s IH]; cbn [Str.lstrip]; [reflexivity|].
  destruct (Str.isspace c) eqn:E; [exact IH | exact E].
Qed.

Lemma free_of_reread (c : N) (x : Task) :
  c < 65 -> free_of c x = true -> free_of c (reread x) = true.
Proof.
  intros Hc H. apply free_of_spec in H as (Hn & Hp & Hk).
  unfold free_of, reread.
  cbn [Task.nome Task.prioridade Task.categoria].
  rewrite (contains_lstrip _ _ Hn), Py.lower_keeps, Hp, Hk by exact Hc.
  reflexivity.
Qed.

Lemma reread_idem (x : Task) : reread (reread x) = reread x.
Proof.
  unfold reread.
  cbn [Task.nome Task.prioridade Task.categoria Task.data_criacao
       Task.concluida Task.data_conclusao].
  rewrite Py.lower_idem, (lstrip_id _ (lstrip_head _)). reflexivity.
Qed.

(** X10.  The line of any task whose text attributes hold no separator,
    and whose dates are timestamps of the library, reads back as the
    same task with the whitespace at the start of the name removed and
    the priority as [str.lower] gives it; every other attribute is the
    same, and the line of the task read back reads back as itself. *)
Theorem X10_read_back (now : datetime) (x : Task) :
  free_of 59 x = true -> dates_ok x ->
  Task.from_line now (Task.to_line x) = Ok (reread x)
  /\ Task.from_line now (Task.to_line (reread x)) = Ok (reread x).
Proof.
  intros Hf Hd. split.
  - rewrite <- (app_nil_r (Task.to_line x)).
    apply from_line_to_line; auto.
  - rewrite <- (app_nil_r (Task.to_line (reread x))).
    rewrite from_line_to_line; auto.
    + rewrite reread_idem; reflexivity.
    + apply free_of_reread; [reflexivity | exact Hf].
Qed.

Lemma split_free (sep : N) (s f : str) :
  In f (Str.split sep s) -> Str.contains sep f = false.
Proof.
  revert f; induction s as [|c s IH]; intros f; cbn [Str.split].
  - intros [<- | []]; reflexivity.
  - destruct (c =? sep) eqn:E.
    + intros [<- | H]; [reflexivity | apply IH, H].
    + destruct (Str.split sep s) as [|g gs].
      * intros [<- | []]. rewrite contains_cons, N.eqb_sym, E. reflexivity.
      * intros [<- | H]; [|apply IH; right; exact H].
        rewrite contains_cons, N.eqb_sym, E. apply IH; left; reflexivity.
Qed.

Lemma split_head (sep : N) (s f : str) (fs : list str) :
  Str.split sep s = f :: fs -> starts_with_space s = false ->
  starts_with_space f = false.
Proof.
  destruct s as [|c s]; cbn [Str.split].
  - intros E _; injection E as <- _; reflexivity.
  - destruct (c =? sep).
    + intros E _; injection E as <- _; reflexivity.
    + destruct (Str.split sep s); intros E H; injection E as <- _; exact H.
Qed.

(** What [from_line] guarantees of the record it returns. *)
Lemma from_line_normal (now : datetime) (linha : str) (x : Task) :
  Task.from_line now linha = Ok x ->
  free_of 59 x = true /\ dates_ok x /\ reread x = x
  /\ forall c, c < 65 -> Str.contains c (Str.strip linha) = false ->
               free_of c x = true.
Proof.
  unfold Task.from_line.
  destruct (Str.split 59 (Str.strip linha))
    as [|f0 [|f1 [|f2 [|f3 [|f4 [|f5 [|f6 r]]]]]]] eqn:E; try discriminate.
  assert (Hfree : forall f, In f [f0; f1; f2; f3; f4; f5] ->
                            Str.contains 59 f = false).
  { intros f Hf. apply (split_free 59 (Str.strip linha)). rewrite E.
    exact Hf. }
  assert (H0 : starts_with_space f0 = false).
  { apply (split_head 59 (Str.strip linha) f0 _ E).
    unfold Str.strip. apply lstrip_head. }
  unfold Task.fromisoformat.
  destruct (Py.fromisoformat f3) as [d3|] eqn:E3; [|discriminate].
  apply Py.parsed_ok in E3.
  assert (Hx : forall dd,
             (forall d, dd = Some d -> Py.datetime_ok d) ->
             let x0 := Task.mk f0 (Py.lower f1) f2 d3
                               (Str.eqb f4 py"True") dd in
             free_of 59 x0 = true /\ dates_ok x0 /\ reread x0 = x0
             /\ forall c, c < 65 -> Str.contains c (Str.strip linha) = false ->
                          free_of c x0 = true).
  { intros dd Hdd. cbv zeta. split; [|split; [|split]].
    - unfold free_of.
      cbn [Task.nome Task.prioridade Task.categoria].
      rewrite Py.lower_keeps by reflexivity.
      rewrite !Hfree by (cbn [In]; auto). reflexivity.
    - split; [exact E3 | exact Hdd].
    - unfold reread.
      cbn [Task.nome Task.prioridade Task.categoria Task.data_criacao
           Task.concluida Task.data_conclusao].
      rewrite Py.lower_idem, (lstrip_id _ H0). reflexivity.
    - intros c Hc Hs. unfold free_of.
      cbn [Task.nome Task.prioridade Task.categoria].
      rewrite Py.lower_keeps by exact Hc.
      assert (Hin : forall f, In f [f0; f1; f2; f3; f4; f5] ->
                              Str.contains c f = false).
      { intros f Hf. apply contains_false. intros y Hy.
        apply (proj1 (contains_false c (Str.strip linha)) Hs).
        clear - E Hf Hy. revert f Hf y Hy.
        assert (G : forall s f, In f (Str.split 59 s) ->
                                forall y, In y f -> In y s).
        { induction s as [|z s IH]; cbn [Str.split].
          - intros f [<- | []] y [].
          - destruct (z =? 59).
            + intros f [<- | H] y Hy; [destruct Hy|].
              right; apply (IH f H y Hy).
            + destruct (Str.split 59 s) as [|g gs].
              * intros f [<- | []] y [<- | []]; left; reflexivity.
              * intros f [<- | H] y Hy.
                -- destruct Hy as [<- | Hy]; [left; reflexivity|].
                   right; apply (IH g); [left; reflexivity | exact Hy].
                -- right; apply (IH f); [right; exact H | exact Hy]. }
        intros f Hf y Hy. apply (G (Str.strip linha) f); [|exact Hy].
        rewrite E; exact Hf. }
      rewrite !Hin by (cbn [In]; auto). reflexivity. }
  destruct (negb (Str.eqb f5 py"None")).
  - destruct (Py.fromisoformat f5) as [d5|] eqn:E5; [|discriminate].
    apply Py.parsed_ok in E5.
    intros H; injection H as <-.
    apply (Hx (Some d5)). intros d Hd; injection Hd as <-; exact E5.
  - intros H; injection H as <-. apply (Hx None). discriminate.
Qed.

(** X11.  A record that [from_line] returned is written and read back
    unchanged: its name has no separator and no whitespace at its start,
    its priority is in lower case, and its dates are dates. *)
Theorem X11_reparse (now now' : datetime) (linha : str) (x : Task) :
  Task.from_line now linha = Ok x ->
  Task.from_line now' (Task.to_line x) = Ok x.
Proof.
  intros H. apply from_line_normal in H as (Hf & Hd & Hr & _).
  rewrite <- (app_nil_r (Task.to_line x)).
  rewrite from_line_to_line by auto. rewrite Hr. reflexivity.
Qed.

Lemma split_to_line_raw (x : Task) :
  free_of 59 x = true ->
  Str.split 59 (Task.to_line x)
  = [Task.nome x; Task.prioridade x; Task.categoria x;
     Py.isoformat (Task.data_criacao x);
     Task.format_bool (Task.concluida x);
     Task.format_opt (Task.data_conclusao x)].
Proof.
  intros Hf. apply free_of_spec in Hf as (Hn & Hp & Hc).
  rewrite to_line_shape.
  rewrite split_app by exact Hn.
  rewrite split_app by exact Hp.
  rewrite split_app by exact Hc.
  rewrite split_app by (apply iso_contains; lia).
  rewrite split_app by (apply format_bool_contains; lia).
  rewrite split_one by (apply format_opt_contains; lia).
  reflexivity.
Qed.

Lemma iso_inj (d d' : datetime) :
  Py.datetime_ok d -> Py.datetime_ok d' ->
  Py.isoformat d = Py.isoformat d' -> d = d'.
Proof.
  intros H H' E. apply (f_equal Py.fromisoformat) in E.
  rewrite !Py.iso_roundtrip in E by assumption.
  injection E as E; exact E.
Qed.

Lemma str_inj (d d' : datetime) :
  Py.datetime_ok d -> Py.datetime_ok d' ->
  Py.to_str d = Py.to_str d' -> d = d'.
Proof.
  intros H H' E. apply (f_equal Py.fromisoformat) in E.
  rewrite !Py.str_roundtrip in E by assumption.
  injection E as E; exact E.
Qed.

(** X12.  Two tasks with the same line are the same task, when their
    text attributes hold no separator: the line tells every attribute. *)
Theorem X12_to_line_injective (x y : Task) :
  free_of 59 x = true -> free_of 59 y = true ->
  dates_ok x -> dates_ok y ->
  Task.to_line x = Task.to_line y -> x = y.
Proof.
  intros Hx Hy [Hcx Hdx] [Hcy Hdy] E.
  apply (f_equal (Str.split 59)) in E.
  rewrite !split_to_line_raw in E by assumption.
  pose proof (f_equal (fun l => nth 0 l []) E) as En.
  pose proof (f_equal (fun l => nth 1 l []) E) as Ep.
  pose proof (f_equal (fun l => nth 2 l []) E) as Ec.
  pose proof (f_equal (fun l => nth 3 l []) E) as Ei.
  pose proof (f_equal (fun l => nth 4 l []) E) as Eb.
  pose proof (f_equal (fun l => nth 5 l []) E) as Eo.
  cbn [nth] in En, Ep, Ec, Ei, Eb, Eo. clear E.
  apply iso_inj in Ei; [|assumption|assumption].
  destruct x as [n p c dc b dd], y as [n' p' c' dc' b' dd'].
  cbn [Task.nome Task.prioridade Task.categoria Task.data_criacao
       Task.concluida Task.data_conclusao] in *.
  subst n' p' c' dc'.
  assert (b = b').
  { destruct b, b'; try reflexivity; vm_compute in Eb; discriminate Eb. }
  assert (dd = dd').
  { destruct dd as [d|], dd' as [d'|]; cbn [Task.format_opt] in Eo.
    - f_equal. apply str_inj; [apply Hdx | apply Hdy | exact Eo];
        reflexivity.
    - apply eqb_eq in Eo. rewrite to_str_not_None in Eo. discriminate Eo.
    - symmetry in Eo. apply eqb_eq in Eo. rewrite to_str_not_None in Eo.
      discriminate Eo.
    - reflexivity. }
  subst; reflexivity.
Qed.

Lemma length_split (sep : N) (s : str) :
  List.length (Str.split sep s) = S (count_occ N.eq_dec s sep).
Proof.
  induction s as [|c s IH]; [reflexivity|].
  cbn [Str.split count_occ].
  destruct (N.eqb_spec c sep) as [E | E].
  - destruct (N.eq_dec c sep); [|contradiction].
    cbn [List.length]. rewrite IH. reflexivity.
  - destruct (N.eq_dec c sep); [contradiction|].
    destruct (Str.split sep s); [discriminate IH | exact IH].
Qed.

(** X13.  [from_line] raises the unpacking error exactly when the
    stripped line does not hold five separators; an empty line and a
    line of whitespace raise it. *)
Theorem X13_unpack (now : datetime) (linha : str) :
  (Task.from_line now linha = Raise ValueError_unpack
   <-> count_occ N.eq_dec (Str.strip linha) 59 <> 5%nat)
  /\ (forallb Str.isspace linha = true ->
      Task.from_line now linha = Raise ValueError_unpack).
Proof.
  assert (H : Task.from_line now linha = Raise ValueError_unpack
              <-> count_occ N.eq_dec (Str.strip linha) 59 <> 5%nat).
  { pose proof (length_split 59 (Str.strip linha)) as Hl.
    unfold Task.from_line.
    destruct (Str.split 59 (Str.strip linha))
      as [|f0 [|f1 [|f2 [|f3 [|f4 [|f5 [|f6 r]]]]]]];
      cbn [List.length] in Hl;
      try (split; [intros _; lia | reflexivity]).
    split; [|lia]. unfold Task.fromisoformat.
    destruct (Py.fromisoformat f3); [|discriminate].
    destruct (negb (Str.eqb f5 py"None")); [|discriminate].
    destruct (Py.fromisoformat f5); discriminate. }
  split; [exact H|].
  intros Hs. apply H.
  assert (E : Str.strip linha = []).
  { rewrite <- (app_nil_r linha).
    change (linha ++ []) with (linha ++ [] ++ []).
    rewrite strip_spaces; reflexivity || exact Hs. }
  rewrite E. discriminate.
Qed.

End MoreLineFormat.

Lemma X8_witness :
  Py.fromisoformat
    (nth 3 (fields (py"X;alta;c;2024-01-05T09:30:00;False;None")) [])
  = Some (Task.data_criacao x_alta).
Proof.
  apply (proj2 (proj2 (X8_from_line_clock dia2 dia1))
           (py"X;alta;c;2024-01-05T09:30:00;False;None") x_alta).
  reflexivity.
Defined.

Lemma X9_witness :
  Task.from_line dia2
    ([32; 9] ++ py"X;alta;c;2024-01-05T09:30:00;False;None" ++ [13; 10])
  = Task.from_line dia2 (py"X;alta;c;2024-01-05T09:30:00;False;None").
Proof.
  apply X9_from_line_whitespace; reflexivity.
Defined.

Lemma X10_witness :
  Task.from_line dia2
    (Task.to_line (Task.mk (py"  X") (py"ALTA") (py" c ") dia1 true None))
  = Ok (Task.mk (py"X") (py"alta") (py" c ") dia1 true None).
Proof.
  apply (X10_read_back dia2
           (Task.mk (py"  X") (py"ALTA") (py" c ") dia1 true None)).
  - reflexivity.
  - split; [reflexivity | discriminate].
Defined.

Lemma X11_witness :
  Task.from_line dia1
    (Task.to_line (Task.mk (py"X") (py"alta") (py"c")
                           (mk_naive 2024 1 5 0 0 0 0) false None))
  = Ok (Task.mk (py"X") (py"alta") (py"c")
                (mk_naive 2024 1 5 0 0 0 0) false None).
Proof.
  apply (X11_reparse dia2 dia1 (py"  X;ALTA;c;2024-01-05;talvez;None")).
  reflexivity.
Defined.

Lemma X12_witness : x_alta = x_alta.
Proof.
  apply X12_to_line_injective; try reflexivity;
    (split; [reflexivity | discriminate]).
Defined.

Lemma X13_witness :
  Task.from_line dia1 [32; 10] = Raise ValueError_unpack.
Proof.
  apply (proj2 (X13_unpack dia1 [32; 10])). reflexivity.
Defined.

(** * More on loading *)

Section Loading.

Context {L : Py.Library} {HL : Py.Laws L}.

Lemma from_lines_ok (now : datetime) (ls : list str) (xs : list Task) :
  TaskManager.from_lines now ls = Ok xs
  <-> Forall2 (fun l x => Task.from_line now l = Ok x) ls xs.
Proof.
  revert xs; induction ls as [|l ls IH]; intros xs;
    cbn [TaskManager.from_lines].
  - split.
    + intros H; injection H as <-; constructor.
    + intros H; inversion H; reflexivity.
  - destruct (Task.from_line now l) as [x|e] eqn:El.
    + destruct (TaskManager.from_lines now ls) as [ys|e] eqn:Els.
      * split.
        -- intros H; injection H as <-. constructor; [exact El|].
           apply IH; reflexivity.
        -- intros H; inversion H as [|? ? ? zs Hx Hr]; subst.
           rewrite El in Hx; injection Hx as <-.
           apply IH in Hr; injection Hr as <-. reflexivity.
      * split; [discriminate|].
        intros H; inversion H as [|? ? ? zs Hx Hr]; subst.
        apply IH in Hr; discriminate Hr.
    + split; [discriminate|].
      intros H; inversion H as [|? ? ? zs Hx Hr]; subst.
      rewrite El in Hx; discriminate Hx.
Qed.

Lemma from_lines_bad (now : datetime) (good rest : list str) (bad : str)
      (e : exn) :
  Forall (fun l => exists x, Task.from_line now l = Ok x) good ->
  Task.from_line now bad = Raise e ->
  TaskManager.from_lines now (good ++ bad :: rest) = Raise e.
Proof.
  intros Hg Hb. induction Hg as [|l good (x & Hx) _ IH];
    cbn [app TaskManager.from_lines].
  - rewrite Hb; reflexivity.
  - rewrite Hx, IH; reflexivity.
Qed.

(** X14.  A manager is made from a file exactly when every line of the
    file reads as a task, and its tasks are then those of the lines, in
    the order of the file; at the first line that does not, the
    constructor raises the error of that line, whatever the lines after
    it, and no manager is made of the lines before it. *)
Theorem X14_load_all_or_nothing (now : datetime) (arquivo text : str)
        (d : disk) :
  d arquivo = Some text ->
  (forall ts,
     TaskManager.init now arquivo d = Ok (TaskManager.mk arquivo ts)
     <-> Forall2 (fun l x => Task.from_line now l = Ok x)
                 (File.readlines text) ts)
  /\ forall good bad rest e,
       File.readlines text = good ++ bad :: rest ->
       Forall (fun l => exists x, Task.from_line now l = Ok x) good ->
       Task.from_line now bad = Raise e ->
       TaskManager.init now arquivo d = Raise e.
Proof.
  intros Hd. unfold TaskManager.init, TaskManager.carregar_tarefas.
  rewrite Hd. split.
  - intros ts. rewrite <- from_lines_ok.
    destruct (TaskManager.from_lines now (File.readlines text)) as [xs|e].
    + split; intros H; injection H as <-; reflexivity.
    + split; discriminate.
  - intros good bad rest e -> Hg Hb.
    rewrite (from_lines_bad now good rest bad e Hg Hb). reflexivity.
Qed.

Lemma universal_newlines_no_cr (s : str) (y : N) :
  In y (File.universal_newlines s) -> y <> 13.
Proof.
  assert (G : forall n s, (List.length s <= n)%nat ->
                          In y (File.universal_newlines s) -> y <> 13).
  { induction n as [|n IH]; intros [|c t] Hl; cbn [File.universal_newlines];
      try (intros []); cbn [List.length] in Hl; [lia|].
    destruct (N.eqb_spec c 13) as [E | E].
    - intros [<- | H]; [discriminate|].
      destruct t as [|c2 t2]; [destruct H|].
      cbn [List.length] in Hl.
      destruct (c2 =? 10);
        [ apply (IH t2 ltac:(lia) H)
        | apply (IH (c2 :: t2) ltac:(cbn [List.length]; lia) H) ].
    - intros [<- | H]; [exact E|]. apply (IH t ltac:(lia) H). }
  apply (G (List.length s)); apply le_n.
Qed.

Lemma lines_chars (s l : str) (y : N) :
  In l (File.lines s) -> In y l -> In y s.
Proof.
  revert l; induction s as [|c s IH]; intros l; cbn [File.lines];
    [intros []|].
  destruct (N.eqb_spec c 10) as [E | E].
  - intros [<- | H] Hy.
    + destruct Hy as [<- | []]. left; exact E.
    + right; apply (IH l H Hy).
  - destruct (File.lines s) as [|l0 ls].
    + intros [<- | []] [<- | []]; left; reflexivity.
    + intros [<- | H] Hy.
      * destruct Hy as [<- | Hy]; [left; reflexivity|].
        right; apply (IH l0); [left; reflexivity | exact Hy].
      * right; apply (IH l); [right; exact H | exact Hy].
Qed.

Lemma lines_shape (s l : str) :
  In l (File.lines s) ->
  exists body,
    Str.contains 10 body = false /\ (l = body \/ l = body ++ [10]).
Proof.
  revert l; induction s as [|c s IH]; intros l; cbn [File.lines];
    [intros []|].
  destruct (N.eqb_spec c 10) as [E | E].
  - intros [<- | H]; [|apply IH, H].
    exists []; split; [reflexivity | right; reflexivity].
  - assert (Ec : Str.contains 10 [c] = false).
    { rewrite contains_cons. apply orb_false_iff; split; [|reflexivity].
      apply N.eqb_neq; congruence. }
    destruct (File.lines s) as [|l0 ls].
    + intros [<- | []]. exists [c]; split; [exact Ec | left; reflexivity].
    + intros [<- | H]; [|apply IH; right; exact H].
      destruct (IH l0 (or_introl eq_refl)) as (body & Hb & Hl).
      exists (c :: body). split.
      * change (c :: body) with ([c] ++ body).
        rewrite contains_app, Ec, Hb. reflexivity.
      * destruct Hl as [-> | ->]; [left | right]; reflexivity.
Qed.

Lemma lstrip_incl (s : str) (y : N) : In y (Str.lstrip s) -> In y s.
Proof.
  induction s as [|c s IH]; cbn [Str.lstrip]; [intros []|].
  destruct (Str.isspace c); [intros H; right; apply IH, H | auto].
Qed.

Lemma strip_incl (s : str) (y : N) : In y (Str.strip s) -> In y s.
Proof.
  unfold Str.strip, Str.rstrip. intros H.
  apply lstrip_incl, in_rev, lstrip_incl, in_rev in H. exact H.
Qed.

Lemma readlines_strip (text l : str) :
  In l (File.readlines text) ->
  Str.contains 10 (Str.strip l) = false
  /\ Str.contains 13 (Str.strip l) = false.
Proof.
  unfold File.readlines. intros H. split.
  - destruct (lines_shape _ _ H) as (body & Hb & [-> | ->]).
    + apply contains_false. intros y Hy. apply strip_incl in Hy.
      apply (proj1 (contains_false 10 body) Hb y Hy).
    + change (body ++ [10]) with ([] ++ body ++ [10]).
      rewrite strip_spaces by reflexivity.
      apply contains_false. intros y Hy. apply strip_incl in Hy.
      apply (proj1 (contains_false 10 body) Hb y Hy).
  - apply contains_false. intros y Hy. apply strip_incl in Hy.
    apply (universal_newlines_no_cr text), (lines_chars _ l); assumption.
Qed.

Lemma parsed_stable (now : datetime) (ls : list str) (ts : list Task) :
  Forall2 (fun l x => Task.from_line now l = Ok x) ls ts ->
  (forall l, In l ls ->
             Str.contains 10 (Str.strip l) = false
             /\ Str.contains 13 (Str.strip l) = false) ->
  Forall stable ts.
Proof.
  induction 1 as [|l x ls xs Hx _ IH]; intros Hl; constructor.
  - destruct (from_line_normal now l x Hx) as (Hf & Hd & Hr & Hc).
    destruct (Hl l (or_introl eq_refl)) as [H10 H13].
    split; [|split; assumption].
    unfold serializable. rewrite Hf, (Hc 10), (Hc 13); auto; reflexivity.
  - apply IH. intros l' Hl'. apply Hl; right; exact Hl'.
Qed.

(** The tasks that a manager loads are written and read back as they
    are. *)
Lemma loaded_stable (now : datetime) (text : str) (ts : list Task) :
  TaskManager.from_lines now (File.readlines text) = Ok ts ->
  Forall stable ts.
Proof.
  intros H. apply from_lines_ok in H.
  apply (parsed_stable now _ _ H). apply readlines_strip.
Qed.

Lemma map_reread_stable (ts : list Task) :
  Forall stable ts -> map reread ts = ts.
Proof.
  induction 1 as [|x ts (_ & _ & Hr) _ IH]; cbn [map]; [reflexivity|].
  rewrite Hr, IH. reflexivity.
Qed.

Lemma carregar_text (now : datetime) (arquivo : str) (ts : list Task)
      (d : disk) :
  d arquivo = Some (text_of ts) -> Forall stable ts ->
  TaskManager.carregar_tarefas now arquivo d = Ok ts.
Proof.
  intros Hd Hs. unfold TaskManager.carregar_tarefas. rewrite Hd.
  unfold text_of.
  rewrite readlines_text, from_lines_text.
  - rewrite (map_reread_stable _ Hs). reflexivity.
  - eapply Forall_impl; [|exact Hs]. cbv beta.
    intros x (Hser & Hd' & _). apply serializable_spec in Hser. tauto.
  - eapply Forall_impl; [|exact Hs]. cbv beta.
    intros x (Hser & Hd' & _). apply serializable_spec in Hser. tauto.
Qed.


Lemma split_chars (sep : N) (s f : str) (y : N) :
  In f (Str.split sep s) -> In y f -> In y s.
Proof.
  revert f; induction s as [|z s IH]; intros f; cbn [Str.split].
  - intros [<- | []] [].
  - destruct (z =? sep).
    + intros [<- | H] Hy; [destruct Hy|].
      right; apply (IH f H Hy).
    + destruct (Str.split sep s) as [|g gs].
      * intros [<- | []] [<- | []]; left; reflexivity.
      * intros [<- | H] Hy.
        -- destruct Hy as [<- | Hy]; [left; reflexivity|].
           right; apply (IH g); [left; reflexivity | exact Hy].
        -- right; apply (IH f); [right; exact H | exact Hy].
Qed.

Lemma universal_newlines_chars (s : str) (y : N) :
  In y (File.universal_newlines s) -> In y s \/ y = 10.
Proof.
  assert (G : forall n s, (List.length s <= n)%nat ->
                          In y (File.universal_newlines s) ->
                          In y s \/ y = 10).
  { induction n as [|n IH]; intros [|c t] Hl; cbn [File.universal_newlines];
      try (intros []); cbn [List.length] in Hl; [lia|].
    destruct (N.eqb_spec c 13) as [E | E].
    - intros [<- | H]; [right; reflexivity|].
      destruct t as [|c2 t2]; [destruct H|].
      cbn [List.length] in Hl.
      destruct (c2 =? 10).
      + destruct (IH t2 ltac:(lia) H) as [H' | H']; [|right; exact H'].
        left; right; right; exact H'.
      + destruct (IH (c2 :: t2) ltac:(cbn [List.length]; lia) H)
          as [H' | H']; [|right; exact H'].
        left; right; exact H'.
    - intros [<- | H]; [left; left; reflexivity|].
      destruct (IH t ltac:(lia) H) as [H' | H']; [|right; exact H'].
      left; right; exact H'. }
  apply (G (List.length s)); apply le_n.
Qed.

Lemma readlines_encodes (text l : str) :
  Str.encodes text = true -> In l (File.readlines text) ->
  Str.encodes l = true.
Proof.
  unfold Str.encodes. rewrite !forallb_forall. intros H Hl y Hy.
  apply (lines_chars _ _ _ Hl), universal_newlines_chars in Hy.
  destruct Hy as [Hy | ->]; [apply H, Hy | reflexivity].
Qed.

(** The text attributes of the record that [from_line] returns. *)
Lemma from_line_fields (now : datetime) (linha : str) (x : Task) :
  Task.from_line now linha = Ok x ->
  exists f0 f1 f2 f3 f4 f5,
    fields linha = [f0; f1; f2; f3; f4; f5]
    /\ Task.nome x = f0 /\ Task.prioridade x = Py.lower f1
    /\ Task.categoria x = f2.
Proof.
  unfold Task.from_line, fields.
  destruct (Str.split 59 (Str.strip linha))
    as [|f0 [|f1 [|f2 [|f3 [|f4 [|f5 [|f6 r]]]]]]]; try discriminate.
  intros H. exists f0, f1, f2, f3, f4, f5. split; [reflexivity|].
  destruct (Task.fromisoformat f3); [|discriminate].
  destruct (negb (Str.eqb f5 py"None")).
  - destruct (Task.fromisoformat f5); [|discriminate].
    injection H as <-. auto.
  - injection H as <-. auto.
Qed.

(** The line of a record read from a text that can be encoded can be
    encoded. *)
Lemma from_line_line_ok (now : datetime) (linha : str) (x : Task) :
  Task.from_line now linha = Ok x -> Str.encodes linha = true ->
  line_ok x = true.
Proof.
  intros H He.
  destruct (from_line_fields now linha x H)
    as (f0 & f1 & f2 & f3 & f4 & f5 & Ef & En & Ep & Ek).
  assert (Hin : forall f, In f [f0; f1; f2] -> Str.encodes f = true).
  { intros f Hf. apply (encodes_incl f linha); [|exact He].
    intros c Hc. apply strip_incl.
    apply (split_chars 59 (Str.strip linha) f); [|exact Hc].
    unfold fields in Ef. rewrite Ef. cbn [In] in *. tauto. }
  rewrite line_ok_spec, En, Ep, Ek.
  rewrite (Hin f0), (Py.lower_encodes _ (Hin f1 ltac:(cbn [In]; auto))),
    (Hin f2) by (cbn [In]; auto).
  reflexivity.
Qed.

Lemma loaded_writable (now : datetime) (text : str) (ts : list Task) :
  TaskManager.from_lines now (File.readlines text) = Ok ts ->
  Str.encodes text = true -> writable ts = true.
Proof.
  intros H He. apply from_lines_ok in H.
  pose proof (readlines_encodes text) as Hl. specialize (fun l => Hl l He).
  induction H as [|l x ls xs Hx _ IH]; [reflexivity|].
  cbn [writable forallb].
  rewrite (from_line_line_ok now l x Hx) by (apply Hl; left; reflexivity).
  apply IH. intros l' Hl'. apply Hl; right; exact Hl'.
Qed.

Lemma from_line_clock (now1 now2 : datetime) (linha : str) :
  Task.from_line now1 linha = Task.from_line now2 linha.
Proof.
  unfold Task.from_line.
  destruct (Str.split 59 (Str.strip linha))
    as [|f0 [|f1 [|f2 [|f3 [|f4 [|f5 [|f6 r]]]]]]]; reflexivity.
Qed.

Lemma init_clock (now1 now2 : datetime) (arquivo : str) (d : disk) :
  TaskManager.init now1 arquivo d = TaskManager.init now2 arquivo d.
Proof.
  unfold TaskManager.init, TaskManager.carregar_tarefas.
  destruct (d arquivo) as [text|]; [|reflexivity].
  assert (E : TaskManager.from_lines now1 (File.readlines text)
              = TaskManager.from_lines now2 (File.readlines text)).
  { induction (File.readlines text) as [|l ls IH];
      cbn [TaskManager.from_lines]; [reflexivity|].
    rewrite (from_line_clock now1 now2), IH. reflexivity. }
  rewrite E. reflexivity.
Qed.

(** What a manager that was made from the disk holds. *)
Lemma init_loaded (now : datetime) (arquivo : str) (d : disk)
      (m : TaskManager) :
  TaskManager.init now arquivo d = Ok m ->
  exists ts,
    m = TaskManager.mk arquivo ts /\ Forall stable ts
    /\ (decoded d arquivo -> writable ts = true).
Proof.
  intros H. unfold TaskManager.init, TaskManager.carregar_tarefas in H.
  destruct (d arquivo) as [text|] eqn:Hd.
  - destruct (TaskManager.from_lines now (File.readlines text)) as [ts|e]
      eqn:E; [|discriminate].
    injection H as <-. exists ts. split; [reflexivity|].
    split; [apply (loaded_stable now text ts E)|].
    intros Hdec. apply (loaded_writable now text ts E), Hdec, Hd.
  - injection H as <-. exists []. split; [reflexivity|].
    split; [constructor | reflexivity].
Qed.

(** A manager made on the file that [salvar_tarefas] wrote in full for
    tasks that are written and read back as they are has these tasks. *)
Lemma init_saved (now : datetime) (w : world) (ts : list Task) :
  Forall stable ts -> writable ts = true ->
  TaskManager.init now (path_of (saved w ts)) (TaskManager.files (saved w ts))
  = Ok (TaskManager.self (saved w ts)).
Proof.
  intros Hs Hw. unfold TaskManager.init, saved, path_of.
  cbn [TaskManager.self TaskManager.arquivo TaskManager.files].
  rewrite (carregar_text now _ ts); [reflexivity | | exact Hs].
  unfold File.write. rewrite eqb_refl, (written_writable _ Hw). reflexivity.
Qed.

(** X15.  A manager made from a file saves, when the save returns, a
    file from which the same manager is made again: what was loaded is
    not changed by writing it and reading it back.  The save returns
    when the text of the file was decoded from the bytes of a file, and
    when there was no file. *)
Theorem X15_load_save_load (now now' : datetime) (arquivo : str) (d : disk)
        (m : TaskManager) :
  TaskManager.init now arquivo d = Ok m ->
  (forall w',
     TaskManager.salvar_tarefas (TaskManager.mk_world m d) = (Ok tt, w') ->
     TaskManager.self w' = m
     /\ TaskManager.init now' arquivo (TaskManager.files w') = Ok m)
  /\ (decoded d arquivo ->
      exists w',
        TaskManager.salvar_tarefas (TaskManager.mk_world m d) = (Ok tt, w')
        /\ TaskManager.self w' = m
        /\ TaskManager.init now' arquivo (TaskManager.files w') = Ok m).
Proof.
  intros H. destruct (init_loaded now arquivo d m H) as (ts & -> & Hs & Hw).
  pose proof (salvar_set (TaskManager.mk_world (TaskManager.mk arquivo ts) d)
                         ts) as Hrun.
  cbn [TaskManager.self TaskManager.arquivo TaskManager.files] in Hrun.
  assert (Hload : writable ts = true ->
            TaskManager.init now' arquivo
              (TaskManager.files
                 (saved (TaskManager.mk_world (TaskManager.mk arquivo ts) d)
                        ts))
            = Ok (TaskManager.mk arquivo ts)).
  { intros Hok.
    apply (init_saved now'
             (TaskManager.mk_world (TaskManager.mk arquivo ts) d) ts Hs Hok). }
  split.
  - intros w' E. rewrite Hrun in E. injection E as Hok <-.
    apply outcome_ok in Hok. split; [reflexivity | apply Hload, Hok].
  - intros Hdec. specialize (Hw Hdec). eexists. split; [|split].
    + rewrite Hrun. unfold outcome. rewrite Hw. reflexivity.
    + reflexivity.
    + apply Hload, Hw.
Qed.

(** C9.  When the first task of the name is [x], after the tasks [pre],
    [encontrar_tarefa] returns the reference to [x], and
    [concluir_tarefa] makes [x] a completed task with the clock reading
    as its completion date, every other attribute of [x] as it was, and
    leaves every other task as it was, the later tasks [post] of the
    same name too.  The call returns when every line of the store can be
    encoded, as it can in a store that was loaded from a file; it raises
    [UnicodeEncodeError], after the change, when one cannot. *)
Theorem C9_first_match (now : datetime) (nome : str) (w : world)
        (pre post : list Task) (x : Task) :
  tasks_of w = pre ++ x :: post ->
  ~ In nome (names pre) -> Task.nome x = nome ->
  TaskManager.encontrar_tarefa nome w = (Ok (List.length pre), w)
  /\ nth_error (tasks_of w) (List.length pre) = Some x
  /\ tasks_of (snd (TaskManager.concluir_tarefa now nome w))
     = pre ++ Task.mk (Task.nome x) (Task.prioridade x) (Task.categoria x)
                      (Task.data_criacao x) true (Some now) :: post
  /\ fst (TaskManager.concluir_tarefa now nome w)
     = (if writable (tasks_of w) then Ok tt else Raise UnicodeEncodeError)
  /\ forall now0 d,
       decoded d (path_of w) ->
       TaskManager.init now0 (path_of w) d = Ok (TaskManager.self w) ->
       TaskManager.concluir_tarefa now nome w
       = (Ok tt,
          saved w (pre ++ Task.mk (Task.nome x) (Task.prioridade x)
                                  (Task.categoria x) (Task.data_criacao x)
                                  true (Some now) :: post)).
Proof.
  intros Ht Hp Hx. apply tem_nome_not_In in Hp.
  pose proof (concluir_here now nome w pre post x Ht Hp Hx) as Hrun.
  assert (Hend : outcome (pre ++ completed now x :: post)
                 = if writable (tasks_of w) then Ok tt
                   else Raise UnicodeEncodeError).
  { unfold outcome. rewrite writable_completed, Ht. reflexivity. }
  split; [|split; [|split; [|split]]].
  - unfold TaskManager.encontrar_tarefa, TaskManager.bind,
      TaskManager.get_tasks.
    unfold tasks_of in Ht. rewrite Ht, (primeiro_here _ _ _ _ Hp Hx).
    reflexivity.
  - rewrite Ht, nth_error_app2, Nat.sub_diag by apply le_n. reflexivity.
  - rewrite Hrun. apply tasks_saved.
  - rewrite Hrun. exact Hend.
  - intros now0 d Hdec Hinit.
    destruct (init_loaded now0 _ d _ Hinit) as (ts & E & _ & Hw).
    assert (Hts : writable (tasks_of w) = true).
    { unfold tasks_of. rewrite E. apply Hw, Hdec. }
    rewrite Hrun, Hend, Hts. reflexivity.
Qed.

Lemma clean_spec (s : str) :
  clean s = true ->
  Str.contains 59 s = false /\ Str.contains 10 s = false
  /\ Str.contains 13 s = false /\ Str.encodes s = true.
Proof. unfold clean. rewrite !andb_true_iff, !negb_true_iff. tauto. Qed.

Lemma prioridades_clean (p : str) :
  In p TaskManager.prioridades -> clean p = true.
Proof. intros [<- | [<- | [<- | []]]]; reflexivity. Qed.

Lemma stable_init (now : datetime) (n p k : str) :
  Py.datetime_ok now -> clean n = true ->
  starts_with_space n = false -> clean k = true ->
  In (Py.lower p) TaskManager.prioridades ->
  stable (Task.init now n p k) /\ line_ok (Task.init now n p k) = true.
Proof.
  intros Hnow Hn Hs Hk Hp.
  apply clean_spec in Hn as (Hn1 & Hn2 & Hn3 & Hn4).
  apply clean_spec in Hk as (Hk1 & Hk2 & Hk3 & Hk4).
  destruct (clean_spec _ (prioridades_clean _ Hp)) as (Hp1 & Hp2 & Hp3 & Hp4).
  split; [split; [|split]|].
  - unfold serializable, free_of, Task.init.
    cbn [Task.nome Task.prioridade Task.categoria].
    rewrite Hn1, Hn2, Hn3, Hk1, Hk2, Hk3, Hp1, Hp2, Hp3. reflexivity.
  - split; [exact Hnow | discriminate].
  - unfold reread, Task.init.
    cbn [Task.nome Task.prioridade Task.categoria Task.data_criacao
         Task.concluida Task.data_conclusao].
    rewrite Py.lower_idem, (lstrip_id _ Hs). reflexivity.
  - rewrite line_ok_spec. unfold Task.init.
    cbn [Task.nome Task.prioridade Task.categoria].
    rewrite Hn4, Hk4, Hp4. reflexivity.
Qed.

Lemma stable_concluir (now : datetime) (x : Task) :
  Py.datetime_ok now -> stable x -> stable (Task.concluir now x).
Proof.
  intros Hnow (Hs & [Hc _] & Hr). split; [exact Hs|]. split.
  - split; [exact Hc|]. intros d H; injection H as <-; exact Hnow.
  - destruct x as [n p c dc b dd]. unfold reread in *.
    cbn [Task.concluir Task.set_concluida Task.set_data_conclusao
         Task.nome Task.prioridade Task.categoria Task.data_criacao
         Task.concluida Task.data_conclusao] in *.
    injection Hr as Hn Hp. rewrite Hn, Hp. reflexivity.
Qed.

Lemma round_stable (c : call) (w : world) :
  call_ok c ->
  Forall stable (tasks_of w) /\ writable (tasks_of w) = true ->
  Forall stable (tasks_of (round c w))
  /\ writable (tasks_of (round c w)) = true.
Proof.
  intros Hc [Hs Hw]. destruct c as [now n p k | f | now n | n]; cbn [round].
  - destruct Hc as (Hnow & Hn & Hsp & Hk).
    destruct (adicionar_cases now n p k w)
      as [(_ & E) | [(_ & _ & E) | (Hp & _ & E)]]; rewrite E; cbn [snd];
      try (split; assumption).
    rewrite tasks_saved.
    destruct (stable_init now n p k Hnow Hn Hsp Hk Hp) as [H1 H2]. split.
    + apply Forall_app; split; [exact Hs|]. constructor; [exact H1|constructor].
    + rewrite writable_app, Hw. cbn [writable forallb]. rewrite H2.
      reflexivity.
  - split; assumption.
  - destruct (TaskManager.tem_nome n (tasks_of w)) eqn:E.
    + destruct (primeiro_split _ _ E) as (pre & x & post & Ht & Hp & Hx).
      rewrite (concluir_here now n w pre post x Ht Hp Hx); cbn [snd].
      rewrite tasks_saved. split.
      * rewrite Ht in Hs.
        apply Forall_app in Hs as [H1 H2]. inversion H2; subst.
        apply Forall_app; split; [exact H1|].
        constructor; [apply (stable_concluir now x); assumption | assumption].
      * rewrite writable_completed, <- Ht. exact Hw.
    + rewrite (concluir_none now n w E). split; assumption.
  - rewrite remover_run; cbn [snd]. rewrite tasks_saved. split.
    + rewrite Forall_forall in *. intros x Hx.
      apply filter_In in Hx as [Hx _]. apply Hs, Hx.
    + apply writable_filter, Hw.
Qed.

Lemma round_restarts (c : call) (w : world) :
  call_ok c ->
  Forall stable (tasks_of w) /\ writable (tasks_of w) = true ->
  restarts w -> restarts (round c w).
Proof.
  intros Hc Hsw Hr. destruct (round_stable c w Hc Hsw) as [Hs' Hw'].
  destruct (round_world c w) as [E | (ts & E)]; rewrite E in *;
    [exact Hr|].
  rewrite tasks_saved in Hs', Hw'. intros now. apply init_saved; assumption.
Qed.

Lemma rounds_restarts (cs : list call) (w : world) :
  Forall call_ok cs ->
  Forall stable (tasks_of w) /\ writable (tasks_of w) = true ->
  restarts w -> restarts (rounds cs w).
Proof.
  intros Hcs. revert w. unfold rounds.
  induction Hcs as [|c cs Hc _ IH]; intros w Hsw Hr; cbn [fold_left];
    [exact Hr|].
  apply IH; [apply round_stable | apply round_restarts]; assumption.
Qed.

(** X16.  What the manager holds is what a new manager loads.  After any
    rounds whose new names and categories hold no separator and no end
    of line and can be encoded, whose new names do not begin with
    whitespace and whose clock readings are dates, a manager made on the
    same path has exactly the tasks of the running one, attribute by
    attribute.  This holds from a store whose tasks are written and read
    back as they are, whose lines can be encoded, and whose file holds
    these lines (or with no file and no task); and so it holds for a
    manager that was made from a file of decoded text, or from no
    file. *)
Theorem X16_restart (cs : list call) (w : world) :
  Forall call_ok cs ->
  (Forall stable (tasks_of w) -> writable (tasks_of w) = true ->
   persisted w -> restarts (rounds cs w))
  /\ forall now arquivo d m,
       w = TaskManager.mk_world m d ->
       decoded d arquivo -> TaskManager.init now arquivo d = Ok m ->
       restarts (rounds cs w).
Proof.
  intros Hcs. split.
  - intros Hs Hw Hp. apply rounds_restarts; [exact Hcs | auto |].
    intros now. destruct w as [[arq ts] d].
    cbv [persisted in_sync tasks_of path_of TaskManager.self
         TaskManager.arquivo TaskManager.tasks TaskManager.files] in *.
    unfold TaskManager.init.
    destruct Hp as [Hp | [Hp ->]].
    + rewrite (carregar_text now arq ts d Hp Hs). reflexivity.
    + unfold TaskManager.carregar_tarefas. rewrite Hp. reflexivity.
  - intros now arquivo d m -> Hdec Hinit.
    destruct (init_loaded now arquivo d m Hinit) as (ts & E & Hs & Hw).
    apply rounds_restarts; [exact Hcs | |].
    + unfold tasks_of. cbn [TaskManager.self]. rewrite E.
      cbn [TaskManager.tasks]. auto.
    + intros now'. unfold path_of. cbn [TaskManager.self TaskManager.files].
      rewrite E in *. cbn [TaskManager.arquivo].
      rewrite (init_clock now' now). exact Hinit.
Qed.

End Loading.

Lemma X14_witness :
  TaskManager.init dia2 (py"tarefas.txt")
    (File.write (py"tarefas.txt")
       (py"X;alta;c;2024-01-05T09:30:00;False;None" ++ [10]
        ++ py"Y;alta;c;ontem;False;None" ++ [10] ++ py"Z" ++ [10])
       no_disk)
  = Raise (ValueError_isoformat (py"ontem")).
Proof.
  apply (proj2 (X14_load_all_or_nothing dia2 (py"tarefas.txt")
                  (py"X;alta;c;2024-01-05T09:30:00;False;None" ++ [10]
                   ++ py"Y;alta;c;ontem;False;None" ++ [10]
                   ++ py"Z" ++ [10])
                  (File.write (py"tarefas.txt")
                     (py"X;alta;c;2024-01-05T09:30:00;False;None" ++ [10]
                      ++ py"Y;alta;c;ontem;False;None" ++ [10]
                      ++ py"Z" ++ [10])
                     no_disk)
                  eq_refl)
           [py"X;alta;c;2024-01-05T09:30:00;False;None" ++ [10]]
           (py"Y;alta;c;ontem;False;None" ++ [10])
           [py"Z" ++ [10]]).
  - reflexivity.
  - constructor; [|constructor]. eexists. reflexivity.
  - reflexivity.
Defined.

Lemma X15_witness :
  exists w',
    TaskManager.salvar_tarefas
      (TaskManager.mk_world
         (TaskManager.mk (py"tarefas.txt") [x_alta; x_baixa]) disco_repetido)
    = (Ok tt, w')
    /\ TaskManager.self w'
       = TaskManager.mk (py"tarefas.txt") [x_alta; x_baixa]
    /\ TaskManager.init dia1 (py"tarefas.txt") (TaskManager.files w')
       = Ok (TaskManager.mk (py"tarefas.txt") [x_alta; x_baixa]).
Proof.
  refine (proj2 (X15_load_save_load dia2 dia1 (py"tarefas.txt")
                   disco_repetido _ _) _).
  - reflexivity.
  - intros text H. vm_compute in H. injection H as <-. reflexivity.
Defined.

Lemma C9_witness :
  tasks_of (snd (TaskManager.concluir_tarefa dia2 (py"X") repetido))
  = [Task.mk (py"X") (py"alta") (py"c") dia1 true (Some dia2); x_baixa]
  /\ fst (TaskManager.concluir_tarefa dia2 (py"X") repetido)
     = (if writable (tasks_of repetido) then Ok tt
        else Raise UnicodeEncodeError).
Proof.
  destruct (C9_first_match dia2 (py"X") repetido [] [x_baixa] x_alta)
    as (_ & _ & H1 & H2 & _);
    [reflexivity | intros [] | reflexivity | split; [exact H1 | exact H2]].
Defined.

Lemma X16_witness :
  restarts
    (rounds [Adicionar dia1 (py"X") (py"Alta") (py"c d");
             Concluir dia2 (py"X");
             Adicionar dia2 (py"Y") (py"baixa") (py"")] fresh).
Proof.
  apply (proj1 (X16_restart
                  [Adicionar dia1 (py"X") (py"Alta") (py"c d");
                   Concluir dia2 (py"X");
                   Adicionar dia2 (py"Y") (py"baixa") (py"")] fresh
                  ltac:(repeat constructor))).
  - constructor.
  - reflexivity.
  - right; split; reflexivity.
Defined.

(** * More on the methods of the manager *)

Section Methods.

Context {L : Py.Library} {HL : Py.Laws L}.

Lemma primeiro_some (nome : str) (ts : list Task) (i : nat) :
  TaskManager.primeiro nome ts = Some i ->
  exists pre x post,
    ts = pre ++ x :: post /\ List.length pre = i
    /\ TaskManager.tem_nome nome pre = false /\ Task.nome x = nome.
Proof.
  revert i; induction ts as [|y ts IH]; intros i;
    cbn [TaskManager.primeiro]; [discriminate|].
  destruct (Str.eqb (Task.nome y) nome) eqn:E.
  - intros H; injection H as <-. exists [], y, ts.
    apply eqb_eq in E. auto.
  - destruct (TaskManager.primeiro nome ts) as [j|]; [|discriminate].
    intros H; injection H as <-.
    destruct (IH j eq_refl) as (pre & x & post & -> & Hl & Hp & Hx).
    exists (y :: pre), x, post. repeat split; auto.
    + cbn [List.length]. rewrite Hl; reflexivity.
    + cbn [TaskManager.tem_nome existsb]. rewrite E. exact Hp.
Qed.

(** X17.  [encontrar_tarefa] never changes the world.  What it returns
    refers to a task of the name that no task of the name comes before;
    it raises, with the not-found error, exactly when no task has the
    name. *)
Theorem X17_encontrar (nome : str) (w : world) :
  (forall i w',
     TaskManager.encontrar_tarefa nome w = (Ok i, w') ->
     w' = w
     /\ exists pre x post,
          tasks_of w = pre ++ x :: post /\ List.length pre = i
          /\ ~ In nome (names pre) /\ Task.nome x = nome)
  /\ (forall e w',
        TaskManager.encontrar_tarefa nome w = (Raise e, w') ->
        w' = w /\ e = ValueError_nao_encontrada
        /\ ~ In nome (names (tasks_of w)))
  /\ (In nome (names (tasks_of w)) ->
      exists i, TaskManager.encontrar_tarefa nome w = (Ok i, w)).
Proof.
  unfold TaskManager.encontrar_tarefa, TaskManager.bind,
    TaskManager.get_tasks. fold (tasks_of w).
  destruct (TaskManager.primeiro nome (tasks_of w)) as [j|] eqn:E.
  - split; [|split].
    + intros i w' H. injection H as <- <-. split; [reflexivity|].
      destruct (primeiro_some _ _ _ E) as (pre & x & post & Ht & Hl & Hp & Hx).
      exists pre, x, post. repeat split; auto.
      apply tem_nome_not_In, Hp.
    + intros e w' H; discriminate H.
    + intros _; exists j; reflexivity.
  - assert (Hn : ~ In nome (names (tasks_of w))).
    { intros H. apply tem_nome_In, primeiro_split in H.
      destruct H as (pre & x & post & Ht & Hp & Hx).
      rewrite Ht, (primeiro_here _ _ _ _ Hp Hx) in E. discriminate E. }
    split; [|split].
    + intros i w' H; discriminate H.
    + intros e w' H. injection H as <- <-. auto.
    + intros H; contradiction.
Qed.

(** X18.  [adicionar_tarefa] returns exactly when the priority, in any
    letter case, is one of the three, no task has the name, and every
    line of the new store can be encoded.  The store is then the old one
    followed by a pending task with the name and the category as given,
    the priority in lower case and the clock reading as its creation
    date, and the file holds the lines of the store.  When a line cannot
    be encoded, the task is added all the same, the file holds the lines
    before that one, and the call raises [UnicodeEncodeError]. *)
Theorem X18_adicionar_returns (now : datetime)
        (nome prioridade categoria : str) (w w' : world) :
  let novo := Task.mk nome (Py.lower prioridade) categoria now false None in
  (TaskManager.adicionar_tarefa now nome prioridade categoria w = (Ok tt, w')
   <-> In (Py.lower prioridade) TaskManager.prioridades
       /\ ~ In nome (names (tasks_of w))
       /\ writable (tasks_of w ++ [novo]) = true
       /\ w' = saved w (tasks_of w ++ [novo]))
  /\ (TaskManager.adicionar_tarefa now nome prioridade categoria w
      = (Ok tt, w') -> in_sync w')
  /\ (TaskManager.adicionar_tarefa now nome prioridade categoria w
      = (Raise UnicodeEncodeError, w')
      <-> In (Py.lower prioridade) TaskManager.prioridades
          /\ ~ In nome (names (tasks_of w))
          /\ writable (tasks_of w ++ [novo]) = false
          /\ w' = saved w (tasks_of w ++ [novo])).
Proof.
  cbv zeta.
  change (Task.mk nome (Py.lower prioridade) categoria now false None)
    with (Task.init now nome prioridade categoria).
  set (ts := tasks_of w ++ [Task.init now nome prioridade categoria]).
  destruct (adicionar_cases now nome prioridade categoria w)
    as [(Hp & E) | [(Hp & Hn & E) | (Hp & Hn & E)]]; rewrite E;
    fold ts; (split; [split | split; [|split]]);
    try discriminate;
    try (intros (H1 & H2 & _); contradiction).
  - intros H; injection H as Hok <-. apply outcome_ok in Hok. auto.
  - intros (_ & _ & Hw & ->). unfold outcome. rewrite Hw. reflexivity.
  - intros H; injection H as Hok <-. apply outcome_ok in Hok.
    apply in_step_sync; [apply in_step_saved | rewrite tasks_saved; exact Hok].
  - intros H; injection H as Hr <-. apply outcome_raise in Hr as [_ Hr].
    auto.
  - intros (_ & _ & Hw & ->). unfold outcome. rewrite Hw. reflexivity.
Qed.

(** X19.  A method that raises one of the errors of the program has
    changed nothing, neither the tasks nor any file: [adicionar_tarefa]
    raises the priority error and the duplicate error, [concluir_tarefa]
    the not-found error, and [listar_tarefas] never raises.  The one
    other error is the [UnicodeEncodeError] of the write, which
    [adicionar_tarefa], [concluir_tarefa] and [remover_tarefa] raise
    after they have changed the list, when a line of the new store
    cannot be encoded; the file then holds the lines before that one. *)
Theorem X19_errors (w w' : world) (e : exn) :
  (forall now nome prioridade categoria,
     TaskManager.adicionar_tarefa now nome prioridade categoria w
     = (Raise e, w') ->
     (w' = w /\ (e = ValueError_prioridade \/ e = ValueError_existe))
     \/ (e = UnicodeEncodeError
         /\ tasks_of w'
            = tasks_of w ++ [Task.init now nome prioridade categoria]
         /\ writable (tasks_of w') = false /\ in_step w'))
  /\ (forall now nome,
        TaskManager.concluir_tarefa now nome w = (Raise e, w') ->
        (w' = w /\ e = ValueError_nao_encontrada)
        \/ (e = UnicodeEncodeError
            /\ (exists pre x post,
                  tasks_of w = pre ++ x :: post
                  /\ tasks_of w' = pre ++ Task.concluir now x :: post)
            /\ writable (tasks_of w') = false /\ in_step w'))
  /\ (forall f, fst (TaskManager.listar_tarefas f w) <> Raise e)
  /\ (forall nome,
        TaskManager.remover_tarefa nome w = (Raise e, w') ->
        e = UnicodeEncodeError
        /\ tasks_of w'
           = filter (fun x => negb (Str.eqb (Task.nome x) nome)) (tasks_of w)
        /\ writable (tasks_of w') = false /\ in_step w').
Proof.
  split; [|split; [|split]].
  - intros now n p k.
    destruct (adicionar_cases now n p k w)
      as [(_ & E) | [(_ & _ & E) | (_ & _ & E)]]; rewrite E;
      intros H; injection H as H <-; try (subst e; auto).
    apply outcome_raise in H as [-> H]. right.
    rewrite tasks_saved. split; [reflexivity|]. split; [reflexivity|].
    split; [exact H | apply in_step_saved].
  - intros now n. destruct (TaskManager.tem_nome n (tasks_of w)) eqn:E.
    + destruct (primeiro_split _ _ E) as (pre & x & post & Ht & Hp & Hx).
      rewrite (concluir_here now n w pre post x Ht Hp Hx).
      intros H; injection H as H <-. apply outcome_raise in H as [-> H].
      right. rewrite tasks_saved. split; [reflexivity|].
      split; [exists pre, x, post; split; [exact Ht | reflexivity]|].
      split; [exact H | apply in_step_saved].
    + rewrite (concluir_none now n w E).
      intros H; injection H as <- <-; auto.
  - intros f. rewrite listar_run. discriminate.
  - intros n. rewrite remover_run. intros H; injection H as H <-.
    apply outcome_raise in H as [-> H]. rewrite tasks_saved.
    split; [reflexivity|]. split; [reflexivity|].
    split; [exact H | apply in_step_saved].
Qed.

Lemma writable_prefix_all (ts : list Task) :
  writable ts = true -> writable_prefix ts = ts.
Proof.
  induction ts as [|x ts IH]; [reflexivity|].
  cbn [writable forallb writable_prefix]. intros H.
  apply andb_true_iff in H as [Hx Hts]. rewrite Hx, (IH Hts). reflexivity.
Qed.

Lemma writable_prefix_split (ts : list Task) :
  writable ts = false ->
  exists pre x post,
    ts = pre ++ x :: post /\ writable pre = true /\ line_ok x = false
    /\ writable_prefix ts = pre.
Proof.
  induction ts as [|y ts IH]; [discriminate|].
  cbn [writable forallb writable_prefix].
  destruct (line_ok y) eqn:Hy; cbn [andb].
  - intros H. destruct (IH H) as (pre & x & post & -> & Hp & Hx & E).
    exists (y :: pre), x, post. cbn [writable forallb].
    rewrite Hy, E. auto.
  - intros _. exists [], y, ts. auto.
Qed.

(** X25.  [salvar_tarefas] changes nothing of the manager and touches no
    file but the backing file, which it writes from its first line: one
    line per task, in the order of the store.  When every line can be
    encoded it returns, and the file holds all of them; otherwise it
    raises [UnicodeEncodeError] at the first task whose line cannot be
    encoded, and the file holds the lines of the tasks before that
    one. *)
Theorem X25_salvar (w : world) :
  let r := TaskManager.salvar_tarefas w in
  TaskManager.self (snd r) = TaskManager.self w
  /\ (forall p, p <> path_of w ->
                TaskManager.files (snd r) p = TaskManager.files w p)
  /\ ((forallb (fun x => Str.encodes (Task.to_line x ++ [10])) (tasks_of w)
       = true
       /\ fst r = Ok tt
       /\ TaskManager.files (snd r) (path_of w)
          = Some (flat_map (fun x => Task.to_line x ++ [10]) (tasks_of w)))
      \/ (exists pre x post,
            tasks_of w = pre ++ x :: post
            /\ forallb (fun x => Str.encodes (Task.to_line x ++ [10])) pre
               = true
            /\ Str.encodes (Task.to_line x ++ [10]) = false
            /\ fst r = Raise UnicodeEncodeError
            /\ TaskManager.files (snd r) (path_of w)
               = Some (flat_map (fun x => Task.to_line x ++ [10]) pre))).
Proof.
  cbv zeta. destruct w as [[arq ts] d].
  pose proof (salvar_set (TaskManager.mk_world (TaskManager.mk arq ts) d) ts)
    as Hrun.
  cbn [TaskManager.self TaskManager.arquivo TaskManager.files] in Hrun.
  rewrite Hrun. unfold saved, path_of, tasks_of, File.write.
  cbn [fst snd TaskManager.self TaskManager.arquivo TaskManager.files
       TaskManager.tasks].
  split; [reflexivity|]. split.
  - intros p Hp. apply eqb_neq in Hp. rewrite Hp. reflexivity.
  - rewrite eqb_refl. unfold outcome, written.
    destruct (writable ts) eqn:Hw.
    + left. rewrite (writable_prefix_all _ Hw). auto.
    + right. destruct (writable_prefix_split _ Hw)
        as (pre & x & post & E & Hp & Hx & Epre).
      exists pre, x, post. rewrite Epre. auto.
Qed.

End Methods.

Lemma X17_witness :
  exists i, TaskManager.encontrar_tarefa (py"X") repetido = (Ok i, repetido).
Proof.
  apply (proj2 (proj2 (X17_encontrar (py"X") repetido))).
  left; reflexivity.
Defined.

Lemma X18_witness :
  TaskManager.adicionar_tarefa dia1 (py"X") (py"MÉDIA") (py"c") fresh
  = (Ok tt,
     saved fresh [Task.mk (py"X") (py"média") (py"c") dia1 false None]).
Proof.
  apply (proj2 (proj1 (X18_adicionar_returns dia1 (py"X") (py"MÉDIA") (py"c")
                         fresh _))).
  split; [right; left; reflexivity|]. split; [intros []|].
  split; reflexivity.
Defined.

Lemma X19_witness :
  TaskManager.remover_tarefa (py"Y") com_surrogate
  = (Raise UnicodeEncodeError,
     snd (TaskManager.remover_tarefa (py"Y") com_surrogate))
  /\ UnicodeEncodeError = UnicodeEncodeError
  /\ tasks_of (snd (TaskManager.remover_tarefa (py"Y") com_surrogate))
     = filter (fun x => negb (Str.eqb (Task.nome x) (py"Y")))
              (tasks_of com_surrogate)
  /\ writable (tasks_of (snd (TaskManager.remover_tarefa (py"Y")
                                com_surrogate))) = false
  /\ in_step (snd (TaskManager.remover_tarefa (py"Y") com_surrogate)).
Proof.
  assert (E : TaskManager.remover_tarefa (py"Y") com_surrogate
              = (Raise UnicodeEncodeError,
                 snd (TaskManager.remover_tarefa (py"Y") com_surrogate)))
    by reflexivity.
  split; [exact E|].
  apply (proj2 (proj2 (proj2
           (X19_errors com_surrogate
              (snd (TaskManager.remover_tarefa (py"Y") com_surrogate))
              UnicodeEncodeError))) (py"Y") E).
Defined.

(** * The menu *)

Section MenuFacts.

Context {L : Py.Library} {HL : Py.Laws L}.

Variable capitalize : str -> str.
Variable str_exn : exn -> str.
Variable relogio : nat -> datetime.

Lemma rounds_app (a b : list call) (w : world) :
  rounds (a ++ b) w = rounds b (rounds a w).
Proof. unfold rounds. apply fold_left_app. Qed.

Lemma skipn_skipn_add {A : Type} (j k : nat) (l : list A) :
  skipn j (skipn k l) = skipn (k + j) l.
Proof.
  revert l; induction k as [|k IH]; intros l; [reflexivity|].
  destruct l as [|x l]; cbn [skipn Nat.add]; [destruct j; reflexivity|].
  apply IH.
Qed.

Lemma tame_ret {A} (a : A) : tame (io_ret a).
Proof. intros s; split; [exists [] | exists O]; reflexivity. Qed.

Lemma tame_print (text : str) : tame (io_print text).
Proof. intros s; split; [exists [] | exists O]; reflexivity. Qed.

Lemma tame_input (prompt : str) : tame (io_input prompt).
Proof.
  intros [w c]; unfold io_input; cbn [fst snd].
  destruct (stdin c) as [|l ls] eqn:E; cbn [fst snd stdin].
  - split; [exists [] | exists O]; reflexivity.
  - split; [exists [] | exists 1%nat]; reflexivity.
Qed.

Lemma tame_bind {A B} (m : IO A) (k : A -> IO B) :
  tame m -> (forall a, tame (k a)) -> tame (io_bind m k).
Proof.
  intros Hm Hk s. unfold io_bind.
  destruct (Hm s) as ((cs & Hw) & (j & Hc)).
  destruct (m s) as [[a | r] s'] eqn:E; cbn [fst snd] in *.
  - destruct (Hk a s') as ((cs' & Hw') & (j' & Hc')).
    split.
    + exists (cs ++ cs'). rewrite Hw', Hw, rounds_app. reflexivity.
    + exists (j + j')%nat. rewrite Hc', Hc. apply skipn_skipn_add.
  - split; [exists cs; exact Hw | exists j; exact Hc].
Qed.

Lemma tame_call {A} (m : TaskManager.M A) (c : call) :
  (forall w, snd (m w) = round c w) -> tame (io_call m).
Proof.
  intros H [w co]. unfold io_call; cbn [fst snd].
  specialize (H w). destruct (m w) as [[a | e] w']; cbn [fst snd] in *;
    (split; [exists [c]; rewrite H; reflexivity | exists O; reflexivity]).
Qed.

Lemma tame_except {A} (body : IO A) (handler : exn -> IO A) :
  tame body -> (forall e, tame (handler e)) ->
  tame (except_ValueError body handler).
Proof.
  intros Hb Hh s. unfold except_ValueError.
  destruct (Hb s) as ((cs & Hw) & (j & Hc)).
  destruct (body s) as [[a | [e |]] s'] eqn:E; cbn [fst snd] in *.
  - split; [exists cs; exact Hw | exists j; exact Hc].
  - destruct (Hh e s') as ((cs' & Hw') & (j' & Hc')).
    split.
    + exists (cs ++ cs'). rewrite Hw', Hw, rounds_app. reflexivity.
    + exists (j + j')%nat. rewrite Hc', Hc. apply skipn_skipn_add.
  - split; [exists cs; exact Hw | exists j; exact Hc].
Qed.

Lemma catches_ret {A} (a : A) : catches (io_ret a).
Proof. intros s e; discriminate. Qed.

Lemma catches_print (text : str) : catches (io_print text).
Proof. intros s e; discriminate. Qed.

Lemma catches_input (prompt : str) : catches (io_input prompt).
Proof.
  intros s e. unfold io_input. destruct (stdin (snd s)); discriminate.
Qed.

Lemma catches_bind {A B} (m : IO A) (k : A -> IO B) :
  catches m -> (forall a, catches (k a)) -> catches (io_bind m k).
Proof.
  intros Hm Hk s e. unfold io_bind. specialize (Hm s).
  destruct (m s) as [[a | r] s']; cbn [fst] in *; [apply Hk|].
  destruct r; [contradiction (Hm e0); reflexivity | discriminate].
Qed.

Lemma catches_except {A} (body : IO A) (handler : exn -> IO A) :
  (forall e, catches (handler e)) -> catches (except_ValueError body handler).
Proof.
  intros Hh s e. unfold except_ValueError.
  destruct (body s) as [[a | [e' |]] s']; cbn [fst];
    [discriminate | apply Hh | discriminate].
Qed.

Lemma goes_on_bind {A} (m : IO A) (k : A -> IO signal) :
  (forall a, goes_on (k a)) -> goes_on (io_bind m k).
Proof.
  intros Hk s. unfold io_bind.
  destruct (m s) as [[a | r] s']; [apply Hk | discriminate].
Qed.

Lemma goes_on_ret : goes_on (io_ret Continue).
Proof. intros s; discriminate. Qed.

Lemma tame_print_tarefas (ts : list Task) :
  tame (print_tarefas capitalize ts).
Proof.
  induction ts as [|x ts IH]; cbn [print_tarefas];
    [apply tame_ret | apply tame_bind; [apply tame_print | intros _; exact IH]].
Qed.

Lemma tame_escolha (now : datetime) (opcao : str) :
  tame (escolha capitalize now opcao).
Proof.
  unfold escolha.
  repeat match goal with
         | |- tame (if ?b then _ else _) => destruct b
         | |- tame (io_bind _ _) => apply tame_bind; [|intros ?]
         | |- tame (io_input _) => apply tame_input
         | |- tame (io_print _) => apply tame_print
         | |- tame (io_ret _) => apply tame_ret
         | |- tame (print_tarefas _ _) => apply tame_print_tarefas
         | |- tame (io_call (TaskManager.adicionar_tarefa ?n ?a ?b ?c)) =>
             apply (tame_call _ (Adicionar n a b c)); reflexivity
         | |- tame (io_call (TaskManager.listar_tarefas ?f)) =>
             apply (tame_call _ (Listar f)); reflexivity
         | |- tame (io_call (TaskManager.concluir_tarefa ?n ?a)) =>
             apply (tame_call _ (Concluir n a)); reflexivity
         | |- tame (io_call (TaskManager.remover_tarefa ?a)) =>
             apply (tame_call _ (Remover a)); reflexivity
         end.
Qed.

Lemma tame_tratar (now : datetime) (opcao : str) :
  tame (tratar capitalize str_exn now opcao).
Proof.
  unfold tratar. apply tame_bind.
  - apply tame_except; [apply tame_escolha|].
    intros e. apply tame_bind; [apply tame_print | intros _; apply tame_ret].
  - intros [|]; [|apply tame_ret].
    apply tame_bind; [apply tame_input | intros _; apply tame_ret].
Qed.

Lemma tame_cabecalho : tame cabecalho.
Proof.
  unfold cabecalho.
  repeat (apply tame_bind; [apply tame_print | intros _]). apply tame_print.
Qed.

Lemma tame_iteration (now : datetime) :
  tame (iteration capitalize str_exn now).
Proof.
  unfold iteration. apply tame_bind; [apply tame_cabecalho | intros _].
  apply tame_bind; [apply tame_input | intros opcao]. apply tame_tratar.
Qed.

Lemma catches_cabecalho : catches cabecalho.
Proof.
  unfold cabecalho.
  repeat (apply catches_bind; [apply catches_print | intros _]).
  apply catches_print.
Qed.

Lemma catches_iteration (now : datetime) :
  catches (iteration capitalize str_exn now).
Proof.
  unfold iteration.
  apply catches_bind; [apply catches_cabecalho | intros _].
  apply catches_bind; [apply catches_input | intros opcao].
  unfold tratar. apply catches_bind.
  - apply catches_except. intros e.
    apply catches_bind; [apply catches_print | intros _; apply catches_ret].
  - intros [|]; [|apply catches_ret].
    apply catches_bind; [apply catches_input | intros _; apply catches_ret].
Qed.

Lemma cabecalho_run (w : world) (c : console) :
  cabecalho (w, c)
  = (inl tt, (w, mk_console (stdin c) (stdout c ++ texto_cabecalho))).
Proof.
  unfold cabecalho, io_bind, io_print, texto_cabecalho.
  cbn [fst snd stdin stdout]. rewrite <- !app_assoc. reflexivity.
Qed.

(** A round up to the choice. *)
Lemma iteration_run (now : datetime) (w : world) (c : console) :
  iteration capitalize str_exn now (w, c)
  = match stdin c with
    | [] =>
        (inr EOF_error,
         (w, mk_console []
               (stdout c ++ texto_cabecalho ++ py"Escolha uma opção: ")))
    | opcao :: ls =>
        tratar capitalize str_exn now opcao
          (w, mk_console ls
                (stdout c ++ texto_cabecalho ++ py"Escolha uma opção: "))
    end.
Proof.
  unfold iteration. unfold io_bind at 1. rewrite cabecalho_run.
  unfold io_bind at 1, io_input. cbn [fst snd stdin stdout].
  rewrite <- app_assoc. destruct (stdin c); reflexivity.
Qed.

(** A round that does not raise has read a line. *)
Lemma iteration_reads (now : datetime) (s : world * console) (sg : signal) :
  fst (iteration capitalize str_exn now s) = inl sg ->
  (List.length (stdin (snd (snd (iteration capitalize str_exn now s))))
   < List.length (stdin (snd s)))%nat.
Proof.
  destruct s as [w c]. rewrite iteration_run. cbn [snd].
  destruct (stdin c) as [|opcao ls]; [discriminate|].
  intros _. cbn [List.length].
  match goal with
  | |- context [tratar _ _ _ _ ?s0] =>
      destruct (tame_tratar now opcao s0) as (_ & (k & Hk))
  end.
  rewrite Hk. cbn [snd stdin].
  pose proof (length_skipn k ls). lia.
Qed.

Lemma loop_ends (fuel i : nat) (w : world) (c : console) :
  (exists cs,
     fst (snd (loop capitalize str_exn relogio fuel i (w, c))) = rounds cs w)
  /\ ((List.length (stdin c) < fuel)%nat ->
      fst (loop capitalize str_exn relogio fuel i (w, c)) = Returned
      \/ fst (loop capitalize str_exn relogio fuel i (w, c)) = EOFError).
Proof.
  revert i w c; induction fuel as [|fuel IH]; intros i w c; cbn [loop].
  - split; [exists []; reflexivity | intros H; inversion H].
  - pose proof (tame_iteration (relogio i) (w, c)) as ((cs & Hw) & _).
    pose proof (iteration_reads (relogio i) (w, c)) as Hr.
    pose proof (catches_iteration (relogio i) (w, c)) as Hc.
    destruct (iteration capitalize str_exn (relogio i) (w, c))
      as [[[|] | [e |]] [w' c']]; cbn [fst snd] in *.
    + destruct (IH (S i) w' c') as ((cs' & Hw') & He). split.
      * exists (cs ++ cs'). rewrite Hw', Hw, rounds_app. reflexivity.
      * intros Hl. apply He. specialize (Hr Continue eq_refl). lia.
    + split; [exists cs; exact Hw | left; reflexivity].
    + contradiction (Hc e); reflexivity.
    + split; [exists cs; exact Hw | right; reflexivity].
Qed.


Lemma rounds_world_invariant (P : world -> Prop) :
  (forall c w, P w -> P (round c w)) ->
  forall cs w, P w -> P (rounds cs w).
Proof.
  intros Hstep cs. unfold rounds.
  induction cs as [|c cs IH]; intros w H; cbn [fold_left]; [exact H|].
  apply IH, Hstep, H.
Qed.

Lemma round_path (c : call) (w : world) : path_of (round c w) = path_of w.
Proof.
  destruct (round_world c w) as [E | (ts & E)]; rewrite E; reflexivity.
Qed.

Lemma round_in_step (c : call) (w : world) :
  in_step w -> in_step (round c w).
Proof.
  intros H. destruct (round_world c w) as [E | (ts & E)]; rewrite E;
    [exact H | apply in_step_saved].
Qed.

(** X21.  Whatever is typed, the loop of the menu keeps the names of the
    store distinct, keeps the completion dates in step with the
    completion states, keeps the file holding what [salvar_tarefas]
    writes for the store (the lines of the tasks, up to the first that
    cannot be encoded: all of them when all can be), and keeps the
    path. *)
Theorem X21_menu_invariants (fuel i : nat) (w : world) (c : console) :
  let w' := fst (snd (loop capitalize str_exn relogio fuel i (w, c))) in
  (NoDup (names (tasks_of w)) -> NoDup (names (tasks_of w')))
  /\ (Forall coherent (tasks_of w) -> Forall coherent (tasks_of w'))
  /\ (in_step w -> in_step w')
  /\ (in_step w -> writable (tasks_of w') = true -> in_sync w')
  /\ path_of w' = path_of w.
Proof.
  cbv zeta. destruct (loop_ends fuel i w c) as ((cs & ->) & _).
  split; [|split; [|split; [|split]]].
  - apply (rounds_invariant (fun ts => NoDup (names ts))), round_NoDup.
  - apply (rounds_invariant (Forall coherent)), round_coherent.
  - apply (rounds_world_invariant in_step), round_in_step.
  - intros H Hw. apply in_step_sync; [|exact Hw].
    apply (rounds_world_invariant in_step); [apply round_in_step | exact H].
  - apply (rounds_world_invariant (fun v => path_of v = path_of w));
      [|reflexivity].
    intros c0 w0 H. rewrite round_path. exact H.
Qed.

Lemma tratar_goes_on (now : datetime) (body : IO signal) :
  goes_on body ->
  goes_on
    (io_bind
       (except_ValueError body
          (fun e => io_bind (io_print (py"Erro: " ++ str_exn e))
                            (fun _ => io_ret Continue)))
       (fun s =>
          match s with
          | Break => io_ret Break
          | Continue =>
              io_bind (io_input py"Pressione Enter para continuar...")
                      (fun _ => io_ret Continue)
          end)).
Proof.
  intros Hb s. unfold io_bind at 1, except_ValueError.
  specialize (Hb s).
  destruct (body s) as [[[|] | [e |]] s']; cbn [fst] in *.
  - apply goes_on_bind; intros _; apply goes_on_ret.
  - contradiction Hb; reflexivity.
  - unfold io_bind, io_print. cbn [fst snd stdin].
    unfold io_input. cbn [fst snd stdin].
    destruct (stdin (snd s')); discriminate.
  - discriminate.
Qed.

Lemma tratar_break (now : datetime) (opcao : str) (s : world * console) :
  fst (tratar capitalize str_exn now opcao s) = inl Break ->
  opcao = py"5"
  /\ snd (tratar capitalize str_exn now opcao s)
     = (fst s,
        mk_console (stdin (snd s)) (stdout (snd s) ++ py"Saindo..." ++ [10])).
Proof.
  unfold tratar, escolha. intros H0.
  destruct (Str.eqb opcao py"1");
    [exfalso; revert H0; apply (tratar_goes_on now);
     repeat (apply goes_on_bind; intros ?); apply goes_on_ret|].
  destruct (Str.eqb opcao py"2");
    [exfalso; revert H0; apply (tratar_goes_on now);
     repeat (apply goes_on_bind; intros ?); apply goes_on_ret|].
  destruct (Str.eqb opcao py"3");
    [exfalso; revert H0; apply (tratar_goes_on now);
     repeat (apply goes_on_bind; intros ?); apply goes_on_ret|].
  destruct (Str.eqb opcao py"4");
    [exfalso; revert H0; apply (tratar_goes_on now);
     repeat (apply goes_on_bind; intros ?); apply goes_on_ret|].
  destruct (Str.eqb opcao py"5") eqn:E5;
    [|exfalso; revert H0; apply (tratar_goes_on now);
      repeat (apply goes_on_bind; intros ?); apply goes_on_ret].
  clear H0. apply eqb_eq in E5. split; [exact E5 | reflexivity].
Qed.

Lemma In_skipn_incl {A : Type} (k : nat) (l : list A) (x : A) :
  In x (skipn k l) -> In x l.
Proof.
  revert l; induction k as [|k IH]; intros [|y l]; cbn [skipn]; auto.
  intros H; right; apply IH, H.
Qed.

(** X22.  The loop returns only through the choice [5]: when the menu
    has returned, a line [5] was typed and the last thing written is
    [Saindo...]. *)
Theorem X22_menu_returns (fuel i : nat) (w : world) (c : console) :
  fst (loop capitalize str_exn relogio fuel i (w, c)) = Returned ->
  In (py"5") (stdin c)
  /\ exists before,
       stdout (snd (snd (loop capitalize str_exn relogio fuel i (w, c))))
       = before ++ py"Saindo..." ++ [10].
Proof.
  revert i w c; induction fuel as [|fuel IH]; intros i w c; cbn [loop];
    [discriminate|].
  pose proof (tame_iteration (relogio i) (w, c)) as (_ & (k & Hk)).
  pose proof (iteration_run (relogio i) w c) as Hrun.
  destruct (iteration capitalize str_exn (relogio i) (w, c))
    as [[[|] | [e |]] [w' c']] eqn:E; cbn [fst snd] in *;
    try discriminate.
  - intros H. destruct (IH (S i) w' c' H) as (Hin & before & Hb).
    split; [|exists before; exact Hb].
    rewrite Hk in Hin. apply In_skipn_incl in Hin. exact Hin.
  - intros _. destruct (stdin c) as [|opcao ls]; [discriminate Hrun|].
    symmetry in Hrun.
    destruct (tratar_break (relogio i) opcao _ (f_equal fst Hrun))
      as [-> Hs].
    rewrite Hrun in Hs. cbn [fst snd stdin stdout] in Hs.
    injection Hs as _ Hc'. split; [left; reflexivity|].
    eexists. rewrite Hc'. cbn [stdout]. reflexivity.
Qed.

Lemma print_tarefas_run (ts : list Task) (w : world) (c : console) :
  print_tarefas capitalize ts (w, c)
  = (inl tt,
     (w, mk_console (stdin c)
           (stdout c
            ++ flat_map (fun x => linha_tarefa capitalize x ++ [10]) ts))).
Proof.
  revert c; induction ts as [|x ts IH]; intros c; cbn [print_tarefas flat_map].
  - unfold io_ret. rewrite app_nil_r. destruct c; reflexivity.
  - unfold io_bind, io_print. cbn [fst snd]. rewrite IH.
    cbn [stdin stdout]. rewrite <- !app_assoc. reflexivity.
Qed.

Ltac run_io :=
  cbv [io_bind io_input io_call io_print io_ret except_ValueError];
  cbn [fst snd stdin stdout].

(** X23.  The choice [2] changes nothing in the world.  It lists the
    pending tasks when the answer, in any letter case, is [pendente],
    the completed ones when it is [concluída], and all the tasks for any
    other answer; it writes one line for each task, in the order of the
    store. *)
Theorem X23_menu_lists (now : datetime) (w : world) (c : console)
        (status enter : str) (rest : list str) :
  stdin c = py"2" :: status :: enter :: rest ->
  exists l,
    TaskManager.listar_tarefas
      (if Str.eqb (Py.lower status) py"pendente" then Some false
       else if Str.eqb (Py.lower status) py"concluída" then Some true
       else None) w
    = (Ok l, w)
    /\ iteration capitalize str_exn now (w, c)
       = (inl Continue,
          (w, mk_console rest
                (stdout c ++ texto_cabecalho ++ py"Escolha uma opção: "
                 ++ py"Filtrar por status? (pendente/concluída/todas): "
                 ++ flat_map (fun x => linha_tarefa capitalize x ++ [10]) l
                 ++ py"Pressione Enter para continuar..."))).
Proof.
  intros Hin. eexists. split; [apply listar_run|].
  rewrite iteration_run, Hin. unfold tratar, escolha.
  change (Str.eqb py"2" py"1") with false.
  change (Str.eqb py"2" py"2") with true. cbv iota.
  run_io.
  destruct (Str.eqb (Py.lower status) py"pendente");
    [|destruct (Str.eqb (Py.lower status) py"concluída")];
    cbn [fst snd]; rewrite listar_run;
    rewrite print_tarefas_run; cbn [fst snd stdin stdout];
    rewrite <- !app_assoc; reflexivity.
Qed.

(** X24.  The choices [1], [3] and [4] read their answers, call
    [adicionar_tarefa], [concluir_tarefa] and [remover_tarefa] with them
    as they were typed, and leave the world as the method left it; when
    the method returns the choice writes its message, and a [ValueError]
    of the method, the [UnicodeEncodeError] of the write among them, is
    written after [Erro: ] and the loop goes on.  Any choice other than
    [1] to [5] changes nothing. *)
Theorem X24_menu_dispatch (now : datetime) (w : world) (c : console)
        (enter : str) (rest : list str) :
  (forall n p k,
     stdin c = py"1" :: n :: p :: k :: enter :: rest ->
     iteration capitalize str_exn now (w, c)
     = (inl Continue,
        (round (Adicionar now n p k) w,
         mk_console rest
           (stdout c ++ texto_cabecalho ++ py"Escolha uma opção: "
            ++ py"Nome: " ++ py"Prioridade (baixa/média/alta): "
            ++ py"Categoria: "
            ++ match fst (TaskManager.adicionar_tarefa now n p k w) with
               | Ok _ => py"Tarefa adicionada!"
               | Raise e => py"Erro: " ++ str_exn e
               end
            ++ [10] ++ py"Pressione Enter para continuar..."))))
  /\ (forall n,
        stdin c = py"3" :: n :: enter :: rest ->
        iteration capitalize str_exn now (w, c)
        = (inl Continue,
           (round (Concluir now n) w,
            mk_console rest
              (stdout c ++ texto_cabecalho ++ py"Escolha uma opção: "
               ++ py"Nome da tarefa para concluir: "
               ++ match fst (TaskManager.concluir_tarefa now n w) with
                  | Ok _ => py"Tarefa concluída!"
                  | Raise e => py"Erro: " ++ str_exn e
                  end
               ++ [10] ++ py"Pressione Enter para continuar..."))))
  /\ (forall n,
        stdin c = py"4" :: n :: enter :: rest ->
        iteration capitalize str_exn now (w, c)
        = (inl Continue,
           (round (Remover n) w,
            mk_console rest
              (stdout c ++ texto_cabecalho ++ py"Escolha uma opção: "
               ++ py"Nome da tarefa para remover: "
               ++ match fst (TaskManager.remover_tarefa n w) with
                  | Ok _ => py"Tarefa removida!"
                  | Raise e => py"Erro: " ++ str_exn e
                  end
               ++ [10] ++ py"Pressione Enter para continuar..."))))
  /\ (forall opcao,
        ~ In opcao [py"1"; py"2"; py"3"; py"4"; py"5"] ->
        stdin c = opcao :: enter :: rest ->
        iteration capitalize str_exn now (w, c)
        = (inl Continue,
           (w,
            mk_console rest
              (stdout c ++ texto_cabecalho ++ py"Escolha uma opção: "
               ++ py"Opção inválida!"
               ++ [10] ++ py"Pressione Enter para continuar...")))).
Proof.
  split; [|split; [|split]].
  - intros n p k Hin. rewrite iteration_run, Hin. unfold tratar, escolha.
    change (Str.eqb py"1" py"1") with true. cbv iota.
    run_io. cbn [round].
    destruct (TaskManager.adicionar_tarefa now n p k w) as [[u|e] w'];
      cbv iota beta; cbn [fst snd stdin stdout];
      rewrite <- !app_assoc; reflexivity.
  - intros n Hin. rewrite iteration_run, Hin. unfold tratar, escolha.
    change (Str.eqb py"3" py"1") with false.
    change (Str.eqb py"3" py"2") with false.
    change (Str.eqb py"3" py"3") with true. cbv iota.
    run_io. cbn [round].
    destruct (TaskManager.concluir_tarefa now n w) as [[u|e] w'];
      cbv iota beta; cbn [fst snd stdin stdout];
      rewrite <- !app_assoc; reflexivity.
  - intros n Hin. rewrite iteration_run, Hin. unfold tratar, escolha.
    change (Str.eqb py"4" py"1") with false.
    change (Str.eqb py"4" py"2") with false.
    change (Str.eqb py"4" py"3") with false.
    change (Str.eqb py"4" py"4") with true. cbv iota.
    run_io. cbn [round].
    destruct (TaskManager.remover_tarefa n w) as [[u|e] w'];
      cbv iota beta; cbn [fst snd stdin stdout];
      rewrite <- !app_assoc; reflexivity.
  - intros opcao Hop Hin. rewrite iteration_run, Hin.
    unfold tratar, escolha.
    assert (E : forall t, In t [py"1"; py"2"; py"3"; py"4"; py"5"] ->
                          Str.eqb opcao t = false).
    { intros t Ht. apply eqb_neq. intros ->. contradiction. }
    rewrite !E by (cbn [In]; auto 6).
    run_io. rewrite <- !app_assoc; reflexivity.
Qed.

End MenuFacts.


Lemma X21_witness :
  in_step
    (fst (snd (loop capitalize_ascii mensagem sem_relogio 10 0
                 (repetido, mk_console [py"3"; py"X"; py""; py"5"] [])))).
Proof.
  apply (proj1 (proj2 (proj2
           (X21_menu_invariants capitalize_ascii mensagem sem_relogio 10 0
              repetido (mk_console [py"3"; py"X"; py""; py"5"] []))))).
  reflexivity.
Defined.

Lemma X22_witness :
  In (py"5") [py"9"; py""; py"5"; py"1"]
  /\ exists before,
       stdout (snd (snd (loop capitalize_ascii mensagem sem_relogio 10 0
                           (fresh, mk_console [py"9"; py""; py"5"; py"1"]
                                              []))))
       = before ++ py"Saindo..." ++ [10].
Proof.
  apply (X22_menu_returns capitalize_ascii mensagem sem_relogio 10 0 fresh
           (mk_console [py"9"; py""; py"5"; py"1"] [])).
  reflexivity.
Defined.

Lemma X23_witness :
  exists l,
    TaskManager.listar_tarefas
      (if Str.eqb (Py.lower (py"PENDENTE")) py"pendente" then Some false
       else if Str.eqb (Py.lower (py"PENDENTE")) py"concluída"
            then Some true else None) repetido
    = (Ok l, repetido)
    /\ iteration capitalize_ascii mensagem dia2
         (repetido, mk_console [py"2"; py"PENDENTE"; py""] [])
       = (inl Continue,
          (repetido,
           mk_console []
             ([] ++ texto_cabecalho ++ py"Escolha uma opção: "
              ++ py"Filtrar por status? (pendente/concluída/todas): "
              ++ flat_map (fun x => linha_tarefa capitalize_ascii x ++ [10]) l
              ++ py"Pressione Enter para continuar..."))).
Proof.
  apply (X23_menu_lists capitalize_ascii mensagem dia2 repetido
           (mk_console [py"2"; py"PENDENTE"; py""] [])
           (py"PENDENTE") (py"") []).
  reflexivity.
Defined.

Lemma X24_witness :
  iteration capitalize_ascii mensagem dia2
    (repetido, mk_console [py"3"; py"Y"; py""] [])
  = (inl Continue,
     (round (Concluir dia2 (py"Y")) repetido,
      mk_console []
        ([] ++ texto_cabecalho ++ py"Escolha uma opção: "
         ++ py"Nome da tarefa para concluir: "
         ++ match fst (TaskManager.concluir_tarefa dia2 (py"Y") repetido) with
            | Ok _ => py"Tarefa concluída!"
            | Raise e => py"Erro: " ++ mensagem e
            end
         ++ [10] ++ py"Pressione Enter para continuar..."))).
Proof.
  apply (proj1 (proj2 (X24_menu_dispatch capitalize_ascii mensagem dia2
                         repetido (mk_console [py"3"; py"Y"; py""] [])
                         (py"") []))
           (py"Y")).
  reflexivity.
Defined.

(** A session of the menu, as it is written on the console. *)
Example menu_session :
  menu_principal capitalize_ascii mensagem sem_relogio dia2 10 no_disk
    [py"1"; py"X"; py"ALTA"; py"c"; py""; py"3"; py"Y"; py""; py"5"]
  = (Returned,
     File.write (py"tarefas.txt")
       (py"X;alta;c;2024-01-05T09:30:00;False;None" ++ [10]) no_disk,
     mk_console []
       (texto_cabecalho ++ py"Escolha uma opção: " ++ py"Nome: "
        ++ py"Prioridade (baixa/média/alta): " ++ py"Categoria: "
        ++ py"Tarefa adicionada!" ++ [10]
        ++ py"Pressione Enter para continuar..."
        ++ texto_cabecalho ++ py"Escolha uma opção: "
        ++ py"Nome da tarefa para concluir: "
        ++ py"Erro: Tarefa não encontrada." ++ [10]
        ++ py"Pressione Enter para continuar..."
        ++ texto_cabecalho ++ py"Escolha uma opção: "
        ++ py"Saindo..." ++ [10])).
Proof. reflexivity. Qed.
